(** * LLM dependency bot: a shallow embedding of [src/agent.py]

    The development follows the layers of the agent:
    perception ([_get_ci_status], [_parse_dependency_info],
    [_is_security_update]), tools ([_execute_tool] and the three tool
    bodies), decision ([decide_with_llm], [_fallback_decision]).

    Conventions of the embedding.
    - A Python [str] is the [string] of its UTF-8 bytes.  Length,
      slicing, [strip] and the classes [\d] and [\w] go by character, with
      the tables of Unicode; [lower] is exact as far as ASCII letters are
      concerned (see [PyStr]).
    - A Python exception is a value of [exn]; code that can raise returns
      a [result].  [print] calls only log and are not modelled.
    - The outside world (the network behind [requests.request], the
      reasoning service, [json.loads], [int]) enters as parameters of the
      functions that call it. *)

From Stdlib Require Import ZArith Ascii String Lia Bool List.
From Stdlib Require Import Numbers.DecimalString.
From stdpp Require Import base option list strings gmap.

Local Open Scope string_scope.

(** ** Python strings

    A [str] is held as the [string] of its UTF-8 bytes.  Equality,
    concatenation, substring search and splitting at an ASCII separator
    give the same result on the bytes as on the characters.  Length,
    slicing, whitespace and the character classes go by character: they
    find where a character starts and decode it. *)

Module PyStr.

Definition nl : string := String "010" "".
Definition dq : string := String "034" "".

Definition cat (l : list string) : string := fold_right String.append "" l.

(** A byte [10xxxxxx] continues a character; any other byte starts
    one. *)
Definition is_cont (c : ascii) : bool :=
  let n := nat_of_ascii c in (128 <=? n)%nat && (n <? 192)%nat.

(** [len(s)]: the number of characters. *)
Fixpoint len (s : string) : nat :=
  match s with
  | "" => O
  | String c s' => if is_cont c then len s' else S (len s')
  end.

(** [s[:n]]: the first [n] characters. *)
Fixpoint take (n : nat) (s : string) : string :=
  match s with
  | "" => ""
  | String c s' =>
      if is_cont c then String c (take n s')
      else match n with
           | O => ""
           | S n' => String c (take n' s')
           end
  end.

(** The payload of a continuation byte. *)
Definition cont (c : ascii) : option N :=
  if is_cont c then Some (N_of_ascii c - 128)%N else None.

(** The character at the start of [s], as its code point, and what
    follows it; [None] at the end of [s] and where the bytes are not the
    UTF-8 form of a character.  A lone surrogate, which a [str] can hold,
    has no UTF-8 form: its three bytes count as one character for [len]
    and slicing and belong to no class, as in Python. *)
Definition next_char (s : string) : option (N * string) :=
  match s with
  | "" => None
  | String b0 s1 =>
      let n0 := N_of_ascii b0 in
      if (n0 <? 128)%N then Some (n0, s1)
      else if (n0 <? 192)%N then None
      else if (n0 <? 224)%N then
        match s1 with
        | String b1 s2 =>
            match cont b1 with
            | Some x1 =>
                let cp := ((n0 - 192) * 64 + x1)%N in
                if (128 <=? cp)%N then Some (cp, s2) else None
            | None => None
            end
        | "" => None
        end
      else if (n0 <? 240)%N then
        match s1 with
        | String b1 (String b2 s3) =>
            match cont b1, cont b2 with
            | Some x1, Some x2 =>
                let cp := (((n0 - 224) * 64 + x1) * 64 + x2)%N in
                if (2048 <=? cp)%N && negb ((55296 <=? cp)%N && (cp <=? 57343)%N)
                then Some (cp, s3) else None
            | _, _ => None
            end
        | _ => None
        end
      else if (n0 <? 248)%N then
        match s1 with
        | String b1 (String b2 (String b3 s4)) =>
            match cont b1, cont b2, cont b3 with
            | Some x1, Some x2, Some x3 =>
                let cp := ((((n0 - 240) * 64 + x1) * 64 + x2) * 64 + x3)%N in
                if (65536 <=? cp)%N && (cp <=? 1114111)%N
                then Some (cp, s4) else None
            | _, _, _ => None
            end
        | _ => None
        end
      else None
  end.

(** Whether [s] is a sequence of characters that are all in the class
    [p]. *)
Fixpoint all_chars_upto (fuel : nat) (p : N -> bool) (s : string) : bool :=
  match s with
  | "" => true
  | String _ _ =>
      match fuel with
      | O => false
      | S fuel' =>
          match next_char s with
          | Some (cp, s') => p cp && all_chars_upto fuel' p s'
          | None => false
          end
      end
  end.

Definition all_chars (p : N -> bool) (s : string) : bool :=
  all_chars_upto (String.length s) p s.

(** Membership in a table of code point ranges, ends included. *)
Definition in_ranges (table : list (N * N)) (cp : N) : bool :=
  existsb (fun '(lo, hi) => (lo <=? cp)%N && (cp <=? hi)%N) table.

(** [c.isspace()] *)
Definition whitespace : list (N * N) :=
  [ (9, 13); (28, 32); (133, 133); (160, 160); (5760, 5760); (8192, 8202);
    (8232, 8233); (8239, 8239); (8287, 8287); (12288, 12288) ]%N.

Definition is_space (cp : N) : bool := in_ranges whitespace cp.

(** [c.isdecimal()]: the decimal digits of every script (Unicode
    14.0, the tables of CPython 3.11). *)
Definition decimal_digits : list (N * N) :=
  [
    (48, 57); (1632, 1641); (1776, 1785); (1984, 1993); (2406, 2415);
    (2534, 2543); (2662, 2671); (2790, 2799); (2918, 2927); (3046, 3055);
    (3174, 3183); (3302, 3311); (3430, 3439); (3558, 3567); (3664, 3673);
    (3792, 3801); (3872, 3881); (4160, 4169); (4240, 4249); (6112, 6121);
    (6160, 6169); (6470, 6479); (6608, 6617); (6784, 6793); (6800, 6809);
    (6992, 7001); (7088, 7097); (7232, 7241); (7248, 7257); (42528, 42537);
    (43216, 43225); (43264, 43273); (43472, 43481); (43504, 43513);
    (43600, 43609); (44016, 44025); (65296, 65305); (66720, 66729);
    (68912, 68921); (69734, 69743); (69872, 69881); (69942, 69951);
    (70096, 70105); (70384, 70393); (70736, 70745); (70864, 70873);
    (71248, 71257); (71360, 71369); (71472, 71481); (71904, 71913);
    (72016, 72025); (72784, 72793); (73040, 73049); (73120, 73129);
    (92768, 92777); (92864, 92873); (93008, 93017); (120782, 120831);
    (123200, 123209); (123632, 123641); (125264, 125273); (130032, 130041) ]%N.

Definition is_decimal (cp : N) : bool := in_ranges decimal_digits cp.

(** [c.isalnum()]: letters and numeric characters (Unicode 14.0). *)
Definition alphanumerics : list (N * N) :=
  [
    (48, 57); (65, 90); (97, 122); (170, 170); (178, 179); (181, 181);
    (185, 186); (188, 190); (192, 214); (216, 246); (248, 705); (710, 721);
    (736, 740); (748, 748); (750, 750); (880, 884); (886, 887); (890, 893);
    (895, 895); (902, 902); (904, 906); (908, 908); (910, 929); (931, 1013);
    (1015, 1153); (1162, 1327); (1329, 1366); (1369, 1369); (1376, 1416);
    (1488, 1514); (1519, 1522); (1568, 1610); (1632, 1641); (1646, 1647);
    (1649, 1747); (1749, 1749); (1765, 1766); (1774, 1788); (1791, 1791);
    (1808, 1808); (1810, 1839); (1869, 1957); (1969, 1969); (1984, 2026);
    (2036, 2037); (2042, 2042); (2048, 2069); (2074, 2074); (2084, 2084);
    (2088, 2088); (2112, 2136); (2144, 2154); (2160, 2183); (2185, 2190);
    (2208, 2249); (2308, 2361); (2365, 2365); (2384, 2384); (2392, 2401);
    (2406, 2415); (2417, 2432); (2437, 2444); (2447, 2448); (2451, 2472);
    (2474, 2480); (2482, 2482); (2486, 2489); (2493, 2493); (2510, 2510);
    (2524, 2525); (2527, 2529); (2534, 2545); (2548, 2553); (2556, 2556);
    (2565, 2570); (2575, 2576); (2579, 2600); (2602, 2608); (2610, 2611);
    (2613, 2614); (2616, 2617); (2649, 2652); (2654, 2654); (2662, 2671);
    (2674, 2676); (2693, 2701); (2703, 2705); (2707, 2728); (2730, 2736);
    (2738, 2739); (2741, 2745); (2749, 2749); (2768, 2768); (2784, 2785);
    (2790, 2799); (2809, 2809); (2821, 2828); (2831, 2832); (2835, 2856);
    (2858, 2864); (2866, 2867); (2869, 2873); (2877, 2877); (2908, 2909);
    (2911, 2913); (2918, 2927); (2929, 2935); (2947, 2947); (2949, 2954);
    (2958, 2960); (2962, 2965); (2969, 2970); (2972, 2972); (2974, 2975);
    (2979, 2980); (2984, 2986); (2990, 3001); (3024, 3024); (3046, 3058);
    (3077, 3084); (3086, 3088); (3090, 3112); (3114, 3129); (3133, 3133);
    (3160, 3162); (3165, 3165); (3168, 3169); (3174, 3183); (3192, 3198);
    (3200, 3200); (3205, 3212); (3214, 3216); (3218, 3240); (3242, 3251);
    (3253, 3257); (3261, 3261); (3293, 3294); (3296, 3297); (3302, 3311);
    (3313, 3314); (3332, 3340); (3342, 3344); (3346, 3386); (3389, 3389);
    (3406, 3406); (3412, 3414); (3416, 3425); (3430, 3448); (3450, 3455);
    (3461, 3478); (3482, 3505); (3507, 3515); (3517, 3517); (3520, 3526);
    (3558, 3567); (3585, 3632); (3634, 3635); (3648, 3654); (3664, 3673);
    (3713, 3714); (3716, 3716); (3718, 3722); (3724, 3747); (3749, 3749);
    (3751, 3760); (3762, 3763); (3773, 3773); (3776, 3780); (3782, 3782);
    (3792, 3801); (3804, 3807); (3840, 3840); (3872, 3891); (3904, 3911);
    (3913, 3948); (3976, 3980); (4096, 4138); (4159, 4169); (4176, 4181);
    (4186, 4189); (4193, 4193); (4197, 4198); (4206, 4208); (4213, 4225);
    (4238, 4238); (4240, 4249); (4256, 4293); (4295, 4295); (4301, 4301);
    (4304, 4346); (4348, 4680); (4682, 4685); (4688, 4694); (4696, 4696);
    (4698, 4701); (4704, 4744); (4746, 4749); (4752, 4784); (4786, 4789);
    (4792, 4798); (4800, 4800); (4802, 4805); (4808, 4822); (4824, 4880);
    (4882, 4885); (4888, 4954); (4969, 4988); (4992, 5007); (5024, 5109);
    (5112, 5117); (5121, 5740); (5743, 5759); (5761, 5786); (5792, 5866);
    (5870, 5880); (5888, 5905); (5919, 5937); (5952, 5969); (5984, 5996);
    (5998, 6000); (6016, 6067); (6103, 6103); (6108, 6108); (6112, 6121);
    (6128, 6137); (6160, 6169); (6176, 6264); (6272, 6276); (6279, 6312);
    (6314, 6314); (6320, 6389); (6400, 6430); (6470, 6509); (6512, 6516);
    (6528, 6571); (6576, 6601); (6608, 6618); (6656, 6678); (6688, 6740);
    (6784, 6793); (6800, 6809); (6823, 6823); (6917, 6963); (6981, 6988);
    (6992, 7001); (7043, 7072); (7086, 7141); (7168, 7203); (7232, 7241);
    (7245, 7293); (7296, 7304); (7312, 7354); (7357, 7359); (7401, 7404);
    (7406, 7411); (7413, 7414); (7418, 7418); (7424, 7615); (7680, 7957);
    (7960, 7965); (7968, 8005); (8008, 8013); (8016, 8023); (8025, 8025);
    (8027, 8027); (8029, 8029); (8031, 8061); (8064, 8116); (8118, 8124);
    (8126, 8126); (8130, 8132); (8134, 8140); (8144, 8147); (8150, 8155);
    (8160, 8172); (8178, 8180); (8182, 8188); (8304, 8305); (8308, 8313);
    (8319, 8329); (8336, 8348); (8450, 8450); (8455, 8455); (8458, 8467);
    (8469, 8469); (8473, 8477); (8484, 8484); (8486, 8486); (8488, 8488);
    (8490, 8493); (8495, 8505); (8508, 8511); (8517, 8521); (8526, 8526);
    (8528, 8585); (9312, 9371); (9450, 9471); (10102, 10131);
    (11264, 11492); (11499, 11502); (11506, 11507); (11517, 11517);
    (11520, 11557); (11559, 11559); (11565, 11565); (11568, 11623);
    (11631, 11631); (11648, 11670); (11680, 11686); (11688, 11694);
    (11696, 11702); (11704, 11710); (11712, 11718); (11720, 11726);
    (11728, 11734); (11736, 11742); (11823, 11823); (12293, 12295);
    (12321, 12329); (12337, 12341); (12344, 12348); (12353, 12438);
    (12445, 12447); (12449, 12538); (12540, 12543); (12549, 12591);
    (12593, 12686); (12690, 12693); (12704, 12735); (12784, 12799);
    (12832, 12841); (12872, 12879); (12881, 12895); (12928, 12937);
    (12977, 12991); (13312, 19903); (19968, 42124); (42192, 42237);
    (42240, 42508); (42512, 42539); (42560, 42606); (42623, 42653);
    (42656, 42735); (42775, 42783); (42786, 42888); (42891, 42954);
    (42960, 42961); (42963, 42963); (42965, 42969); (42994, 43009);
    (43011, 43013); (43015, 43018); (43020, 43042); (43056, 43061);
    (43072, 43123); (43138, 43187); (43216, 43225); (43250, 43255);
    (43259, 43259); (43261, 43262); (43264, 43301); (43312, 43334);
    (43360, 43388); (43396, 43442); (43471, 43481); (43488, 43492);
    (43494, 43518); (43520, 43560); (43584, 43586); (43588, 43595);
    (43600, 43609); (43616, 43638); (43642, 43642); (43646, 43695);
    (43697, 43697); (43701, 43702); (43705, 43709); (43712, 43712);
    (43714, 43714); (43739, 43741); (43744, 43754); (43762, 43764);
    (43777, 43782); (43785, 43790); (43793, 43798); (43808, 43814);
    (43816, 43822); (43824, 43866); (43868, 43881); (43888, 44002);
    (44016, 44025); (44032, 55203); (55216, 55238); (55243, 55291);
    (63744, 64109); (64112, 64217); (64256, 64262); (64275, 64279);
    (64285, 64285); (64287, 64296); (64298, 64310); (64312, 64316);
    (64318, 64318); (64320, 64321); (64323, 64324); (64326, 64433);
    (64467, 64829); (64848, 64911); (64914, 64967); (65008, 65019);
    (65136, 65140); (65142, 65276); (65296, 65305); (65313, 65338);
    (65345, 65370); (65382, 65470); (65474, 65479); (65482, 65487);
    (65490, 65495); (65498, 65500); (65536, 65547); (65549, 65574);
    (65576, 65594); (65596, 65597); (65599, 65613); (65616, 65629);
    (65664, 65786); (65799, 65843); (65856, 65912); (65930, 65931);
    (66176, 66204); (66208, 66256); (66273, 66299); (66304, 66339);
    (66349, 66378); (66384, 66421); (66432, 66461); (66464, 66499);
    (66504, 66511); (66513, 66517); (66560, 66717); (66720, 66729);
    (66736, 66771); (66776, 66811); (66816, 66855); (66864, 66915);
    (66928, 66938); (66940, 66954); (66956, 66962); (66964, 66965);
    (66967, 66977); (66979, 66993); (66995, 67001); (67003, 67004);
    (67072, 67382); (67392, 67413); (67424, 67431); (67456, 67461);
    (67463, 67504); (67506, 67514); (67584, 67589); (67592, 67592);
    (67594, 67637); (67639, 67640); (67644, 67644); (67647, 67669);
    (67672, 67702); (67705, 67742); (67751, 67759); (67808, 67826);
    (67828, 67829); (67835, 67867); (67872, 67897); (67968, 68023);
    (68028, 68047); (68050, 68096); (68112, 68115); (68117, 68119);
    (68121, 68149); (68160, 68168); (68192, 68222); (68224, 68255);
    (68288, 68295); (68297, 68324); (68331, 68335); (68352, 68405);
    (68416, 68437); (68440, 68466); (68472, 68497); (68521, 68527);
    (68608, 68680); (68736, 68786); (68800, 68850); (68858, 68899);
    (68912, 68921); (69216, 69246); (69248, 69289); (69296, 69297);
    (69376, 69415); (69424, 69445); (69457, 69460); (69488, 69505);
    (69552, 69579); (69600, 69622); (69635, 69687); (69714, 69743);
    (69745, 69746); (69749, 69749); (69763, 69807); (69840, 69864);
    (69872, 69881); (69891, 69926); (69942, 69951); (69956, 69956);
    (69959, 69959); (69968, 70002); (70006, 70006); (70019, 70066);
    (70081, 70084); (70096, 70106); (70108, 70108); (70113, 70132);
    (70144, 70161); (70163, 70187); (70272, 70278); (70280, 70280);
    (70282, 70285); (70287, 70301); (70303, 70312); (70320, 70366);
    (70384, 70393); (70405, 70412); (70415, 70416); (70419, 70440);
    (70442, 70448); (70450, 70451); (70453, 70457); (70461, 70461);
    (70480, 70480); (70493, 70497); (70656, 70708); (70727, 70730);
    (70736, 70745); (70751, 70753); (70784, 70831); (70852, 70853);
    (70855, 70855); (70864, 70873); (71040, 71086); (71128, 71131);
    (71168, 71215); (71236, 71236); (71248, 71257); (71296, 71338);
    (71352, 71352); (71360, 71369); (71424, 71450); (71472, 71483);
    (71488, 71494); (71680, 71723); (71840, 71922); (71935, 71942);
    (71945, 71945); (71948, 71955); (71957, 71958); (71960, 71983);
    (71999, 71999); (72001, 72001); (72016, 72025); (72096, 72103);
    (72106, 72144); (72161, 72161); (72163, 72163); (72192, 72192);
    (72203, 72242); (72250, 72250); (72272, 72272); (72284, 72329);
    (72349, 72349); (72368, 72440); (72704, 72712); (72714, 72750);
    (72768, 72768); (72784, 72812); (72818, 72847); (72960, 72966);
    (72968, 72969); (72971, 73008); (73030, 73030); (73040, 73049);
    (73056, 73061); (73063, 73064); (73066, 73097); (73112, 73112);
    (73120, 73129); (73440, 73458); (73648, 73648); (73664, 73684);
    (73728, 74649); (74752, 74862); (74880, 75075); (77712, 77808);
    (77824, 78894); (82944, 83526); (92160, 92728); (92736, 92766);
    (92768, 92777); (92784, 92862); (92864, 92873); (92880, 92909);
    (92928, 92975); (92992, 92995); (93008, 93017); (93019, 93025);
    (93027, 93047); (93053, 93071); (93760, 93846); (93952, 94026);
    (94032, 94032); (94099, 94111); (94176, 94177); (94179, 94179);
    (94208, 100343); (100352, 101589); (101632, 101640); (110576, 110579);
    (110581, 110587); (110589, 110590); (110592, 110882); (110928, 110930);
    (110948, 110951); (110960, 111355); (113664, 113770); (113776, 113788);
    (113792, 113800); (113808, 113817); (119520, 119539); (119648, 119672);
    (119808, 119892); (119894, 119964); (119966, 119967); (119970, 119970);
    (119973, 119974); (119977, 119980); (119982, 119993); (119995, 119995);
    (119997, 120003); (120005, 120069); (120071, 120074); (120077, 120084);
    (120086, 120092); (120094, 120121); (120123, 120126); (120128, 120132);
    (120134, 120134); (120138, 120144); (120146, 120485); (120488, 120512);
    (120514, 120538); (120540, 120570); (120572, 120596); (120598, 120628);
    (120630, 120654); (120656, 120686); (120688, 120712); (120714, 120744);
    (120746, 120770); (120772, 120779); (120782, 120831); (122624, 122654);
    (123136, 123180); (123191, 123197); (123200, 123209); (123214, 123214);
    (123536, 123565); (123584, 123627); (123632, 123641); (124896, 124902);
    (124904, 124907); (124909, 124910); (124912, 124926); (124928, 125124);
    (125127, 125135); (125184, 125251); (125259, 125259); (125264, 125273);
    (126065, 126123); (126125, 126127); (126129, 126132); (126209, 126253);
    (126255, 126269); (126464, 126467); (126469, 126495); (126497, 126498);
    (126500, 126500); (126503, 126503); (126505, 126514); (126516, 126519);
    (126521, 126521); (126523, 126523); (126530, 126530); (126535, 126535);
    (126537, 126537); (126539, 126539); (126541, 126543); (126545, 126546);
    (126548, 126548); (126551, 126551); (126553, 126553); (126555, 126555);
    (126557, 126557); (126559, 126559); (126561, 126562); (126564, 126564);
    (126567, 126570); (126572, 126578); (126580, 126583); (126585, 126588);
    (126590, 126590); (126592, 126601); (126603, 126619); (126625, 126627);
    (126629, 126633); (126635, 126651); (127232, 127244); (130032, 130041);
    (131072, 173791); (173824, 177976); (177984, 178205); (178208, 183969);
    (183984, 191456); (194560, 195101); (196608, 201546) ]%N.

Definition is_alnum (cp : N) : bool := in_ranges alphanumerics cp.

Definition is_upper (c : ascii) : bool :=
  let n := nat_of_ascii c in (65 <=? n)%nat && (n <=? 90)%nat.

Definition is_lower (c : ascii) : bool :=
  let n := nat_of_ascii c in (97 <=? n)%nat && (n <=? 122)%nat.

(** The lowercase form of an ASCII capital; every other byte is left
    as it is. *)
Definition lower_char (c : ascii) : ascii :=
  if is_upper c then ascii_of_nat (nat_of_ascii c + 32) else c.

(** [s.lower()], as far as ASCII letters go.  ASCII capitals are
    lowered, and so are the two characters outside ASCII whose lowercase
    form holds an ASCII letter: the Kelvin sign U+212A (bytes 226 132 170)
    becomes [k], and the dotted capital I U+0130 (bytes 196 176) becomes
    [i] followed by the combining dot U+0307 (bytes 204 135).  Every other
    character is left as it is: its lowercase form has no ASCII character,
    and the lowered text is only ever searched for an ASCII word or
    compared with one. *)
Fixpoint lower (s : string) : string :=
  match s with
  | "" => ""
  | String c s' =>
      match s' with
      | "" => String (lower_char c) ""
      | String c2 s2 =>
          if Ascii.eqb c "196" && Ascii.eqb c2 "176" then
            String "i" (String "204" (String "135" (lower s2)))
          else
            match s2 with
            | "" => String (lower_char c) (lower s')
            | String c3 s3 =>
                if Ascii.eqb c "226" && Ascii.eqb c2 "132" && Ascii.eqb c3 "170"
                then String "k" (lower s3)
                else String (lower_char c) (lower s')
            end
      end
  end.

(** [needle in hay] *)
Fixpoint contains (needle hay : string) : bool :=
  String.prefix needle hay ||
  match hay with
  | "" => false
  | String _ hay' => contains needle hay'
  end.

(** [s.lstrip()]: without its leading whitespace characters. *)
Fixpoint lstrip_upto (fuel : nat) (s : string) : string :=
  match fuel with
  | O => s
  | S fuel' =>
      match next_char s with
      | Some (cp, s') => if is_space cp then lstrip_upto fuel' s' else s
      | None => s
      end
  end.

Definition lstrip (s : string) : string := lstrip_upto (String.length s) s.

(** [s.rstrip()]: up to the place from which only whitespace
    characters follow. *)
Fixpoint rstrip (s : string) : string :=
  match s with
  | "" => ""
  | String c s' => if all_chars is_space s then "" else String c (rstrip s')
  end.

(** [s.strip()] *)
Definition strip (s : string) : string := rstrip (lstrip s).

(** [s.split(sep)] for a one-character separator: never empty. *)
Fixpoint split (sep : ascii) (s : string) : list string :=
  match s with
  | "" => [""]
  | String c s' =>
      if Ascii.eqb c sep then "" :: split sep s'
      else match split sep s' with
           | p :: ps => String c p :: ps
           | [] => [String c ""]
           end
  end.

(** [sep.join(l)] *)
Fixpoint join (sep : string) (l : list string) : string :=
  match l with
  | [] => ""
  | [x] => x
  | x :: l' => x +:+ sep +:+ join sep l'
  end.

(** [str(n)] for an integer *)
Definition of_Z (z : Z) : string := NilZero.string_of_int (Z.to_int z).

(** [str(b)] for a bool *)
Definition of_bool (b : bool) : string := if b then "True" else "False".

End PyStr.

(** ** Exceptions *)

Inductive exn : Type :=
| KeyError (key : string)
| TypeError (msg : string)
| HTTPError (msg : string)
| JSONDecodeError (msg : string)
| OtherError (msg : string).

(** [str(e)] *)
Definition exn_str (e : exn) : string :=
  match e with
  | KeyError k => "'" +:+ k +:+ "'"
  | TypeError m | HTTPError m | JSONDecodeError m | OtherError m => m
  end.

Inductive result (A : Type) : Type :=
| Ok (a : A)
| Raise (e : exn).
Arguments Ok {A} a.
Arguments Raise {A} e.

Definition bind {A B} (m : result A) (f : A -> result B) : result B :=
  match m with
  | Ok a => f a
  | Raise e => Raise e
  end.

(** ** Data model *)

Inductive RiskLevel : Type := LOW | MEDIUM | HIGH | CRITICAL.

Inductive MergeDecision : Type := AUTO_MERGE | REQUIRE_APPROVAL | DO_NOT_MERGE.

Record PRContext : Type := {
  number : Z;
  title : string;
  body : string;
  labels : list string;
  author : string;
  is_draft : bool;
  mergeable : bool;
  mergeable_state : string;
  ci_status : string;
  ci_conclusion : option string;
  update_type : string;
  old_version : string;
  new_version : string;
  dependency_name : string;
  is_security_update : bool;
  target_branch : string;
  files_changed : list string
}.

(** ** Decision layer: the fallback table *)

Definition fallback_reasoning (llm_response : string) : string :=
  "Fallback decision used due to parsing error." +:+ PyStr.nl +:+ PyStr.nl
  +:+ PyStr.take 500 llm_response.

Definition _fallback_decision (context : PRContext) (llm_response : string)
  : MergeDecision * RiskLevel * string :=
  let reasoning := fallback_reasoning llm_response in
  if String.eqb (ci_status context) "failure" || negb (mergeable context) then
    (DO_NOT_MERGE, CRITICAL, reasoning)
  else if String.eqb (update_type context) "major" then
    (REQUIRE_APPROVAL, HIGH, reasoning)
  else if is_security_update context
          || existsb (String.eqb (update_type context)) ["minor"; "patch"] then
    (AUTO_MERGE, LOW, reasoning)
  else
    (REQUIRE_APPROVAL, MEDIUM, reasoning).

(** ** Regular expressions, as Python's [re] runs them

    A backtracking matcher: alternatives are tried in priority order
    (a greedy repetition takes one more character first, a lazy one
    tries the rest of the pattern first), and [search] returns the match
    at the leftmost starting position.

    The classes [\d] and [\w] are classes of characters and are run
    over the characters of the text.  Literal characters, [.] and
    [[\s\S]] are run over its bytes.  The literals of the patterns are
    ASCII, and under [re.IGNORECASE] each of their letters (none is i, k
    or s) matches its two ASCII forms and no other character.  What
    follows a repetition of [.] or [[\s\S]] in the patterns is an ASCII
    literal, which matches only where a character starts, so the
    repetition over the bytes stops where the repetition over the
    characters does. *)

Module Re.

Inductive regex : Type :=
| Chr (p : ascii -> bool)                (* one byte of a class *)
| Cls (p : N -> bool)                    (* one character of a class *)
| Cat (r1 r2 : regex)                    (* r1 r2 *)
| Opt (r : regex)                        (* r?  (greedy) *)
| Star (greedy : bool) (p : ascii -> bool)  (* p*  or  p*?, over bytes *)
| ClsStar (p : N -> bool)                (* p*, over characters *)
| Grp (n : nat) (r : regex).             (* capturing group n *)

Definition Plus (greedy : bool) (p : ascii -> bool) : regex :=
  Cat (Chr p) (Star greedy p).

Definition ClsPlus (p : N -> bool) : regex := Cat (Cls p) (ClsStar p).

(** Classes of bytes. *)
Definition any : ascii -> bool := fun _ => true.           (* [\s\S] *)
Definition dot : ascii -> bool := fun c => negb (Ascii.eqb c "010").  (* . *)
Definition lit (x : ascii) : ascii -> bool := Ascii.eqb x.
Definition lit_i (x : ascii) : ascii -> bool :=            (* re.IGNORECASE *)
  fun c => Ascii.eqb (PyStr.lower_char x) (PyStr.lower_char c).

(** Classes of characters. *)
Definition digit : N -> bool := PyStr.is_decimal.          (* \d *)
Definition word : N -> bool :=                             (* \w *)
  fun cp => PyStr.is_alnum cp || (cp =? 95)%N.
Definition digit_dot : N -> bool := fun cp => digit cp || (cp =? 46)%N.
Definition word_dot : N -> bool := fun cp => word cp || (cp =? 46)%N.

(** A text with its ASCII capitals lowered: what a literal under
    [re.IGNORECASE] is compared with. *)
Fixpoint fold_case (s : string) : string :=
  match s with
  | "" => ""
  | String c s' => String (PyStr.lower_char c) (fold_case s')
  end.

(** A literal word, with or without [re.IGNORECASE], followed by [r]. *)
Fixpoint Lit (s : string) (r : regex) : regex :=
  match s with
  | "" => r
  | String c s' => Cat (Chr (lit c)) (Lit s' r)
  end.

Fixpoint LitI (s : string) (r : regex) : regex :=
  match s with
  | "" => r
  | String c s' => Cat (Chr (lit_i c)) (LitI s' r)
  end.

(** The empty pattern, as a repetition that is never entered. *)
Definition Eps : regex := Star false (fun _ => false).

Abbreviation groups := (gmap nat string).

(** The first [n] bytes of [s]. *)
Fixpoint first_bytes (n : nat) (s : string) : string :=
  match n, s with
  | S n', String c s' => String c (first_bytes n' s')
  | _, _ => ""
  end.

(** What was consumed between the suffixes [s] and [s']. *)
Definition consumed (s s' : string) : string :=
  first_bytes (String.length s - String.length s') s.

Section Matcher.
Context {R : Type}.

Fixpoint star_greedy (p : ascii -> bool) (s : string)
         (k : string -> option R) : option R :=
  match s with
  | String c s' =>
      if p c then
        match star_greedy p s' k with
        | Some x => Some x
        | None => k s
        end
      else k s
  | "" => k s
  end.

Fixpoint star_lazy (p : ascii -> bool) (s : string)
         (k : string -> option R) : option R :=
  match k s with
  | Some x => Some x
  | None =>
      match s with
      | String c s' => if p c then star_lazy p s' k else None
      | "" => None
      end
  end.

(** A greedy repetition over characters; [fuel] bounds the number of
    characters taken, and the matcher gives it the length of the text. *)
Fixpoint cls_star (fuel : nat) (p : N -> bool) (s : string)
         (k : string -> option R) : option R :=
  match fuel with
  | O => k s
  | S fuel' =>
      match PyStr.next_char s with
      | Some (cp, s') =>
          if p cp then
            match cls_star fuel' p s' k with
            | Some x => Some x
            | None => k s
            end
          else k s
      | None => k s
      end
  end.

Fixpoint run (r : regex) (s : string) (g : groups)
         (k : string -> groups -> option R) : option R :=
  match r with
  | Chr p =>
      match s with
      | String c s' => if p c then k s' g else None
      | "" => None
      end
  | Cls p =>
      match PyStr.next_char s with
      | Some (cp, s') => if p cp then k s' g else None
      | None => None
      end
  | Cat r1 r2 => run r1 s g (fun s' g' => run r2 s' g' k)
  | Opt r =>
      match run r s g k with
      | Some x => Some x
      | None => k s g
      end
  | Star true p => star_greedy p s (fun s' => k s' g)
  | Star false p => star_lazy p s (fun s' => k s' g)
  | ClsStar p => cls_star (String.length s) p s (fun s' => k s' g)
  | Grp n r => run r s g (fun s' g' => k s' (<[n := consumed s s']> g'))
  end.
End Matcher.

(** [re.match]: the pattern anchored at the start of [s]; group 0 is
    the whole match. *)
Definition match_at (r : regex) (s : string) : option groups :=
  run (Grp 0 r) s ∅ (fun _ g => Some g).

(** [re.search] *)
Fixpoint search (r : regex) (s : string) : option groups :=
  match match_at r s with
  | Some g => Some g
  | None =>
      match s with
      | String _ s' => search r s'
      | "" => None
      end
  end.

(** [m.group(n)] for a group that took part in the match. *)
Definition group (n : nat) (g : groups) : string := default "" (g !! n).

End Re.

(** ** Perception layer *)

(** One entry of [check_runs].  [status = None] stands for a run
    without the ["status"] key, on which [run["status"]] raises;
    [conclusion = None] stands for a null or missing ["conclusion"]. *)
Record CheckRun : Type := {
  status : option string;
  conclusion : option string
}.

(** Truthiness of [run.get("conclusion")]. *)
Definition truthy (c : option string) : bool :=
  match c with
  | None => false
  | Some s => negb (String.eqb s "")
  end.

(** [[run["status"] for run in check_runs]] *)
Fixpoint statuses_of (check_runs : list CheckRun) : result (list string) :=
  match check_runs with
  | [] => Ok []
  | run :: rest =>
      match status run with
      | None => Raise (KeyError "status")
      | Some s => bind (statuses_of rest) (fun l => Ok (s :: l))
      end
  end.

(** [[run["conclusion"] for run in check_runs if run.get("conclusion")]] *)
Definition conclusions_of (check_runs : list CheckRun) : list string :=
  omap (fun run => if truthy (conclusion run) then conclusion run else None)
       check_runs.

(** The body of the [try] block, after the fetch. *)
Definition ci_status_of (check_runs : list CheckRun)
  : result (string * option string) :=
  if bool_decide (check_runs = []) then Ok ("pending", None)
  else
    bind (statuses_of check_runs) (fun statuses =>
    let conclusions := conclusions_of check_runs in
    if existsb (fun s => negb (String.eqb s "completed")) statuses then
      Ok ("pending", None)
    else if forallb (fun c => String.eqb c "success") conclusions then
      Ok ("success", Some "success")
    else if existsb (fun c => existsb (String.eqb c)
                                ["failure"; "cancelled"; "timed_out"])
                    conclusions then
      Ok ("failure", Some "failure")
    else
      Ok ("pending", None)).

(** [fetch] is the outcome of the check-runs request together with
    [response.json().get("check_runs", [])]. *)
Definition _get_ci_status (fetch : result (list CheckRun))
  : string * option string :=
  match bind fetch ci_status_of with
  | Ok r => r
  | Raise _ => ("unknown", None)
  end.

(** [r"Bump (.+?) from"], [re.IGNORECASE] *)
Definition bump_re : Re.regex :=
  Re.LitI "Bump " (Re.Cat (Re.Grp 1 (Re.Plus false Re.dot))
                          (Re.LitI " from" Re.Eps)).

(** [r"Update (.+?) to"], [re.IGNORECASE] *)
Definition renovate_re : Re.regex :=
  Re.LitI "Update " (Re.Cat (Re.Grp 1 (Re.Plus false Re.dot))
                            (Re.LitI " to" Re.Eps)).

(** [[\d.]+(?:-[\w.]+)?] *)
Definition version_pat : Re.regex :=
  Re.Cat (Re.ClsPlus Re.digit_dot)
         (Re.Opt (Re.Cat (Re.Chr (Re.lit "-")) (Re.ClsPlus Re.word_dot))).

(** [r"from ([\d.]+(?:-[\w.]+)?) to ([\d.]+(?:-[\w.]+)?)"] *)
Definition version_re : Re.regex :=
  Re.Lit "from " (Re.Cat (Re.Grp 1 version_pat)
                 (Re.Lit " to " (Re.Grp 2 version_pat))).

(** The [if len(old_parts) >= 1 and len(new_parts) >= 1:] block;
    [None] when the guard fails and [update_type] keeps its value. *)
Definition semver_update_type (old_parts new_parts : list string)
  : option string :=
  if (1 <=? length old_parts)%nat && (1 <=? length new_parts)%nat then
    if negb (bool_decide (old_parts !! 0%nat = new_parts !! 0%nat)) then
      Some "major"
    else if (2 <=? length old_parts)%nat && (2 <=? length new_parts)%nat
            && negb (bool_decide (old_parts !! 1%nat = new_parts !! 1%nat)) then
      Some "minor"
    else Some "patch"
  else None.

Definition _parse_dependency_info (title body : string)
  : string * string * string * string :=
  let update_type := "unknown" in
  let dependency_name := "unknown" in
  let old_version := "" in
  let new_version := "" in
  let bump_match := Re.search bump_re title in
  let dependency_name :=
    match bump_match with
    | Some m => PyStr.strip (Re.group 1 m)
    | None =>
        match Re.search renovate_re title with
        | Some m => PyStr.strip (Re.group 1 m)
        | None => dependency_name
        end
    end in
  match Re.search version_re title with
  | Some m =>
      let old_version := Re.group 1 m in
      let new_version := Re.group 2 m in
      let old_parts := PyStr.split "." old_version in
      let new_parts := PyStr.split "." new_version in
      let update_type :=
        default update_type (semver_update_type old_parts new_parts) in
      (update_type, old_version, new_version, dependency_name)
  | None => (update_type, old_version, new_version, dependency_name)
  end.

(** [labels] holds the ["name"] of each label dict. *)
Definition _is_security_update (labels : list string) (body : string) : bool :=
  let label_names := map PyStr.lower labels in
  let body_lower := PyStr.lower body in
  existsb (PyStr.contains "security") label_names
  || PyStr.contains "security" body_lower
  || PyStr.contains "cve" body_lower
  || PyStr.contains "vulnerability" body_lower.

(** ** Tools *)

(** A tool argument, typed as the tool schemas declare them:
    ["string"] or ["integer"]. *)
Inductive pyval : Type :=
| PStr (s : string)
| PInt (z : Z).

(** [str(v)], as an f-string renders it. *)
Definition py_str (v : pyval) : string :=
  match v with
  | PStr s => s
  | PInt z => PyStr.of_Z z
  end.

(** [d[key]] on a dict with string keys. *)
Definition getitem {V : Type} (d : gmap string V) (key : string) : result V :=
  match d !! key with
  | Some v => Ok v
  | None => Raise (KeyError key)
  end.

(** The ["required"] list of each entry of [_get_tools_definition]. *)
Definition _get_tools_definition : list (string * list string) :=
  [ ("fetch_release_notes", ["dependency"; "version"]);
    ("check_cve_database", ["dependency"; "version"]);
    ("analyze_diff", ["pr_number"]) ].

(** A call of [requests.request] that is carried out: method and
    URL. *)
Record Request : Type := {
  method : string;
  url : string
}.

Definition api_base : string := "https://api.github.com".

(** What Python raises when a call names the keyword [headers] twice. *)
Definition duplicate_headers : exn :=
  TypeError "requests.api.request() got multiple values for keyword argument 'headers'".

Definition _fetch_release_notes (dependency version : pyval) : string :=
  "Release notes for " +:+ py_str dependency +:+ " " +:+ py_str version
  +:+ " would be fetched from package registry (npm, PyPI, etc.) in production implementation.".

Definition _check_cve_database (dependency version : pyval) : string :=
  "CVE check for " +:+ py_str dependency +:+ " " +:+ py_str version
  +:+ " would query vulnerability databases (GitHub Security, Snyk, etc.) in production implementation.".

(** ** The reasoning service protocol *)

Inductive ContentBlock : Type :=
| TextBlock (text : string)
| ToolUseBlock (id name : string) (input : gmap string pyval)
| OtherBlock.

Record Response : Type := {
  stop_reason : string;
  content : list ContentBlock
}.

Record ToolResult : Type := {
  tool_use_id : string;
  tool_result_content : string
}.

Inductive MessageContent : Type :=
| Prompt (text : string)
| Blocks (assistant_content : list ContentBlock)
| Results (tool_results : list ToolResult).

Record Message : Type := {
  role : string;
  message_content : MessageContent
}.

(** A value that [json.loads] can return. *)
#[warnings="-register-all"]
Inductive json : Type :=
| JNull
| JBool (b : bool)
| JNumber (lexeme : string)
| JString (s : string)
| JArray (l : list json)
| JObject (d : gmap string json).

(** [MergeDecision[v]] and [RiskLevel[v]]: lookup of a member by name. *)
Definition MergeDecision_getitem (v : json) : result MergeDecision :=
  match v with
  | JString s =>
      if String.eqb s "AUTO_MERGE" then Ok AUTO_MERGE
      else if String.eqb s "REQUIRE_APPROVAL" then Ok REQUIRE_APPROVAL
      else if String.eqb s "DO_NOT_MERGE" then Ok DO_NOT_MERGE
      else Raise (KeyError s)
  | JArray _ | JObject _ => Raise (TypeError "unhashable type")
  | _ => Raise (KeyError "")
  end.

Definition RiskLevel_getitem (v : json) : result RiskLevel :=
  match v with
  | JString s =>
      if String.eqb s "LOW" then Ok LOW
      else if String.eqb s "MEDIUM" then Ok MEDIUM
      else if String.eqb s "HIGH" then Ok HIGH
      else if String.eqb s "CRITICAL" then Ok CRITICAL
      else Raise (KeyError s)
  | JArray _ | JObject _ => Raise (TypeError "unhashable type")
  | _ => Raise (KeyError "")
  end.

(** [decision_data[key]] on whatever [json.loads] returned. *)
Definition json_getitem (decision_data : json) (key : string) : result json :=
  match decision_data with
  | JObject d => getitem d key
  | _ => Raise (TypeError "indices must be integers")
  end.

(** [r"\{[\s\S]*\}"] *)
Definition json_re : Re.regex :=
  Re.Cat (Re.Chr (Re.lit "{")) (Re.Cat (Re.Star true Re.any) (Re.Chr (Re.lit "}"))).

(** The result of the decision layer.  The reasoning is whatever the
    ["reasoning"] field holds; the fallback's is a string. *)
Definition Verdict : Type := MergeDecision * RiskLevel * json.

(** The world the decision layer acts on: the requests issued to the
    reasoning service so far, oldest first. *)
Record World : Type := {
  requests : list (list Message)
}.

(** State and exceptions. *)
Definition M (A : Type) : Type := World -> result A * World.

Definition ret {A} (a : A) : M A := fun w => (Ok a, w).
Definition raise {A} (e : exn) : M A := fun w => (Raise e, w).
Definition lift {A} (r : result A) : M A := fun w => (r, w).
Definition mbind {A B} (m : M A) (f : A -> M B) : M B :=
  fun w => match m w with
           | (Ok a, w') => f a w'
           | (Raise e, w') => (Raise e, w')
           end.

Notation "x <- m ;; k" := (mbind m (fun x => k))
  (at level 100, m at next level, right associativity).

Definition critical_dependencies : list string :=
  [ "next"; "react"; "vue"; "angular"; "svelte"; "fastapi"; "django"; "flask";
    "express"; "langchain"; "openai"; "anthropic"; "numpy"; "pandas";
    "tensorflow"; "pytorch" ].

Definition max_iterations : nat := 5.

Section Agent.

(** [self.repo], [requests.request] followed by [raise_for_status]
    (the [text] of the response, or the exception raised), [json.loads],
    and [self.anthropic.messages.create] with the fixed system prompt and
    tool definitions. *)
Variable repo : string.
Variable requests_request : Request -> result string.
Variable json_loads : string -> result json.
Variable messages_create : list Message -> result Response.

(** [headers] is the [headers] entry of [**kwargs], if the caller gave
    one.  The call [requests.request(method, url, headers=self.headers,
    **kwargs)] then names [headers] twice, and Python raises before
    [requests.request] is entered. *)
Definition _make_request (method endpoint : string) (headers : option string)
  : result string :=
  let url := api_base +:+ endpoint in
  match headers with
  | Some _ => Raise duplicate_headers
  | None => requests_request {| method := method; url := url |}
  end.

Definition _analyze_diff (pr_number : pyval) : string :=
  match _make_request "GET"
          ("/repos/" +:+ repo +:+ "/pulls/" +:+ py_str pr_number)
          (Some "application/vnd.github.v3.diff") with
  | Ok diff =>
      if (2000 <? PyStr.len diff)%nat then
        PyStr.take 2000 diff +:+ PyStr.nl +:+ "... (truncated for brevity)"
      else diff
  | Raise e => "Could not fetch diff: " +:+ exn_str e
  end.

Definition _execute_tool (tool_name : string) (tool_input : gmap string pyval)
  : result string :=
  if String.eqb tool_name "fetch_release_notes" then
    bind (getitem tool_input "dependency") (fun dependency =>
    bind (getitem tool_input "version") (fun version =>
    Ok (_fetch_release_notes dependency version)))
  else if String.eqb tool_name "check_cve_database" then
    bind (getitem tool_input "dependency") (fun dependency =>
    bind (getitem tool_input "version") (fun version =>
    Ok (_check_cve_database dependency version)))
  else if String.eqb tool_name "analyze_diff" then
    bind (getitem tool_input "pr_number") (fun pr_number =>
    Ok (_analyze_diff pr_number))
  else
    Ok ("Unknown tool: " +:+ tool_name).

(** The [for content_block in response.content] loop of a tool round:
    the tool results, in the order the tools were requested. *)
Fixpoint run_tools (content : list ContentBlock) : result (list ToolResult) :=
  match content with
  | [] => Ok []
  | ToolUseBlock id tool_name tool_input :: rest =>
      bind (_execute_tool tool_name tool_input) (fun tool_result =>
      bind (run_tools rest) (fun tool_results =>
      Ok ({| tool_use_id := id; tool_result_content := tool_result |}
          :: tool_results)))
  | _ :: rest => run_tools rest
  end.

Definition is_critical (context : PRContext) : bool :=
  existsb (fun crit => PyStr.contains crit (PyStr.lower (dependency_name context)))
          critical_dependencies.

Definition user_message (context : PRContext) : string :=
  PyStr.cat
    [ "Analyze this dependency update PR and decide if it should be merged:";
      PyStr.nl; PyStr.nl;
      "**PR Information:**"; PyStr.nl;
      "- Title: "; title context; PyStr.nl;
      "- Dependency: "; dependency_name context; PyStr.nl;
      "- Update: "; old_version context; " → "; new_version context; PyStr.nl;
      "- Update Type: "; update_type context; PyStr.nl;
      "- Security Update: "; PyStr.of_bool (is_security_update context); PyStr.nl;
      "- CI Status: "; ci_status context; PyStr.nl;
      "- CI Conclusion: "; default "None" (ci_conclusion context); PyStr.nl;
      "- Mergeable: "; PyStr.of_bool (mergeable context);
      " ("; mergeable_state context; ")"; PyStr.nl;
      "- Draft: "; PyStr.of_bool (is_draft context); PyStr.nl;
      "- Labels: ";
      (if bool_decide (labels context = []) then "none"
       else PyStr.join ", " (labels context)); PyStr.nl;
      "- Critical Dependency: "; PyStr.of_bool (is_critical context); PyStr.nl;
      "- Files Changed: ";
      (if bool_decide (files_changed context = []) then "none"
       else PyStr.join ", " (take 5 (files_changed context))); PyStr.nl;
      PyStr.nl;
      "**PR Body:**"; PyStr.nl;
      (if String.eqb (body context) "" then "(empty)"
       else PyStr.take 800 (body context)); PyStr.nl;
      PyStr.nl;
      "Based on this information:"; PyStr.nl;
      "1. Assess the risk level (LOW, MEDIUM, HIGH, or CRITICAL)"; PyStr.nl;
      "2. Make a merge decision (AUTO_MERGE, REQUIRE_APPROVAL, or DO_NOT_MERGE)";
      PyStr.nl;
      "3. Explain your reasoning in detail"; PyStr.nl;
      PyStr.nl;
      "Use the available tools to gather additional information if needed.";
      PyStr.nl; PyStr.nl;
      "Respond in JSON format:"; PyStr.nl;
      "{"; PyStr.nl;
      "    "; PyStr.dq; "decision"; PyStr.dq; ": "; PyStr.dq;
      "AUTO_MERGE|REQUIRE_APPROVAL|DO_NOT_MERGE"; PyStr.dq; ","; PyStr.nl;
      "    "; PyStr.dq; "risk_level"; PyStr.dq; ": "; PyStr.dq;
      "LOW|MEDIUM|HIGH|CRITICAL"; PyStr.dq; ","; PyStr.nl;
      "    "; PyStr.dq; "reasoning"; PyStr.dq; ": "; PyStr.dq;
      "Detailed explanation of your decision"; PyStr.dq; ","; PyStr.nl;
      "    "; PyStr.dq; "key_factors"; PyStr.dq; ": ["; PyStr.dq; "factor 1";
      PyStr.dq; ", "; PyStr.dq; "factor 2"; PyStr.dq; ", ...]"; PyStr.nl;
      "}" ].

(** One call of [self.anthropic.messages.create], recorded in the world. *)
Definition create (messages : list Message) : M Response :=
  fun w => (messages_create messages,
            {| requests := (requests w ++ [messages])%list |}).

(** [for iteration in range(iterations)]: [response] is the variable
    of that name, unbound before the first round. *)
Fixpoint agent_loop (iterations : nat) (messages : list Message)
         (response : option Response) : M (option Response) :=
  match iterations with
  | O => ret response
  | S iterations' =>
      response <- create messages ;;
      if String.eqb (stop_reason response) "tool_use" then
        tool_results <- lift (run_tools (content response)) ;;
        let messages :=
          (messages ++ [ {| role := "assistant";
                            message_content := Blocks (content response) |};
                         {| role := "user";
                            message_content := Results tool_results |} ])%list in
        agent_loop iterations' messages (Some response)
      else
        ret (Some response)
  end.

(** The concatenation of the text blocks of the last response. *)
Fixpoint final_text_of (content : list ContentBlock) : string :=
  match content with
  | [] => ""
  | TextBlock text :: rest => text +:+ final_text_of rest
  | _ :: rest => final_text_of rest
  end.

Definition fallback_verdict (context : PRContext) (final_text : string)
  : Verdict :=
  let '(decision, risk, reasoning) := _fallback_decision context final_text in
  (decision, risk, JString reasoning).

(** The body of the [try] block once [json_match] is found. *)
Definition load_verdict (matched : string) : result Verdict :=
  bind (json_loads matched) (fun decision_data =>
  bind (bind (json_getitem decision_data "decision") MergeDecision_getitem)
       (fun decision =>
  bind (bind (json_getitem decision_data "risk_level") RiskLevel_getitem)
       (fun risk =>
  bind (json_getitem decision_data "reasoning") (fun reasoning =>
  Ok (decision, risk, reasoning))))).

(** "Parse Claude's decision": the [try]/[except] at the end of
    [decide_with_llm]. *)
Definition parse_decision (context : PRContext) (final_text : string)
  : Verdict :=
  match Re.search json_re final_text with
  | Some json_match =>
      match load_verdict (Re.group 0 json_match) with
      | Ok verdict => verdict
      | Raise _ => fallback_verdict context final_text
      end
  | None => fallback_verdict context final_text
  end.

Definition decide_with_llm (context : PRContext) : M Verdict :=
  let messages := [ {| role := "user";
                       message_content := Prompt (user_message context) |} ] in
  response <- agent_loop max_iterations messages None ;;
  match response with
  | None => raise (OtherError "UnboundLocalError")
  | Some response =>
      let final_text := final_text_of (content response) in
      ret (parse_decision context final_text)
  end.

End Agent.

(** ** Vocabulary of the statements *)

(** [needle in hay] holds exactly when [hay] is some prefix, then
    [needle], then some suffix. *)
Definition Substring (needle hay : string) : Prop :=
  exists pre post, hay = pre +:+ needle +:+ post.

(** Whether the character [c] occurs in [s]. *)
Fixpoint occurs (c : ascii) (s : string) : bool :=
  match s with
  | "" => false
  | String d s' => Ascii.eqb c d || occurs c s'
  end.

Definition completed (run : CheckRun) : Prop := status run = Some "completed".

(** A security update whose bump category was not determined, with
    green CI and no conflict. *)
Definition unknown_security_context : PRContext :=
  {| number := 7; title := "Update lodash"; body := "Fixes CVE-2024-0001";
     labels := ["security"]; author := "renovate[bot]"; is_draft := false;
     mergeable := true; mergeable_state := "clean";
     ci_status := "success"; ci_conclusion := Some "success";
     update_type := "unknown"; old_version := ""; new_version := "";
     dependency_name := "lodash"; is_security_update := true;
     target_branch := "main"; files_changed := ["package.json"] |}.

(** The member names, the tokens [MergeDecision[...]] and
    [RiskLevel[...]] accept. *)
Definition decision_token (d : MergeDecision) : string :=
  match d with
  | AUTO_MERGE => "AUTO_MERGE"
  | REQUIRE_APPROVAL => "REQUIRE_APPROVAL"
  | DO_NOT_MERGE => "DO_NOT_MERGE"
  end.

Definition risk_token (r : RiskLevel) : string :=
  match r with
  | LOW => "LOW"
  | MEDIUM => "MEDIUM"
  | HIGH => "HIGH"
  | CRITICAL => "CRITICAL"
  end.

(** What [json_match.group()] is, if there is a match. *)
Definition json_candidate (final_text : string) : option string :=
  Re.group 0 <$> Re.search json_re final_text.

(** The first balanced curly-brace object of a text, in the spec's
    words: from an opening brace to the brace that closes it.
    [balanced_end depth s] is the part of [s] up to and including the
    brace that closes [depth] open ones plus one. *)
Fixpoint balanced_end (depth : nat) (s : string) : option string :=
  match s with
  | "" => None
  | String c s' =>
      if Ascii.eqb c "{" then String c <$> balanced_end (S depth) s'
      else if Ascii.eqb c "}" then
        match depth with
        | O => Some "}"
        | S depth' => String c <$> balanced_end depth' s'
        end
      else String c <$> balanced_end depth s'
  end.

Fixpoint first_balanced_object (s : string) : option string :=
  match s with
  | "" => None
  | String c s' =>
      if Ascii.eqb c "{" then
        match balanced_end 0 s' with
        | Some m => Some (String c m)
        | None => first_balanced_object s'
        end
      else first_balanced_object s'
  end.

(** The old and new version of the title's version pair. *)
Definition version_pair (title : string) : option (string * string) :=
  (fun m => (Re.group 1 m, Re.group 2 m)) <$> Re.search version_re title.

(** ** Sample inputs *)

(** A verdict object as the prompt asks for it. *)
Definition verdict_object_text : string :=
  PyStr.cat [ "{"; PyStr.dq; "decision"; PyStr.dq; ": "; PyStr.dq; "AUTO_MERGE";
              PyStr.dq; ", "; PyStr.dq; "risk_level"; PyStr.dq; ": "; PyStr.dq;
              "LOW"; PyStr.dq; ", "; PyStr.dq; "reasoning"; PyStr.dq; ": ";
              PyStr.dq; "ok"; PyStr.dq; "}" ].

(** A final answer with the verdict object and a later pair of braces. *)
Definition two_objects_text : string :=
  "Verdict: " +:+ verdict_object_text +:+ " (see {notes})".

(** A stand-in for [json.loads] that knows one document. *)
Definition json_loads_stub (s : string) : result json :=
  if String.eqb s verdict_object_text then
    Ok (JObject {[ "decision" := JString "AUTO_MERGE";
                   "risk_level" := JString "LOW";
                   "reasoning" := JString "ok" ]})
  else Raise (JSONDecodeError "Extra data").

(** Whether [tool_input] has the arguments that the definition of
    [tool_name] requires. *)
Definition has_required_arguments (tool_name : string)
           (tool_input : gmap string pyval) : bool :=
  forallb (fun '(name, required) =>
             negb (String.eqb name tool_name)
             || forallb (fun key => bool_decide (is_Some (tool_input !! key)))
                        required)
          _get_tools_definition.

(** A reasoning service that asks for the release notes on every
    round, and a GitHub API on which every request fails. *)
Definition always_tool_use (messages : list Message) : result Response :=
  Ok {| stop_reason := "tool_use";
        content := [ TextBlock "Let me check.";
                     ToolUseBlock "toolu_1" "fetch_release_notes"
                       {[ "dependency" := PStr "axios";
                          "version" := PStr "1.6.1" ]} ] |}.

Definition github_down (request : Request) : result string :=
  Raise (HTTPError "503 Server Error").

(** The context of the test suite. *)
Definition sample_pr_context : PRContext :=
  {| number := 123; title := "Bump axios from 1.6.0 to 1.6.1";
     body := "Bumps axios from 1.6.0 to 1.6.1.";
     labels := ["dependencies"; "javascript"]; author := "dependabot[bot]";
     is_draft := false; mergeable := true; mergeable_state := "clean";
     ci_status := "success"; ci_conclusion := Some "success";
     update_type := "patch"; old_version := "1.6.0"; new_version := "1.6.1";
     dependency_name := "axios"; is_security_update := false;
     target_branch := "main";
     files_changed := ["package.json"; "package-lock.json"] |}.

Definition empty_world : World := {| requests := [] |}.

(** The service asks for tools on every round, and the tools run. *)
Definition always_requests_tools (repo : string)
           (requests_request : Request -> result string)
           (messages_create : list Message -> result Response) : Prop :=
  forall messages,
  exists response tool_results,
    messages_create messages = Ok response
    /\ stop_reason response = "tool_use"
    /\ run_tools repo requests_request (content response) = Ok tool_results.

(** A conclusion that is present: neither null nor empty. *)
Definition reported (c : option string) : Prop :=
  exists s, c = Some s /\ s <> "".

(** A conclusion that counts as a failure. *)
Definition failed (c : option string) : Prop :=
  c = Some "failure" \/ c = Some "cancelled" \/ c = Some "timed_out".

(** A version as the pattern takes it: digits and dots, then perhaps
    a hyphen with word characters and dots; [suffix] is empty for a
    version without the second part. *)
Definition with_suffix (core suffix : string) : string :=
  if String.eqb suffix "" then core else core +:+ "-" +:+ suffix.

(** Whether a version ends where [post] begins: [post] does not start
    with a character that the pattern would still take.  After a version
    without suffix that is a digit, a dot or a hyphen; after a suffix it
    is a word character or a dot. *)
Definition version_end (suffix post : string) : bool :=
  match PyStr.next_char post with
  | None => true
  | Some (cp, _) =>
      if String.eqb suffix "" then negb (Re.digit_dot cp) && negb (cp =? 45)%N
      else negb (Re.word_dot cp)
  end.

(** ** The rest of the agent *)

(** One entry of the changed-files listing.  [filename = None] stands
    for an entry without the ["filename"] key. *)
Record FileEntry : Type := {
  filename : option string
}.

(** [[f["filename"] for f in files]] *)
Fixpoint filenames_of (files : list FileEntry) : result (list string) :=
  match files with
  | [] => Ok []
  | f :: rest =>
      match filename f with
      | None => Raise (KeyError "filename")
      | Some name => bind (filenames_of rest) (fun l => Ok (name :: l))
      end
  end.

(** [fetch] is the outcome of the files request and its [.json()]. *)
Definition _get_files_changed (fetch : result (list FileEntry)) : list string :=
  match bind fetch (fun files => filenames_of (take 10 files)) with
  | Ok names => names
  | Raise _ => []
  end.

(** The fields of the pull-request JSON that [is_dependency_pr] reads:
    [user.login], the [name] of each label, and [title]. *)
Record PullRequest : Type := {
  pr_author : string;
  pr_labels : list string;
  pr_title : string
}.

Definition known_bots : list string :=
  [ "dependabot[bot]"; "dependabot"; "renovate[bot]"; "renovate" ].

(** [fetch] is the outcome of the pull-request request and its
    [.json()]; a failed request is not caught here. *)
Definition is_dependency_pr (skip_author_check : bool)
           (fetch : result PullRequest) : result bool :=
  bind fetch (fun pr_data =>
  let author := pr_author pr_data in
  if negb skip_author_check && negb (existsb (String.eqb author) known_bots) then
    Ok false
  else
    let labels := map PyStr.lower (pr_labels pr_data) in
    let title_lower := PyStr.lower (pr_title pr_data) in
    Ok (existsb (PyStr.contains "dep") labels
        || PyStr.contains "bump" title_lower
        || PyStr.contains "update" title_lower)).

(** The [value] of the enum members. *)
Definition RiskLevel_value (r : RiskLevel) : string :=
  match r with
  | LOW => "low"
  | MEDIUM => "medium"
  | HIGH => "high"
  | CRITICAL => "critical"
  end.

Definition MergeDecision_value (d : MergeDecision) : string :=
  match d with
  | AUTO_MERGE => "auto_merge"
  | REQUIRE_APPROVAL => "require_approval"
  | DO_NOT_MERGE => "do_not_merge"
  end.

(** [s.upper()] on an ASCII text; the code applies it to the values
    of [RiskLevel] only. *)
Definition upper_char (c : ascii) : ascii :=
  if PyStr.is_lower c then ascii_of_nat (nat_of_ascii c - 32) else c.

Fixpoint py_upper (s : string) : string :=
  match s with
  | "" => ""
  | String c s' => String (upper_char c) (py_upper s')
  end.

(** *** Action layer *)

(** The [json=] argument of a write request. *)
Inductive Payload : Type :=
| CommentBody (body : string)
| LabelList (labels : list string)
| MergeData (commit_title commit_message merge_method : string).

(** A write request to the GitHub API. *)
Record ApiCall : Type := {
  call_method : string;
  call_endpoint : string;
  call_json : Payload
}.

(** State and exceptions over the write requests issued so far,
    oldest first. *)
Definition G (A : Type) : Type := list ApiCall -> result A * list ApiCall.

Definition gret {A} (a : A) : G A := fun log => (Ok a, log).
Definition gbind {A B} (m : G A) (f : A -> G B) : G B :=
  fun log => match m log with
             | (Ok a, log') => f a log'
             | (Raise e, log') => (Raise e, log')
             end.

(** [try: m  except Exception: handler] *)
Definition gtry {A} (m : G A) (handler : exn -> G A) : G A :=
  fun log => match m log with
             | (Ok a, log') => (Ok a, log')
             | (Raise e, log') => handler e log'
             end.

Definition comment_footer : string :=
  PyStr.cat
    [ "---"; PyStr.nl;
      "*Powered by [Claude 3.5 Sonnet](https://www.anthropic.com/claude) - Autonomous AI for intelligent dependency management*";
      PyStr.nl ].

(** The part that the three comments share: the analysis and the
    first lines of the context. *)
Definition comment_head (decision_line : string) (context : PRContext)
           (risk : RiskLevel) (reasoning : string) : string :=
  PyStr.cat
    [ "🤖 **LLM Dependency Bot**"; PyStr.nl; PyStr.nl;
      "**Decision**: "; decision_line; PyStr.nl;
      "**Risk Level**: "; py_upper (RiskLevel_value risk); PyStr.nl; PyStr.nl;
      "**Claude's Analysis**:"; PyStr.nl;
      reasoning; PyStr.nl; PyStr.nl;
      "**Context**:"; PyStr.nl;
      "- Dependency: `"; dependency_name context; "`"; PyStr.nl;
      "- Update: `"; old_version context; "` → `"; new_version context;
      "` ("; update_type context; ")"; PyStr.nl;
      "- CI Status: "; ci_status context; PyStr.nl ].

Definition auto_merge_comment (context : PRContext) (risk : RiskLevel)
           (reasoning : string) : string :=
  PyStr.cat
    [ comment_head "✅ Auto-merge approved" context risk reasoning; PyStr.nl;
      "Merging automatically..."; PyStr.nl; PyStr.nl; comment_footer ].

Definition review_comment (context : PRContext) (risk : RiskLevel)
           (reasoning : string) : string :=
  PyStr.cat
    [ comment_head "👤 Human review required" context risk reasoning; PyStr.nl;
      "Please review this update carefully before merging."; PyStr.nl;
      PyStr.nl; comment_footer ].

Definition blocking_comment (context : PRContext) (risk : RiskLevel)
           (reasoning : string) : string :=
  PyStr.cat
    [ comment_head "❌ Cannot merge" context risk reasoning;
      "- Mergeable: "; PyStr.of_bool (mergeable context); PyStr.nl; PyStr.nl;
      "Please resolve the issues identified above before merging."; PyStr.nl;
      PyStr.nl; comment_footer ].

Section Actions.

(** [self.repo] and the outcome of [self._make_request] on a write
    request: it returns, or raises. *)
Variable repo : string.
Variable github : ApiCall -> result unit.

(** One write request, recorded. *)
Definition write_request (call : ApiCall) : G unit :=
  fun log => (github call, (log ++ [call])%list).

Definition _add_comment (pr_number : Z) (body : string) : G unit :=
  write_request
    {| call_method := "POST";
       call_endpoint := "/repos/" +:+ repo +:+ "/issues/"
                        +:+ PyStr.of_Z pr_number +:+ "/comments";
       call_json := CommentBody body |}.

Definition _add_labels (pr_number : Z) (labels : list string) : G unit :=
  write_request
    {| call_method := "POST";
       call_endpoint := "/repos/" +:+ repo +:+ "/issues/"
                        +:+ PyStr.of_Z pr_number +:+ "/labels";
       call_json := LabelList labels |}.

Definition merge_call (context : PRContext) (risk : RiskLevel)
           (reasoning : string) : ApiCall :=
  {| call_method := "PUT";
     call_endpoint := "/repos/" +:+ repo +:+ "/pulls/"
                      +:+ PyStr.of_Z (number context) +:+ "/merge";
     call_json :=
       MergeData ("🤖 " +:+ title context)
                 (PyStr.cat [ "Auto-merged by LLM Dependency Bot"; PyStr.nl;
                              PyStr.nl; "Risk: "; RiskLevel_value risk;
                              PyStr.nl; PyStr.nl; PyStr.take 500 reasoning ])
                 "squash" |}.

(** The handler of the merge request catches [HTTPError], logs and
    raises it again; any other exception passes through: either way the
    exception leaves [_auto_merge]. *)
Definition _auto_merge (context : PRContext) (risk : RiskLevel)
           (reasoning : string) : G unit :=
  gbind (_add_comment (number context) (auto_merge_comment context risk reasoning))
        (fun _ =>
  gtry (write_request (merge_call context risk reasoning))
       (fun e log => (Raise e, log))).

Definition _request_review (context : PRContext) (risk : RiskLevel)
           (reasoning : string) : G unit :=
  gbind (_add_comment (number context) (review_comment context risk reasoning))
        (fun _ =>
  gtry (_add_labels (number context) ["needs-review"; "llm-flagged"])
       (fun _ => gret tt)).

Definition _add_blocking_comment (context : PRContext) (risk : RiskLevel)
           (reasoning : string) : G unit :=
  _add_comment (number context) (blocking_comment context risk reasoning).

Definition execute_action (context : PRContext) (decision : MergeDecision)
           (risk : RiskLevel) (reasoning : string) : G unit :=
  match decision with
  | AUTO_MERGE => _auto_merge context risk reasoning
  | REQUIRE_APPROVAL => _request_review context risk reasoning
  | DO_NOT_MERGE => _add_blocking_comment context risk reasoning
  end.

End Actions.

(** ** Vocabulary of the further statements *)

(** The tool requests of a response, in order: id, name, arguments. *)
Fixpoint tool_uses (content : list ContentBlock)
  : list (string * string * gmap string pyval) :=
  match content with
  | [] => []
  | ToolUseBlock id name input :: rest => (id, name, input) :: tool_uses rest
  | _ :: rest => tool_uses rest
  end.

(** The requests [sent] form one growing conversation that starts
    with [first]: each later request is the one before, followed by the
    assistant message holding the blocks of the response to it and by the
    user message holding the results of the tools it asked for. *)
Fixpoint grows (repo : string) (requests_request : Request -> result string)
         (messages_create : list Message -> result Response)
         (first : list Message) (sent : list (list Message)) : Prop :=
  match sent with
  | [] => True
  | m :: rest =>
      m = first
      /\ match rest with
         | [] => True
         | _ :: _ =>
             exists response tool_results,
               messages_create first = Ok response
               /\ stop_reason response = "tool_use"
               /\ run_tools repo requests_request (content response)
                  = Ok tool_results
               /\ grows repo requests_request messages_create
                    (first ++ [ {| role := "assistant";
                                   message_content := Blocks (content response) |};
                                {| role := "user";
                                   message_content := Results tool_results |} ])%list
                    rest
         end
  end.

(** The first request of [decide_with_llm]. *)
Definition first_request (context : PRContext) : list Message :=
  [ {| role := "user"; message_content := Prompt (user_message context) |} ].

(** The fixed opening of the fallback reasoning. *)
Definition fallback_header : string :=
  "Fallback decision used due to parsing error." +:+ PyStr.nl +:+ PyStr.nl.

(** A reasoning service that answers at once, without tools. *)
Definition answers_at_once (messages : list Message) : result Response :=
  Ok {| stop_reason := "end_turn";
        content := [ TextBlock ("Verdict: " +:+ verdict_object_text) ] |}.

(** A reasoning service that is down. *)
Definition service_down (messages : list Message) : result Response :=
  Raise (OtherError "overloaded_error").

(** A GitHub API that accepts comments and refuses everything else. *)
Definition github_comments_only (call : ApiCall) : result unit :=
  match call_json call with
  | CommentBody _ => Ok tt
  | _ => Raise (HTTPError "405 Client Error")
  end.

(** A response that asks for the diff and for a tool that does not
    exist, and the results of that round. *)
Definition sample_tool_round : list ContentBlock :=
  [ TextBlock "Let me look.";
    ToolUseBlock "toolu_1" "analyze_diff" {[ "pr_number" := PInt 42 ]};
    ToolUseBlock "toolu_2" "lint" ∅ ].

Definition sample_tool_results : list ToolResult :=
  [ {| tool_use_id := "toolu_1";
       tool_result_content :=
         "Could not fetch diff: requests.api.request() got multiple values for keyword argument 'headers'" |};
    {| tool_use_id := "toolu_2";
       tool_result_content := "Unknown tool: lint" |} ].

(** A verdict object written with the enum values instead of the
    member names, and a stand-in for [json.loads] that knows it. *)
Definition lowercase_object_text : string :=
  PyStr.cat [ "{"; PyStr.dq; "decision"; PyStr.dq; ": "; PyStr.dq; "auto_merge";
              PyStr.dq; ", "; PyStr.dq; "risk_level"; PyStr.dq; ": "; PyStr.dq;
              "low"; PyStr.dq; ", "; PyStr.dq; "reasoning"; PyStr.dq; ": ";
              PyStr.dq; "ok"; PyStr.dq; "}" ].

Definition lowercase_object : gmap string json :=
  {[ "decision" := JString "auto_merge";
     "risk_level" := JString "low";
     "reasoning" := JString "ok" ]}.

Definition json_loads_lowercase (s : string) : result json :=
  if String.eqb s lowercase_object_text then Ok (JObject lowercase_object)
  else Raise (JSONDecodeError "Expecting value").

(** The context of the test suite, as a draft. *)
Definition draft_pr_context : PRContext :=
  {| number := 124; title := "Bump axios from 1.6.0 to 1.6.1 (draft)";
     body := ""; labels := []; author := "dependabot[bot]";
     is_draft := true; mergeable := true; mergeable_state := "draft";
     ci_status := "success"; ci_conclusion := Some "success";
     update_type := "patch"; old_version := "1.6.0"; new_version := "1.6.1";
     dependency_name := "axios"; is_security_update := false;
     target_branch := "main"; files_changed := [] |}.

(** The comment that goes with a decision, and the requests of the
    action layer. *)
Definition action_comment (context : PRContext) (decision : MergeDecision)
           (risk : RiskLevel) (reasoning : string) : string :=
  match decision with
  | AUTO_MERGE => auto_merge_comment context risk reasoning
  | REQUIRE_APPROVAL => review_comment context risk reasoning
  | DO_NOT_MERGE => blocking_comment context risk reasoning
  end.

Definition comment_call (repo : string) (context : PRContext)
           (decision : MergeDecision) (risk : RiskLevel) (reasoning : string)
  : ApiCall :=
  {| call_method := "POST";
     call_endpoint := "/repos/" +:+ repo +:+ "/issues/"
                      +:+ PyStr.of_Z (number context) +:+ "/comments";
     call_json := CommentBody (action_comment context decision risk reasoning) |}.

Definition labels_call (repo : string) (context : PRContext) : ApiCall :=
  {| call_method := "POST";
     call_endpoint := "/repos/" +:+ repo +:+ "/issues/"
                      +:+ PyStr.of_Z (number context) +:+ "/labels";
     call_json := LabelList ["needs-review"; "llm-flagged"] |}.

(** A pull request as [is_dependency_pr] sees it. *)
Definition human_pr : PullRequest :=
  {| pr_author := "human-developer"; pr_labels := ["dependencies"];
     pr_title := "Bump axios from 1.0.0 to 1.1.0" |}.

(** *** Entry point *)

(** The arguments of the [LLMDependencyBot] constructor. *)
Record BotConfig : Type := {
  cfg_github_token : string;
  cfg_repo : string;
  cfg_anthropic_key : string;
  cfg_skip_author_check : bool
}.

Definition required_variables : list string :=
  [ "GITHUB_TOKEN"; "GITHUB_REPOSITORY"; "PR_NUMBER"; "ANTHROPIC_API_KEY" ].

Section Main.

(** [int(s)], [None] when it raises [ValueError]; and the bot,
    constructed and run on a pull request number. *)
Variable py_int : string -> option Z.
Variable bot_run : BotConfig -> Z -> result unit.

(** The exit status of the process (0 when [main] returns, 1 at each
    [sys.exit(1)]) and the runs of the bot that [main] started, each
    with its configuration and pull request number. *)
Definition main (environ : gmap string string) : Z * list (BotConfig * Z) :=
  let github_token := environ !! "GITHUB_TOKEN" in
  let repository := environ !! "GITHUB_REPOSITORY" in
  let pr_number_str := environ !! "PR_NUMBER" in
  let anthropic_key := environ !! "ANTHROPIC_API_KEY" in
  let skip_author_check :=
    String.eqb (PyStr.lower (default "false" (environ !! "SKIP_AUTHOR_CHECK")))
               "true" in
  if negb (forallb truthy [github_token; repository; pr_number_str; anthropic_key])
  then (1%Z, [])
  else
    match github_token, repository, pr_number_str, anthropic_key with
    | Some github_token, Some repository, Some pr_number_str, Some anthropic_key =>
        match py_int pr_number_str with
        | None => (1%Z, [])
        | Some pr_number =>
            let bot := {| cfg_github_token := github_token;
                          cfg_repo := repository;
                          cfg_anthropic_key := anthropic_key;
                          cfg_skip_author_check := skip_author_check |} in
            match bot_run bot pr_number with
            | Ok _ => (0%Z, [(bot, pr_number)])
            | Raise _ => (1%Z, [(bot, pr_number)])
            end
        end
    | _, _, _, _ => (1%Z, [])
    end.

End Main.

(** A stand-in for [int] that knows one number, and a bot that always
    completes. *)
Definition int_stub (s : string) : option Z :=
  if String.eqb s "123" then Some 123%Z else None.

Definition bot_completes (config : BotConfig) (pr_number : Z) : result unit :=
  Ok tt.

Definition environ_empty_token : gmap string string :=
  {[ "GITHUB_TOKEN" := ""; "GITHUB_REPOSITORY" := "octo/repo";
     "PR_NUMBER" := "123"; "ANTHROPIC_API_KEY" := "sk-ant" ]}.

(** The FallbackPolicy table, in the spec's words: CI failure or a PR
    that is not mergeable gives (do_not_merge, critical); else a major
    bump gives (require_approval, high); else the security flag or a
    minor or patch bump gives (auto_merge, low); else
    (require_approval, medium). *)
Definition FallbackPolicy (context : PRContext) : MergeDecision * RiskLevel :=
  if decide (ci_status context = "failure" \/ mergeable context = false)
  then (DO_NOT_MERGE, CRITICAL)
  else if decide (update_type context = "major")
  then (REQUIRE_APPROVAL, HIGH)
  else if decide (is_security_update context = true
                  \/ update_type context = "minor"
                  \/ update_type context = "patch")
  then (AUTO_MERGE, LOW)
  else (REQUIRE_APPROVAL, MEDIUM).

(** The context of the test suite, with a failed CI. *)
Definition failing_ci_context : PRContext :=
  {| number := 125; title := "Bump axios from 1.6.0 to 1.6.1";
     body := "Bumps axios from 1.6.0 to 1.6.1.";
     labels := ["dependencies"]; author := "dependabot[bot]";
     is_draft := false; mergeable := true; mergeable_state := "unstable";
     ci_status := "failure"; ci_conclusion := Some "failure";
     update_type := "patch"; old_version := "1.6.0"; new_version := "1.6.1";
     dependency_name := "axios"; is_security_update := false;
     target_branch := "main"; files_changed := ["package.json"] |}.

(** Whether every byte of [s] is an ASCII character. *)
Fixpoint ascii_only (s : string) : bool :=
  match s with
  | "" => true
  | String c s' => (nat_of_ascii c <? 128)%nat && ascii_only s'
  end.

(** * Properties *)

(** ** Strings *)

Lemma app_cons (c : ascii) (s t : string) :
  String c s +:+ t = String c (s +:+ t).
Proof. reflexivity. Qed.

Lemma app_nil (t : string) : "" +:+ t = t.
Proof. reflexivity. Qed.

Lemma app_assoc_string (a b c : string) : (a +:+ b) +:+ c = a +:+ (b +:+ c).
Proof.
  induction a as [|d a IH]; [reflexivity|].
  rewrite !app_cons, IH. reflexivity.
Qed.

Lemma app_nil_r_string (a : string) : a +:+ "" = a.
Proof.
  induction a as [|d a IH]; [reflexivity|].
  rewrite app_cons, IH. reflexivity.
Qed.

Lemma prefix_app (n h : string) :
  String.prefix n h = true <-> exists post, h = n +:+ post.
Proof.
  revert h. induction n as [|c n IH]; intros h; simpl.
  - split; [intros _; exists h; reflexivity | destruct h; reflexivity].
  - destruct h as [|d h]; simpl.
    + split; [discriminate | intros [post H]; discriminate].
    + destruct (ascii_dec c d) as [->|Hne].
      * rewrite IH. split; intros [post H]; exists post;
          rewrite app_cons in *; congruence.
      * split; [discriminate | intros [post H]].
        rewrite app_cons in H. congruence.
Qed.

Lemma contains_Substring (needle hay : string) :
  PyStr.contains needle hay = true <-> Substring needle hay.
Proof.
  induction hay as [|c hay IH].
  - cbn [PyStr.contains]. rewrite orb_false_r, prefix_app. split.
    + intros [post H]. exists "", post. exact H.
    + intros [[|d pre] [post H]]; [exists post; exact H | discriminate].
  - cbn [PyStr.contains]. rewrite orb_true_iff, prefix_app, IH. split.
    + intros [[post H] | [pre [post H]]].
      * exists "", post. exact H.
      * exists (String c pre), post. rewrite app_cons. congruence.
    + intros [[|d pre] [post H]].
      * left. exists post. exact H.
      * right. exists pre, post. rewrite app_cons in H. congruence.
Qed.

(** ** The fallback table *)

(** C1. [_fallback_decision] is total (it returns a triple on every
    context and every response text, and has no raising path) and follows
    the fixed priority order: CI failure or not mergeable gives
    (do_not_merge, critical); else a major bump gives
    (require_approval, high); else the security flag or a minor or patch
    bump gives (auto_merge, low); else (require_approval, medium). *)
Theorem fallback_decision_priority (context : PRContext) (llm_response : string) :
  exists decision risk,
    _fallback_decision context llm_response
    = (decision, risk, fallback_reasoning llm_response)
    /\ (decision, risk) =
       if decide (ci_status context = "failure" \/ mergeable context = false)
       then (DO_NOT_MERGE, CRITICAL)
       else if decide (update_type context = "major")
       then (REQUIRE_APPROVAL, HIGH)
       else if decide (is_security_update context = true
                       \/ update_type context = "minor"
                       \/ update_type context = "patch")
       then (AUTO_MERGE, LOW)
       else (REQUIRE_APPROVAL, MEDIUM).
Proof.
  unfold _fallback_decision. simpl existsb.
  destruct (String.eqb_spec (ci_status context) "failure");
    destruct (mergeable context) eqn:Hm;
    destruct (String.eqb_spec (update_type context) "major");
    destruct (is_security_update context) eqn:Hsec;
    destruct (String.eqb_spec (update_type context) "minor");
    destruct (String.eqb_spec (update_type context) "patch"); simpl;
    (eexists _, _; split; [reflexivity|]);
    repeat case_decide; try reflexivity; exfalso; intuition congruence.
Qed.

(** [_fallback_decision] against the table in the spec's words. *)
Lemma fallback_decision_policy (context : PRContext) (llm_response : string) :
  _fallback_decision context llm_response
  = ((FallbackPolicy context).1, (FallbackPolicy context).2,
     fallback_header +:+ PyStr.take 500 llm_response).
Proof.
  assert (fallback_reasoning llm_response
          = fallback_header +:+ PyStr.take 500 llm_response) as Hr.
  { unfold fallback_reasoning, fallback_header.
    rewrite !app_assoc_string. reflexivity. }
  unfold _fallback_decision, FallbackPolicy. rewrite Hr.
  cbn [existsb].
  destruct (String.eqb_spec (ci_status context) "failure");
    destruct (mergeable context) eqn:Hm;
    destruct (String.eqb_spec (update_type context) "major");
    destruct (is_security_update context) eqn:Hsec;
    destruct (String.eqb_spec (update_type context) "minor");
    destruct (String.eqb_spec (update_type context) "patch");
    cbn [negb orb andb];
    repeat case_decide; try reflexivity; exfalso; intuition congruence.
Qed.

(** C5, as stated, fails: the fallback table auto-merges an update of
    unknown category when the security flag is set. *)
Lemma fallback_unknown_security_auto_merges :
  update_type unknown_security_context = "unknown"
  /\ _fallback_decision unknown_security_context ""
     = (AUTO_MERGE, LOW, fallback_reasoning "").
Proof. split; reflexivity. Qed.

(** C5, amended.  For a context whose update_type is "unknown", the
    fallback table returns auto_merge exactly when the security flag is
    set, CI has not failed and the PR is mergeable; without the security
    flag it never auto-merges. *)
Theorem fallback_unknown_auto_merge_iff (context : PRContext) (llm_response : string) :
  update_type context = "unknown" ->
  (_fallback_decision context llm_response).1.1 = AUTO_MERGE
  <-> is_security_update context = true
      /\ ci_status context <> "failure"
      /\ mergeable context = true.
Proof.
  intros Hu. unfold _fallback_decision. rewrite Hu. simpl.
  destruct (String.eqb_spec (ci_status context) "failure") as [Hci|Hci];
    destruct (mergeable context); destruct (is_security_update context);
    simpl; split; try discriminate; try tauto;
    intros (? & ? & ?); congruence.
Qed.

Lemma fallback_unknown_auto_merge_iff_witness :
  update_type unknown_security_context = "unknown"
  /\ ((_fallback_decision unknown_security_context "").1.1 = AUTO_MERGE
      <-> is_security_update unknown_security_context = true
          /\ ci_status unknown_security_context <> "failure"
          /\ mergeable unknown_security_context = true).
Proof.
  split; [reflexivity|].
  apply (fallback_unknown_auto_merge_iff unknown_security_context "").
  reflexivity.
Defined.

(** ** The CI aggregator *)

Lemma statuses_of_Some (check_runs : list CheckRun) :
  Forall (fun run => is_Some (status run)) check_runs ->
  exists statuses,
    statuses_of check_runs = Ok statuses
    /\ Forall2 (fun run s => status run = Some s) check_runs statuses.
Proof.
  induction 1 as [|run rest [s Hs] _ (statuses & IH & HF)]; simpl.
  - exists []. split; [reflexivity | constructor].
  - rewrite Hs, IH. simpl. exists (s :: statuses).
    split; [reflexivity | constructor; assumption].
Qed.

Lemma statuses_of_completed (check_runs : list CheckRun) :
  Forall completed check_runs ->
  exists statuses,
    statuses_of check_runs = Ok statuses
    /\ existsb (fun s => negb (String.eqb s "completed")) statuses = false.
Proof.
  induction 1 as [|run rest Hc _ (statuses & IH & HF)]; simpl.
  - exists []. split; reflexivity.
  - rewrite Hc, IH. simpl. exists ("completed" :: statuses).
    split; [reflexivity | exact HF].
Qed.

Lemma statuses_of_missing (check_runs : list CheckRun) :
  Exists (fun run => status run = None) check_runs ->
  statuses_of check_runs = Raise (KeyError "status").
Proof.
  induction 1 as [run rest Hs|run rest _ IH]; cbn [statuses_of].
  - rewrite Hs. reflexivity.
  - destruct (status run); [|reflexivity]. rewrite IH. reflexivity.
Qed.

(** A run without a "status" field makes [run["status"]] raise inside
    the [try] block. *)
Lemma ci_status_no_status (check_runs : list CheckRun) :
  Exists (fun run => status run = None) check_runs ->
  _get_ci_status (Ok check_runs) = ("unknown", None).
Proof.
  intros Hex. unfold _get_ci_status, ci_status_of. cbn [bind].
  case_bool_decide as Hnil; [subst; inversion Hex|].
  rewrite (statuses_of_missing _ Hex). reflexivity.
Qed.

Lemma ci_status_incomplete (check_runs : list CheckRun) :
  Forall (fun run => is_Some (status run)) check_runs ->
  Exists (fun run => ~ completed run) check_runs ->
  _get_ci_status (Ok check_runs) = ("pending", None).
Proof.
  intros Hall Hex. unfold _get_ci_status, ci_status_of. cbn [bind].
  case_bool_decide as Hnil; [reflexivity|].
  destruct (statuses_of_Some _ Hall) as (statuses & -> & HF). cbn [bind].
  assert (existsb (fun s => negb (String.eqb s "completed")) statuses = true)
    as ->; [|reflexivity].
  clear Hnil Hall. induction HF as [|run s rest statuses Hs HF IH]; simpl.
  - inversion Hex.
  - apply orb_true_iff. inversion Hex as [? ? Hn|? ? Hrest]; subst.
    + left. destruct (String.eqb_spec s "completed") as [->|]; [|reflexivity].
      exfalso. apply Hn. exact Hs.
    + right. apply IH. exact Hrest.
Qed.

(** Once every run completed, the result is read off the conclusions
    that are present. *)
Lemma ci_status_all_completed (check_runs : list CheckRun) :
  check_runs <> [] ->
  Forall completed check_runs ->
  _get_ci_status (Ok check_runs)
  = if forallb (fun c => String.eqb c "success") (conclusions_of check_runs)
    then ("success", Some "success")
    else if existsb (fun c => existsb (String.eqb c)
                                ["failure"; "cancelled"; "timed_out"])
                    (conclusions_of check_runs)
    then ("failure", Some "failure")
    else ("pending", None).
Proof.
  intros Hne Hall. unfold _get_ci_status, ci_status_of. cbn [bind].
  rewrite bool_decide_eq_false_2 by exact Hne.
  destruct (statuses_of_completed _ Hall) as (statuses & Hs & Hex).
  rewrite Hs. cbn [bind]. rewrite Hex.
  destruct (forallb _ (conclusions_of check_runs)); [reflexivity|].
  destruct (existsb _ (conclusions_of check_runs)); reflexivity.
Qed.

Lemma conclusions_of_cons (run : CheckRun) (rest : list CheckRun) :
  conclusions_of (run :: rest)
  = match conclusion run with
    | Some c => if String.eqb c "" then conclusions_of rest
                else c :: conclusions_of rest
    | None => conclusions_of rest
    end.
Proof.
  unfold conclusions_of. cbn [omap list_omap].
  destruct (conclusion run) as [c|]; [|reflexivity]. cbn [truthy].
  destruct (String.eqb c ""); reflexivity.
Qed.

Lemma conclusions_all_success (check_runs : list CheckRun) :
  forallb (fun c => String.eqb c "success") (conclusions_of check_runs) = true
  <-> Forall (fun run => reported (conclusion run) ->
                         conclusion run = Some "success") check_runs.
Proof.
  induction check_runs as [|run rest IH].
  - split; [constructor | reflexivity].
  - rewrite Forall_cons, <- IH, conclusions_of_cons. unfold reported.
    destruct (conclusion run) as [c|].
    + destruct (String.eqb_spec c "") as [->|Hc].
      * split; [intros H; split; [intros [x [[= <-] Hx]]; congruence | exact H]
               | tauto].
      * cbn [forallb]. rewrite andb_true_iff.
        destruct (String.eqb_spec c "success") as [->|Hs].
        -- tauto.
        -- split; [intros [? _]; discriminate|].
           intros [H _]. exfalso. apply Hs.
           assert (Some c = Some "success") as [= ->] by (apply H; eauto).
           reflexivity.
    + split; [intros H; split; [intros [x [[=] _]] | exact H] | tauto].
Qed.

Lemma conclusions_some_failed (check_runs : list CheckRun) :
  existsb (fun c => existsb (String.eqb c) ["failure"; "cancelled"; "timed_out"])
          (conclusions_of check_runs) = true
  <-> Exists (fun run => failed (conclusion run)) check_runs.
Proof.
  induction check_runs as [|run rest IH].
  - split; [discriminate | intros H; inversion H].
  - rewrite Exists_cons, <- IH, conclusions_of_cons. unfold failed.
    destruct (conclusion run) as [c|].
    + destruct (String.eqb_spec c "") as [->|Hc].
      * split; [tauto | intros [[[=]|[[=]|[=]]]|H]; exact H].
      * cbn [existsb]. rewrite !orb_true_iff, !String.eqb_eq. split.
        -- intros [[->|[->|[->|?]]]|H]; auto; discriminate.
        -- intros [[[= ->]|[[= ->]|[= ->]]]|H]; auto 10.
    + split; [tauto | intros [[[=]|[[=]|[=]]]|H]; exact H].
Qed.

(** C6, as stated, fails: with every check completed and the
    conclusion of one of them absent, the aggregator reports success. *)
Lemma ci_status_skips_absent_conclusion :
  _get_ci_status (Ok [ {| status := Some "completed";
                          conclusion := Some "success" |};
                       {| status := Some "completed"; conclusion := None |} ])
  = ("success", Some "success").
Proof. reflexivity. Qed.

(** C6, amended.  The aggregator returns (unknown, null) when the
    fetch fails or some check result has no status field.  Otherwise it
    returns (pending, null) when the list is empty or some check has a
    status other than completed.  When every check completed it looks
    only at the conclusions that are present (neither null nor the empty
    string): it returns (success, success) only if each of them is
    success, and does so when at least one is present; else (failure,
    failure) if one of them is failure, cancelled or timed_out; else
    (pending, null).  A completed check whose conclusion is absent is
    skipped. *)
Theorem ci_status_contract (check_runs : list CheckRun) :
  (forall e, _get_ci_status (Raise e) = ("unknown", None))
  /\ (Exists (fun run => status run = None) check_runs ->
      _get_ci_status (Ok check_runs) = ("unknown", None))
  /\ _get_ci_status (Ok []) = ("pending", None)
  /\ (Forall (fun run => is_Some (status run)) check_runs ->
      Exists (fun run => ~ completed run) check_runs ->
      _get_ci_status (Ok check_runs) = ("pending", None))
  /\ (check_runs <> [] ->
      Forall completed check_runs ->
      let all_success :=
        Forall (fun run => reported (conclusion run) ->
                           conclusion run = Some "success") check_runs in
      let some_failed :=
        Exists (fun run => failed (conclusion run)) check_runs in
      (_get_ci_status (Ok check_runs) = ("success", Some "success")
       -> all_success)
      /\ (all_success ->
          Exists (fun run => reported (conclusion run)) check_runs ->
          _get_ci_status (Ok check_runs) = ("success", Some "success"))
      /\ (~ all_success -> some_failed ->
          _get_ci_status (Ok check_runs) = ("failure", Some "failure"))
      /\ (~ all_success -> ~ some_failed ->
          _get_ci_status (Ok check_runs) = ("pending", None))).
Proof.
  split; [reflexivity|]. split; [apply ci_status_no_status|].
  split; [reflexivity|]. split; [apply ci_status_incomplete|].
  intros Hne Hall all_success some_failed.
  rewrite (ci_status_all_completed _ Hne Hall).
  pose proof (conclusions_all_success check_runs) as Hs.
  pose proof (conclusions_some_failed check_runs) as Hf.
  fold all_success in Hs. fold some_failed in Hf.
  destruct (forallb _ (conclusions_of check_runs)).
  - split; [tauto|]. split; [reflexivity|].
    split; intros Hn; exfalso; tauto.
  - assert (~ all_success) as Hn by (intros H; apply Hs in H; discriminate).
    split; [intros H; exfalso|split; [tauto|]].
    { destruct (existsb _ (conclusions_of check_runs)); discriminate. }
    destruct (existsb _ (conclusions_of check_runs)).
    + split; [reflexivity|]. intros _ H. exfalso. tauto.
    + split; [|reflexivity]. intros _ H. apply Hf in H. discriminate.
Qed.

Lemma ci_status_contract_witness :
  _get_ci_status (Ok [ {| status := Some "completed";
                          conclusion := Some "success" |};
                       {| status := Some "completed";
                          conclusion := Some "failure" |} ])
  = ("failure", Some "failure").
Proof.
  apply (ci_status_contract
           [ {| status := Some "completed"; conclusion := Some "success" |};
             {| status := Some "completed"; conclusion := Some "failure" |} ]).
  - discriminate.
  - repeat constructor.
  - intros H. apply Forall_cons in H as [_ H]. apply Forall_cons in H as [H _].
    discriminate H. eexists. split; [reflexivity | discriminate].
  - right. left. left. reflexivity.
Defined.

(** ** The security detector *)

(** C8.  [_is_security_update] returns true exactly when some label
    name, lowercased, contains "security", or the body, lowercased,
    contains "security", "cve" or "vulnerability"; it is a function of
    its two arguments only.  The four cases of the test suite follow. *)
Theorem is_security_update_iff :
  (forall (labels : list string) (body : string),
      _is_security_update labels body = true
      <-> (exists label, label ∈ labels
                         /\ Substring "security" (PyStr.lower label))
          \/ Substring "security" (PyStr.lower body)
          \/ Substring "cve" (PyStr.lower body)
          \/ Substring "vulnerability" (PyStr.lower body))
  /\ _is_security_update ["security"] "" = true
  /\ _is_security_update [] "This update fixes CVE-2024-1234" = true
  /\ _is_security_update [] "This release addresses a critical vulnerability"
     = true
  /\ _is_security_update ["dependencies"] "Regular dependency update" = false.
Proof.
  split; [|repeat split; vm_compute; reflexivity].
  intros labels body. unfold _is_security_update.
  rewrite !orb_true_iff, !contains_Substring, existsb_exists.
  assert ((exists x, In x (map PyStr.lower labels)
                     /\ PyStr.contains "security" x = true)
          <-> (exists label, label ∈ labels
                             /\ Substring "security" (PyStr.lower label)))
    as Hlabels; [|tauto].
  split.
  - intros (x & Hin & Hx). apply in_map_iff in Hin as (label & <- & Hin).
    exists label. split; [apply list_elem_of_In; exact Hin|].
    apply contains_Substring. exact Hx.
  - intros (label & Hin & Hx). exists (PyStr.lower label). split.
    + apply in_map. apply list_elem_of_In. exact Hin.
    + apply contains_Substring. exact Hx.
Qed.

(** ** The regular expression matcher *)

Lemma length_app_string (a b : string) :
  String.length (a +:+ b) = (String.length a + String.length b)%nat.
Proof. induction a as [|c a IH]; simpl; [reflexivity | rewrite IH; reflexivity]. Qed.

Lemma first_bytes_app (a b : string) :
  Re.first_bytes (String.length a) (a +:+ b) = a.
Proof. induction a as [|c a IH]; simpl; [destruct b; reflexivity | rewrite IH; reflexivity]. Qed.

(** The text consumed between a string and one of its suffixes. *)
Lemma consumed_app (a b : string) : Re.consumed (a +:+ b) b = a.
Proof.
  unfold Re.consumed. rewrite length_app_string.
  replace (String.length a + String.length b - String.length b)%nat
    with (String.length a) by lia.
  apply first_bytes_app.
Qed.

Lemma occurs_app (c : ascii) (a b : string) :
  occurs c (a +:+ b) = occurs c a || occurs c b.
Proof.
  induction a as [|d a IH]; [reflexivity|].
  rewrite app_cons. simpl. rewrite IH, orb_assoc. reflexivity.
Qed.

(** A greedy [[\s\S]*] followed by a test for one character [c]: the
    continuation runs after the last [c] of the text. *)
Lemma star_greedy_any_last {R : Type} (c : ascii) (f : string -> R)
      (k : string -> option R) (s : string) :
  (forall s', k s' = match s' with
                     | String d rest => if Ascii.eqb c d then Some (f rest) else None
                     | "" => None
                     end) ->
  (Re.star_greedy Re.any s k = None /\ occurs c s = false)
  \/ (exists mid post,
         s = mid +:+ String c post /\ occurs c post = false
         /\ Re.star_greedy Re.any s k = Some (f post)).
Proof.
  intros Hk. induction s as [|d s IH].
  - left. simpl. rewrite Hk. split; reflexivity.
  - cbn [Re.star_greedy Re.any].
    destruct IH as [[Hnone Hocc] | (mid & post & -> & Hocc & Hsome)].
    + rewrite Hnone, Hk. simpl. rewrite Hocc.
      destruct (Ascii.eqb_spec c d) as [->|Hne].
      * right. exists "", s. repeat split. exact Hocc.
      * left. split; reflexivity.
    + right. exists (String d mid), post. rewrite Hsome.
      repeat split. exact Hocc.
Qed.

Lemma match_at_json_re (d : ascii) (s : string) :
  Re.match_at json_re (String d s)
  = if Ascii.eqb "{" d then
      Re.star_greedy Re.any s
        (fun s' => match s' with
                   | String e rest =>
                       if Ascii.eqb "}" e
                       then Some (<[0%nat := Re.consumed (String d s) rest]> ∅)
                       else None
                   | "" => None
                   end)
    else None.
Proof. reflexivity. Qed.

(** [re.search(r"\{[\s\S]*\}", text)]: there is a match exactly when
    some closing brace follows the first opening brace, and the match
    runs from the first opening brace to the last closing brace. *)
Lemma search_json_re (text : string) :
  (Re.search json_re text = None
   /\ forall pre mid post, text <> pre +:+ String "{" (mid +:+ String "}" post))
  \/ (exists pre mid post m,
         text = pre +:+ String "{" (mid +:+ String "}" post)
         /\ occurs "{" pre = false /\ occurs "}" post = false
         /\ Re.search json_re text = Some m
         /\ Re.group 0 m = String "{" (mid +:+ String "}" ""))%string.
Proof.
  induction text as [|d s IH].
  - left. split; [reflexivity|]. intros [|? ?] mid post; discriminate.
  - cbn [Re.search]. rewrite match_at_json_re.
    destruct (Ascii.eqb_spec "{" d) as [<-|Hne].
    + edestruct (star_greedy_any_last "}"
                   (fun rest => <[0%nat := Re.consumed (String "{" s) rest]> (∅ : Re.groups)))
        as [[Hnone Hocc] | (mid & post & Hs & Hocc & Hsome)];
        [intros s'; reflexivity | |].
      * rewrite Hnone. destruct IH as [[IHn IHd] | (pre & mid & post & m & -> & _ & _ & _)].
        -- left. rewrite IHn. split; [reflexivity|].
           intros pre mid post Heq.
           assert (occurs "}" s = true) as Ho; [|congruence].
           clear -Heq.
           destruct pre as [|e pre]; rewrite ?app_nil, ?app_cons in Heq;
             injection Heq; intros; subst; rewrite ?occurs_app; simpl;
             rewrite ?occurs_app; simpl; rewrite ?orb_true_r; reflexivity.
        -- exfalso. rewrite occurs_app in Hocc. simpl in Hocc.
           rewrite occurs_app in Hocc. simpl in Hocc.
           rewrite ?orb_true_r in Hocc. discriminate.
      * right. rewrite Hsome. exists "", mid, post. eexists.
        split; [rewrite Hs; reflexivity|].
        split; [reflexivity|]. split; [exact Hocc|].
        split; [reflexivity|].
        unfold Re.group. cbv beta. rewrite lookup_insert_eq. simpl.
        rewrite Hs.
        replace (String "{" (mid +:+ String "}" post))
          with ((String "{" (mid +:+ String "}" "")) +:+ post)
          by (rewrite app_cons, app_assoc_string; reflexivity).
        apply consumed_app.
    + destruct IH as [[IHn IHd] | (pre & mid & post & m & -> & Hpre & Hpost & Hm & Hg)].
      * left. rewrite IHn. split; [reflexivity|].
        intros [|e pre] mid post Heq; rewrite ?app_nil, ?app_cons in Heq.
        -- congruence.
        -- injection Heq; intros; subst. eapply IHd. reflexivity.
      * right. rewrite Hm. exists (String d pre), mid, post, m.
        split; [reflexivity|]. split; [|auto].
        cbn [occurs]. rewrite Hpre.
        destruct (Ascii.eqb_spec "{" d); [congruence | reflexivity].
Qed.

(** A greedy [[\s\S]*] run on a text whose last [c] is known. *)
Lemma star_greedy_any_at {R : Type} (c : ascii) (f : string -> R)
      (k : string -> option R) (mid post : string) :
  (forall s', k s' = match s' with
                     | String d rest => if Ascii.eqb c d then Some (f rest) else None
                     | "" => None
                     end) ->
  occurs c post = false ->
  Re.star_greedy Re.any (mid +:+ String c post) k = Some (f post).
Proof.
  intros Hk Hocc. induction mid as [|d mid IH].
  - rewrite app_nil. cbn [Re.star_greedy Re.any].
    destruct (star_greedy_any_last c f k post Hk)
      as [[-> _] | (mid' & post' & -> & _ & _)].
    + rewrite Hk, Ascii.eqb_refl. reflexivity.
    + rewrite occurs_app in Hocc. cbn [occurs] in Hocc.
      rewrite Ascii.eqb_refl, orb_true_r in Hocc. discriminate.
  - rewrite app_cons. cbn [Re.star_greedy Re.any]. rewrite IH. reflexivity.
Qed.

Lemma json_candidate_span (pre mid post : string) :
  occurs "{" pre = false -> occurs "}" post = false ->
  json_candidate (pre +:+ String "{" (mid +:+ String "}" post))
  = Some (String "{" (mid +:+ String "}" "")).
Proof.
  intros Hpre Hpost. unfold json_candidate.
  induction pre as [|d pre IH].
  - rewrite app_nil. cbn [Re.search]. rewrite match_at_json_re.
    rewrite Ascii.eqb_refl.
    rewrite (star_greedy_any_at "}"
               (fun rest => <[0%nat := Re.consumed
                                (String "{" (mid +:+ String "}" post)) rest]>
                              (∅ : gmap nat string)))
      by (intros; reflexivity || exact Hpost).
    cbn [fmap option_fmap option_map]. unfold Re.group.
    rewrite lookup_insert_eq. cbn [default]. f_equal.
    replace (String "{" (mid +:+ String "}" post))
      with ((String "{" (mid +:+ String "}" "")) +:+ post)
      by (rewrite app_cons, app_assoc_string; reflexivity).
    apply consumed_app.
  - rewrite app_cons. cbn [Re.search]. rewrite match_at_json_re.
    cbn [occurs] in Hpre. apply orb_false_iff in Hpre as [Hd Hpre].
    rewrite Hd. apply IH. exact Hpre.
Qed.

Lemma json_candidate_None (text : string) :
  json_candidate text = None
  <-> forall pre mid post, text <> pre +:+ String "{" (mid +:+ String "}" post).
Proof.
  unfold json_candidate.
  destruct (search_json_re text)
    as [[Hn Hd] | (pre & mid & post & m & Heq & _ & _ & Hm & _)].
  - rewrite Hn. split; [intros _; exact Hd | reflexivity].
  - rewrite Hm. split; [discriminate|]. intros H. exfalso. exact (H _ _ _ Heq).
Qed.

(** ** Verdict extraction *)

Lemma MergeDecision_getitem_Ok (v : json) (decision : MergeDecision) :
  MergeDecision_getitem v = Ok decision <-> v = JString (decision_token decision).
Proof.
  split.
  - destruct v as [| | |s| |]; cbn -[String.eqb]; try discriminate.
    destruct (String.eqb_spec s "AUTO_MERGE") as [->|?];
      [intros [= <-]; reflexivity|].
    destruct (String.eqb_spec s "REQUIRE_APPROVAL") as [->|?];
      [intros [= <-]; reflexivity|].
    destruct (String.eqb_spec s "DO_NOT_MERGE") as [->|?];
      [intros [= <-]; reflexivity | discriminate].
  - intros ->. destruct decision; reflexivity.
Qed.

Lemma RiskLevel_getitem_Ok (v : json) (risk : RiskLevel) :
  RiskLevel_getitem v = Ok risk <-> v = JString (risk_token risk).
Proof.
  split.
  - destruct v as [| | |s| |]; cbn -[String.eqb]; try discriminate.
    destruct (String.eqb_spec s "LOW") as [->|?];
      [intros [= <-]; reflexivity|].
    destruct (String.eqb_spec s "MEDIUM") as [->|?];
      [intros [= <-]; reflexivity|].
    destruct (String.eqb_spec s "HIGH") as [->|?];
      [intros [= <-]; reflexivity|].
    destruct (String.eqb_spec s "CRITICAL") as [->|?];
      [intros [= <-]; reflexivity | discriminate].
  - intros ->. destruct risk; reflexivity.
Qed.

Lemma parse_decision_candidate (json_loads : string -> result json)
      (context : PRContext) (final_text : string) :
  parse_decision json_loads context final_text
  = match json_candidate final_text with
    | Some matched =>
        match load_verdict json_loads matched with
        | Ok verdict => verdict
        | Raise _ => fallback_verdict context final_text
        end
    | None => fallback_verdict context final_text
    end.
Proof.
  unfold parse_decision, json_candidate.
  destruct (Re.search json_re final_text); reflexivity.
Qed.

(** [load_verdict] succeeds exactly on a document that loads as an
    object whose fields hold a decision token, a risk token and a
    reasoning. *)
Lemma load_verdict_Ok (json_loads : string -> result json) (matched : string)
      (decision : MergeDecision) (risk : RiskLevel) (reasoning : json) :
  load_verdict json_loads matched = Ok (decision, risk, reasoning)
  <-> exists d, json_loads matched = Ok (JObject d)
                /\ d !! "decision" = Some (JString (decision_token decision))
                /\ d !! "risk_level" = Some (JString (risk_token risk))
                /\ d !! "reasoning" = Some reasoning.
Proof.
  unfold load_verdict. split.
  - destruct (json_loads matched) as [data|e]; [|discriminate]. cbn [bind].
    destruct data as [| | | | |d]; try discriminate.
    cbn [json_getitem]. unfold getitem.
    destruct (d !! "decision") as [vd|] eqn:Ed; [|discriminate]. cbn [bind].
    destruct (MergeDecision_getitem vd) as [dec|] eqn:Hd; [|discriminate].
    cbn [bind].
    destruct (d !! "risk_level") as [vr|] eqn:Er; [|discriminate]. cbn [bind].
    destruct (RiskLevel_getitem vr) as [rk|] eqn:Hr; [|discriminate].
    cbn [bind].
    destruct (d !! "reasoning") as [vx|] eqn:Ex; [|discriminate]. cbn [bind].
    intros [= <- <- <-]. exists d.
    apply MergeDecision_getitem_Ok in Hd as ->.
    apply RiskLevel_getitem_Ok in Hr as ->. auto.
  - intros (d & -> & Hd & Hr & Hx). cbn [bind json_getitem]. unfold getitem.
    rewrite Hd, Hr, Hx. cbn [bind].
    rewrite (proj2 (MergeDecision_getitem_Ok _ decision) eq_refl).
    rewrite (proj2 (RiskLevel_getitem_Ok _ risk) eq_refl). reflexivity.
Qed.

(** C3, as stated, fails: on a final answer where the verdict object
    is followed by a later pair of braces, the text handed to
    [json.loads] runs to the last closing brace, and is not the first
    balanced object; [json.loads] rejects it and the fallback answers. *)
Lemma json_match_is_not_first_balanced_object :
  first_balanced_object two_objects_text = Some verdict_object_text
  /\ json_candidate two_objects_text
     = Some (verdict_object_text +:+ " (see {notes}")
  /\ json_candidate two_objects_text <> first_balanced_object two_objects_text
  /\ parse_decision json_loads_stub sample_pr_context two_objects_text
     = fallback_verdict sample_pr_context two_objects_text.
Proof.
  assert (json_candidate two_objects_text
          = Some (verdict_object_text +:+ " (see {notes}")) as Hc
      by (vm_compute; reflexivity).
  assert (first_balanced_object two_objects_text = Some verdict_object_text)
    as Hf by (vm_compute; reflexivity).
  split; [exact Hf|]. split; [exact Hc|]. split.
  - rewrite Hc, Hf. vm_compute. discriminate.
  - rewrite parse_decision_candidate, Hc. vm_compute. reflexivity.
Qed.

(** C3, amended.  Verdict extraction takes the text from the first
    opening brace to the last closing brace of the final answer, whatever
    follows the last closing brace (a later opening brace included), and
    hands it to [json.loads]; when that text loads as an object whose
    "decision" and "risk_level" fields hold the name of an enum member
    and which has a "reasoning" field, the verdict is that member pair
    with that reasoning; when [json.loads] raises on it, the fallback
    answers.  So when an object is followed by a later closing brace, the
    text handed to [json.loads] is not that object: it runs on to the
    last closing brace. *)
Theorem verdict_extraction_outermost_braces
        (json_loads : string -> result json) (context : PRContext)
        (pre mid post : string) :
  occurs "{" pre = false ->
  occurs "}" post = false ->
  let final_text := pre +:+ String "{" (mid +:+ String "}" post) in
  let span := String "{" (mid +:+ String "}" "") in
  json_candidate final_text = Some span
  /\ (forall d decision risk reasoning,
         json_loads span = Ok (JObject d) ->
         d !! "decision" = Some (JString (decision_token decision)) ->
         d !! "risk_level" = Some (JString (risk_token risk)) ->
         d !! "reasoning" = Some reasoning ->
         parse_decision json_loads context final_text
         = (decision, risk, reasoning))
  /\ (forall e,
         json_loads span = Raise e ->
         parse_decision json_loads context final_text
         = fallback_verdict context final_text)
  /\ (forall object later,
         span = object +:+ later -> later <> "" ->
         json_candidate final_text <> Some object).
Proof.
  intros Hpre Hpost final_text span.
  pose proof (json_candidate_span pre mid post Hpre Hpost) as Hc.
  fold final_text span in Hc. split; [exact Hc|]. split; [|split].
  - intros d decision risk reasoning Hl Hd Hr Hx.
    rewrite parse_decision_candidate, Hc.
    rewrite (proj2 (load_verdict_Ok json_loads span decision risk reasoning));
      [reflexivity|]. exists d. auto.
  - intros e He. rewrite parse_decision_candidate, Hc.
    unfold load_verdict. rewrite He. reflexivity.
  - intros object later Hspan Hlater. rewrite Hc. intros [= Heq].
    rewrite Heq in Hspan. apply (f_equal String.length) in Hspan.
    rewrite length_app_string in Hspan.
    destruct later; [congruence | simpl in Hspan; lia].
Qed.

Lemma verdict_extraction_outermost_braces_witness :
  occurs "{" "Verdict: " = false
  /\ occurs "}" "" = false
  /\ parse_decision json_loads_stub sample_pr_context
       ("Verdict: " +:+ verdict_object_text)
     = (AUTO_MERGE, LOW, JString "ok").
Proof.
  split; [reflexivity|]. split; [reflexivity|].
  destruct (verdict_extraction_outermost_braces json_loads_stub
              sample_pr_context "Verdict: "
              (PyStr.cat [ PyStr.dq; "decision"; PyStr.dq; ": "; PyStr.dq;
                           "AUTO_MERGE"; PyStr.dq; ", "; PyStr.dq; "risk_level";
                           PyStr.dq; ": "; PyStr.dq; "LOW"; PyStr.dq; ", ";
                           PyStr.dq; "reasoning"; PyStr.dq; ": "; PyStr.dq; "ok";
                           PyStr.dq ])
              "" eq_refl eq_refl) as (_ & Hparse & _ & _).
  apply (Hparse {[ "decision" := JString "AUTO_MERGE";
                   "risk_level" := JString "LOW";
                   "reasoning" := JString "ok" ]} AUTO_MERGE LOW (JString "ok"));
    vm_compute; reflexivity.
Defined.

(** ** Tools *)

Lemma has_required_arguments_spec (tool_name : string)
      (tool_input : gmap string pyval) :
  has_required_arguments tool_name tool_input = true
  <-> (tool_name = "fetch_release_notes" ->
       is_Some (tool_input !! "dependency") /\ is_Some (tool_input !! "version"))
      /\ (tool_name = "check_cve_database" ->
          is_Some (tool_input !! "dependency")
          /\ is_Some (tool_input !! "version"))
      /\ (tool_name = "analyze_diff" -> is_Some (tool_input !! "pr_number")).
Proof.
  unfold has_required_arguments. cbn -[String.eqb bool_decide].
  repeat first [ rewrite andb_true_iff | rewrite orb_true_iff
               | rewrite negb_true_iff | rewrite bool_decide_eq_true ].
  rewrite !String.eqb_neq. split.
  - intros (H1 & H2 & H3 & _). split; [|split]; intros ->.
    + destruct H1 as [H1|(? & ? & _)]; [congruence | split; assumption].
    + destruct H2 as [H2|(? & ? & _)]; [congruence | split; assumption].
    + destruct H3 as [H3|(? & _)]; [congruence | assumption].
  - intros (H1 & H2 & H3). split; [|split; [|split; [|reflexivity]]].
    + destruct (String.eqb_spec "fetch_release_notes" tool_name) as [<-|?];
        [right; destruct H1; auto | left; assumption].
    + destruct (String.eqb_spec "check_cve_database" tool_name) as [<-|?];
        [right; destruct H2; auto | left; assumption].
    + destruct (String.eqb_spec "analyze_diff" tool_name) as [<-|?];
        [right; auto | left; assumption].
Qed.

(** C9, as stated, fails: asked for the release notes without the
    "version" argument, [tool_input["version"]] raises and the [KeyError]
    leaves [_execute_tool]. *)
Lemma execute_tool_lets_KeyError_escape :
  _execute_tool "octo/repo" github_down "fetch_release_notes"
    {[ "dependency" := PStr "axios" ]}
  = Raise (KeyError "version").
Proof. vm_compute. reflexivity. Qed.

(** C9, amended.  For every tool name and every argument set that
    carries the arguments the tool's definition requires, and whatever
    the network answers, [_execute_tool] returns a string: an exception
    of the diff request becomes the text "Could not fetch diff: ..." with
    the message of the exception, the release-notes and CVE tools make no
    request and return their fixed sentence about the dependency and the
    version, and a name that is none of the three tools becomes the text
    "Unknown tool: ..." with the name.  An argument set that lacks a
    required argument makes [_execute_tool] raise the [KeyError] of a
    missing argument. *)
Theorem execute_tool_returns_observation
        (repo : string) (requests_request : Request -> result string)
        (tool_name : string) (tool_input : gmap string pyval) :
  (has_required_arguments tool_name tool_input = true ->
   exists observation,
     _execute_tool repo requests_request tool_name tool_input = Ok observation)
  /\ (has_required_arguments tool_name tool_input = false ->
      exists key,
        tool_input !! key = None
        /\ _execute_tool repo requests_request tool_name tool_input
           = Raise (KeyError key))
  /\ (forall pr_number e,
         tool_name = "analyze_diff" ->
         tool_input !! "pr_number" = Some pr_number ->
         _make_request requests_request "GET"
           ("/repos/" +:+ repo +:+ "/pulls/" +:+ py_str pr_number)
           (Some "application/vnd.github.v3.diff")
         = Raise e ->
         _execute_tool repo requests_request tool_name tool_input
         = Ok ("Could not fetch diff: " +:+ exn_str e))
  /\ (forall dependency version,
         tool_input !! "dependency" = Some dependency ->
         tool_input !! "version" = Some version ->
         (tool_name = "fetch_release_notes" ->
          _execute_tool repo requests_request tool_name tool_input
          = Ok ("Release notes for " +:+ py_str dependency +:+ " "
                +:+ py_str version
                +:+ " would be fetched from package registry (npm, PyPI, etc.) in production implementation."))
         /\ (tool_name = "check_cve_database" ->
             _execute_tool repo requests_request tool_name tool_input
             = Ok ("CVE check for " +:+ py_str dependency +:+ " "
                   +:+ py_str version
                   +:+ " would query vulnerability databases (GitHub Security, Snyk, etc.) in production implementation.")))
  /\ (tool_name ∉ map fst _get_tools_definition ->
      _execute_tool repo requests_request tool_name tool_input
      = Ok ("Unknown tool: " +:+ tool_name)).
Proof.
  split; [|split; [|split; [|split]]].
  - rewrite has_required_arguments_spec. intros (H1 & H2 & H3).
    unfold _execute_tool, getitem.
    destruct (String.eqb_spec tool_name "fetch_release_notes") as [E|_].
    { destruct (H1 E) as ([v1 E1] & [v2 E2]). rewrite E1, E2. cbn [bind]. eauto. }
    destruct (String.eqb_spec tool_name "check_cve_database") as [E|_].
    { destruct (H2 E) as ([v1 E1] & [v2 E2]). rewrite E1, E2. cbn [bind]. eauto. }
    destruct (String.eqb_spec tool_name "analyze_diff") as [E|_].
    { destruct (H3 E) as [v1 E1]. rewrite E1. cbn [bind]. eauto. }
    eauto.
  - intros Hreq.
    assert (~ ((tool_name = "fetch_release_notes" ->
                is_Some (tool_input !! "dependency")
                /\ is_Some (tool_input !! "version"))
               /\ (tool_name = "check_cve_database" ->
                   is_Some (tool_input !! "dependency")
                   /\ is_Some (tool_input !! "version"))
               /\ (tool_name = "analyze_diff" ->
                   is_Some (tool_input !! "pr_number")))) as Hnot.
    { intros H. apply has_required_arguments_spec in H. congruence. }
    unfold _execute_tool, getitem.
    destruct (String.eqb_spec tool_name "fetch_release_notes") as [->|N1];
      [|destruct (String.eqb_spec tool_name "check_cve_database") as [->|N2];
        [|destruct (String.eqb_spec tool_name "analyze_diff") as [->|N3]]].
    + destruct (tool_input !! "dependency") as [v1|] eqn:E1; cbn [bind];
        [destruct (tool_input !! "version") as [v2|] eqn:E2; cbn [bind]|];
        eauto.
      exfalso. apply Hnot. repeat split; intros; try discriminate; eauto.
    + destruct (tool_input !! "dependency") as [v1|] eqn:E1; cbn [bind];
        [destruct (tool_input !! "version") as [v2|] eqn:E2; cbn [bind]|];
        eauto.
      exfalso. apply Hnot. repeat split; intros; try discriminate; eauto.
    + destruct (tool_input !! "pr_number") as [v1|] eqn:E1; cbn [bind]; eauto.
      exfalso. apply Hnot. repeat split; intros; try discriminate; eauto.
    + exfalso. apply Hnot. repeat split; intros; congruence.
  - intros pr_number e -> Hn He. unfold _execute_tool, getitem.
    cbn [String.eqb Ascii.eqb Bool.eqb]. rewrite Hn. cbn [bind].
    unfold _analyze_diff. rewrite He. reflexivity.
  - intros dependency version Hd Hv. split; intros ->;
      unfold _execute_tool, getitem; cbn [String.eqb Ascii.eqb Bool.eqb];
      rewrite Hd, Hv; reflexivity.
  - intros Hnot. unfold _execute_tool.
    cbn [map fst _get_tools_definition] in Hnot.
    rewrite !not_elem_of_cons in Hnot. destruct Hnot as (N1 & N2 & N3 & _).
    rewrite (proj2 (String.eqb_neq _ _) N1), (proj2 (String.eqb_neq _ _) N2),
      (proj2 (String.eqb_neq _ _) N3). reflexivity.
Qed.

Lemma execute_tool_returns_observation_witness :
  ({[ "pr_number" := PInt 42 ]} : gmap string pyval) !! "pr_number"
  = Some (PInt 42)
  /\ _make_request github_down "GET"
       ("/repos/" +:+ "octo/repo" +:+ "/pulls/" +:+ py_str (PInt 42))
       (Some "application/vnd.github.v3.diff")
     = Raise duplicate_headers
  /\ _execute_tool "octo/repo" github_down "analyze_diff"
       {[ "pr_number" := PInt 42 ]}
     = Ok ("Could not fetch diff: " +:+ exn_str duplicate_headers).
Proof.
  assert (({[ "pr_number" := PInt 42 ]} : gmap string pyval) !! "pr_number"
          = Some (PInt 42)) as Hn by (vm_compute; reflexivity).
  split; [exact Hn|]. split; [reflexivity|].
  destruct (execute_tool_returns_observation "octo/repo" github_down
              "analyze_diff" {[ "pr_number" := PInt 42 ]})
    as (_ & _ & Hdiff & _).
  exact (Hdiff (PInt 42) duplicate_headers eq_refl Hn eq_refl).
Defined.

(** ** The reasoning loop *)

Section Loop.

Variable repo : string.
Variable requests_request : Request -> result string.
Variable messages_create : list Message -> result Response.

Local Abbreviation loop := (agent_loop repo requests_request messages_create).

(** A loop of [n] rounds issues at most [n] requests, and only adds
    to the requests already issued. *)
Lemma agent_loop_requests (n : nat) :
  forall messages response w,
  exists sent,
    requests (loop n messages response w).2 = (requests w ++ sent)%list
    /\ (length sent <= n)%nat.
Proof.
  induction n as [|n IH]; intros messages response w.
  - exists []. cbn. rewrite app_nil_r. split; [reflexivity | lia].
  - cbn [agent_loop]. unfold mbind at 1. unfold create at 1.
    destruct (messages_create messages) as [r|e].
    + destruct (String.eqb (stop_reason r) "tool_use").
      * unfold mbind, lift.
        destruct (run_tools repo requests_request (content r)) as [trs|e].
        -- edestruct IH as (sent & -> & Hlen). cbn [requests].
           exists (messages :: sent). rewrite <- app_assoc.
           split; [reflexivity | simpl; lia].
        -- exists [messages]. split; [reflexivity | simpl; lia].
      * exists [messages]. split; [reflexivity | simpl; lia].
    + exists [messages]. split; [reflexivity | simpl; lia].
Qed.

(** Against such a service a loop of [n + 1] rounds runs all its
    rounds and ends with the response to its last request. *)
Lemma agent_loop_always_tools (n : nat) :
  always_requests_tools repo requests_request messages_create ->
  forall messages response w,
  exists sent final_request final_response,
    loop (S n) messages response w
    = (Ok (Some final_response),
       {| requests := (requests w ++ sent ++ [final_request])%list |})
    /\ length sent = n
    /\ messages_create final_request = Ok final_response.
Proof.
  intros Hsvc. induction n as [|n IH]; intros messages response w;
    destruct (Hsvc messages) as (r & trs & Hr & Hstop & Htools).
  - exists [], messages, r. cbn [agent_loop]. unfold mbind, create, lift.
    rewrite Hr, Hstop, Htools. cbn. auto.
  - remember (S n) as m. cbn [agent_loop]. unfold mbind at 1. unfold create.
    rewrite Hr, Hstop, String.eqb_refl. unfold mbind at 1. unfold lift.
    rewrite Htools. subst m.
    edestruct IH as (sent & freq & fresp & -> & Hlen & Hf).
    exists (messages :: sent), freq, fresp. cbn [requests].
    rewrite <- app_assoc. cbn. auto.
Qed.

End Loop.

(** C2.  Whatever the reasoning service answers, [decide_with_llm]
    issues at most 5 requests to it.  Against a service that asks for
    tools on every round it issues exactly 5, leaves the loop after the
    fifth although that response still asks for tools, and returns what
    verdict extraction (or the fallback) makes of the fifth response. *)
Theorem decide_with_llm_round_cap
        (repo : string) (requests_request : Request -> result string)
        (json_loads : string -> result json)
        (messages_create : list Message -> result Response)
        (context : PRContext) (w : World) :
  (exists sent,
      requests (decide_with_llm repo requests_request json_loads messages_create
                  context w).2
      = (requests w ++ sent)%list
      /\ (length sent <= 5)%nat)
  /\ (always_requests_tools repo requests_request messages_create ->
      exists sent final_request final_response,
        decide_with_llm repo requests_request json_loads messages_create context w
        = (Ok (parse_decision json_loads context
                 (final_text_of (content final_response))),
           {| requests := (requests w ++ sent ++ [final_request])%list |})
        /\ length sent = 4%nat
        /\ messages_create final_request = Ok final_response
        /\ stop_reason final_response = "tool_use").
Proof.
  split.
  - destruct (agent_loop_requests repo requests_request messages_create
                max_iterations
                [ {| role := "user";
                     message_content := Prompt (user_message context) |} ]
                None w) as (sent & Hsent & Hlen).
    exists sent. split; [|exact Hlen]. rewrite <- Hsent.
    unfold decide_with_llm, mbind.
    destruct (agent_loop _ _ _ _ _ _ _) as [[[r|]|e] w']; reflexivity.
  - intros Hsvc.
    destruct (agent_loop_always_tools repo requests_request messages_create 4 Hsvc
                [ {| role := "user";
                     message_content := Prompt (user_message context) |} ]
                None w) as (sent & freq & fresp & Hloop & Hlen & Hf).
    exists sent, freq, fresp. unfold decide_with_llm, mbind, max_iterations.
    rewrite Hloop. split; [reflexivity|]. split; [exact Hlen|].
    split; [exact Hf|].
    destruct (Hsvc freq) as (r & _ & Hr & Hstop & _). congruence.
Qed.

Lemma decide_with_llm_round_cap_witness :
  always_requests_tools "octo/repo" github_down always_tool_use
  /\ exists sent final_request final_response,
      decide_with_llm "octo/repo" github_down json_loads_stub always_tool_use
        sample_pr_context empty_world
      = (Ok (parse_decision json_loads_stub sample_pr_context
               (final_text_of (content final_response))),
         {| requests := (requests empty_world ++ sent ++ [final_request])%list |})
      /\ length sent = 4%nat
      /\ always_tool_use final_request = Ok final_response
      /\ stop_reason final_response = "tool_use".
Proof.
  assert (always_requests_tools "octo/repo" github_down always_tool_use) as H.
  { intros messages. eexists _, _. split; [reflexivity|].
    split; [reflexivity|]. vm_compute. reflexivity. }
  split; [exact H|].
  apply (decide_with_llm_round_cap "octo/repo" github_down json_loads_stub
           always_tool_use sample_pr_context empty_world).
  exact H.
Defined.


(** ** The version delta classifier *)

Lemma split_nonempty (sep : ascii) (s : string) :
  (1 <= length (PyStr.split sep s))%nat.
Proof.
  induction s as [|c s IH]; simpl; [lia|].
  destruct (Ascii.eqb c sep); simpl; [lia|].
  destruct (PyStr.split sep s); simpl in *; lia.
Qed.


Lemma fold_case_app (a b : string) :
  Re.fold_case (a +:+ b) = Re.fold_case a +:+ Re.fold_case b.
Proof.
  induction a as [|c a IH]; [reflexivity|].
  rewrite app_cons. cbn [Re.fold_case]. rewrite IH, app_cons. reflexivity.
Qed.

(** A literal word under [re.IGNORECASE] matches itself. *)
Lemma run_LitI_self {R : Type} (word : string) (r : Re.regex) (s : string)
      (g : gmap nat string) (k : string -> gmap nat string -> option R) :
  Re.run (Re.LitI word r) (word +:+ s) g k = Re.run r s g k.
Proof.
  induction word as [|c word IH]; [reflexivity|].
  rewrite app_cons. cbn [Re.LitI Re.run]. unfold Re.lit_i at 1.
  rewrite Ascii.eqb_refl. exact IH.
Qed.

(** A literal word under [re.IGNORECASE] matches only a text that
    starts with the word, up to letter case. *)
Lemma run_LitI_Some {R : Type} (word : string) (r : Re.regex) (s : string)
      (g : gmap nat string) (k : string -> gmap nat string -> option R) (x : R) :
  Re.run (Re.LitI word r) s g k = Some x ->
  exists rest, Re.fold_case s = Re.fold_case word +:+ rest.
Proof.
  revert s. induction word as [|c word IH]; intros s.
  - intros _. exists (Re.fold_case s). reflexivity.
  - cbn [Re.LitI Re.run]. destruct s as [|d s]; [discriminate|].
    unfold Re.lit_i at 1.
    destruct (Ascii.eqb_spec (PyStr.lower_char c) (PyStr.lower_char d))
      as [Hc|_]; [|discriminate].
    intros H. destruct (IH s H) as [rest Hrest]. exists rest.
    cbn [Re.fold_case]. rewrite app_cons, Hc, Hrest. reflexivity.
Qed.

Lemma star_lazy_unfold {R : Type} (p : ascii -> bool) (s : string)
      (k : string -> option R) :
  Re.star_lazy p s k
  = match k s with
    | Some x => Some x
    | None =>
        match s with
        | String c s' => if p c then Re.star_lazy p s' k else None
        | "" => None
        end
    end.
Proof. destruct s; reflexivity. Qed.

(** A lazy repetition stops at the first place where the rest of the
    pattern matches. *)
Lemma star_lazy_first {R : Type} (p : ascii -> bool) (k : string -> option R)
      (mid tail : string) (x : R) :
  (forall a b, mid = a +:+ b -> b <> "" -> k (b +:+ tail) = None) ->
  (forall a c b, mid = a +:+ String c b -> p c = true) ->
  k tail = Some x ->
  Re.star_lazy p (mid +:+ tail) k = Some x.
Proof.
  intros Hnone Hp Hk. induction mid as [|c mid IH].
  - rewrite app_nil, star_lazy_unfold, Hk. reflexivity.
  - rewrite star_lazy_unfold.
    rewrite (Hnone "" (String c mid) eq_refl) by discriminate.
    rewrite app_cons. rewrite (Hp "" c mid eq_refl). apply IH.
    + intros a b -> Hb. apply (Hnone (String c a) b); [reflexivity | exact Hb].
    + intros a d b ->. apply (Hp (String c a) d b). reflexivity.
Qed.

Lemma occurs_false_split (c : ascii) (s a b : string) (d : ascii) :
  occurs c s = false -> s = a +:+ String d b -> c <> d.
Proof.
  intros Hocc -> ->. rewrite occurs_app in Hocc. cbn [occurs] in Hocc.
  rewrite Ascii.eqb_refl, orb_true_r in Hocc. discriminate.
Qed.

Lemma search_unfold (r : Re.regex) (s : string) :
  Re.search r s
  = match Re.match_at r s with
    | Some g => Some g
    | None =>
        match s with
        | String _ s' => Re.search r s'
        | "" => None
        end
    end.
Proof. destruct s; reflexivity. Qed.

Lemma run_lazy_plus_group {R : Type} (n : nat) (p : ascii -> bool)
      (r : Re.regex) (c : ascii) (rest : string) (g : gmap nat string)
      (k : string -> gmap nat string -> option R) :
  Re.run (Re.Cat (Re.Grp n (Re.Plus false p)) r) (String c rest) g k
  = if p c then
      Re.star_lazy p rest
        (fun s' => Re.run r s' (<[n := Re.consumed (String c rest) s']> g) k)
    else None.
Proof. reflexivity. Qed.

(** Inside a name that has no " to" in any letter case, the word
    " to" of the Renovate pattern does not match before the name ends. *)
Lemma to_not_before_end {R : Type} (a b version : string)
      (g : gmap nat string) (k : string -> gmap nat string -> option R) :
  PyStr.contains " to" (Re.fold_case (a +:+ b)) = false ->
  b <> "" ->
  Re.run (Re.LitI " to" Re.Eps) (b +:+ " to " +:+ version) g k = None.
Proof.
  intros Hno Hb.
  destruct (Re.run _ _ g k) as [res|] eqn:Hrun; [exfalso|reflexivity].
  apply run_LitI_Some in Hrun as [rest Hrest].
  rewrite fold_case_app in Hrest.
  change (Re.fold_case (" to " +:+ version))
    with (" to " +:+ Re.fold_case version) in Hrest.
  change (Re.fold_case " to") with " to" in Hrest.
  destruct b as [|x [|y [|z b]]]; [congruence| | |].
  - cbn [Re.fold_case] in Hrest. rewrite !app_cons, !app_nil in Hrest.
    injection Hrest as _ H _. discriminate H.
  - cbn [Re.fold_case] in Hrest. rewrite !app_cons, !app_nil in Hrest.
    injection Hrest as _ _ H _. discriminate H.
  - cbn [Re.fold_case] in Hrest. rewrite !app_cons, !app_nil in Hrest.
    injection Hrest as Hx Hy Hz _.
    assert (PyStr.contains " to" (Re.fold_case (a +:+ String x (String y (String z b))))
            = true) as Hyes; [|congruence].
    apply contains_Substring. exists (Re.fold_case a), (Re.fold_case b).
    rewrite fold_case_app. cbn [Re.fold_case]. rewrite Hx, Hy, Hz. reflexivity.
Qed.

(** The Renovate pattern on a title "Update <name> to <version>". *)
Lemma renovate_match (name version : string) :
  name <> "" ->
  occurs "010" name = false ->
  PyStr.contains " to" (Re.fold_case name) = false ->
  exists m,
    Re.search renovate_re ("Update " +:+ name +:+ " to " +:+ version) = Some m
    /\ Re.group 1 m = name.
Proof.
  intros Hne Hnl Hto.
  set (tail := " to " +:+ version).
  set (title := "Update " +:+ name +:+ tail).
  exists (<[0%nat := Re.consumed title (" " +:+ version)]>
            (<[1%nat := Re.consumed (name +:+ tail) tail]> ∅)).
  split.
  - rewrite search_unfold.
    assert (Re.match_at renovate_re title
            = Some (<[0%nat := Re.consumed title (" " +:+ version)]>
                      (<[1%nat := Re.consumed (name +:+ tail) tail]> ∅)))
      as ->; [|reflexivity].
    unfold Re.match_at, renovate_re. cbn [Re.run]. unfold title.
    rewrite run_LitI_self. fold title.
    destruct name as [|c name]; [congruence|]. rewrite app_cons.
    rewrite run_lazy_plus_group.
    assert (Re.dot c = true) as ->.
    { unfold Re.dot. apply negb_true_iff, Ascii.eqb_neq.
      intros ->. apply (occurs_false_split _ _ "" name "010" Hnl); reflexivity. }
    rewrite <- app_cons.
    apply star_lazy_first.
    + intros a b -> Hb. apply (to_not_before_end (String c a) b); [|exact Hb].
      exact Hto.
    + intros a d b ->. unfold Re.dot. apply negb_true_iff, Ascii.eqb_neq.
      intros ->.
      apply (occurs_false_split _ _ (String c a) b "010" Hnl); reflexivity.
    + change tail with (" to" +:+ " " +:+ version). rewrite run_LitI_self.
      unfold Re.Eps. cbn [Re.run]. rewrite star_lazy_unfold. reflexivity.
  - unfold Re.group. rewrite lookup_insert_ne by discriminate.
    rewrite lookup_insert_eq. cbn [default]. apply consumed_app.
Qed.

(** C10, as stated, fails: for the title "Update dependency tokio to
    v1.2.3", with no "from A to B" phrase, the name between "Update " and
    " to v1.2.3" is "dependency tokio"; the classifier stops at the " to"
    that begins " tokio" and extracts "dependency". *)
Lemma renovate_name_cut_at_first_to :
  "Update dependency tokio to v1.2.3"
  = "Update " +:+ "dependency tokio" +:+ " to " +:+ "v1.2.3"
  /\ version_pair "Update dependency tokio to v1.2.3" = None
  /\ _parse_dependency_info "Update dependency tokio to v1.2.3" ""
     = ("unknown", "", "", "dependency")
  /\ "dependency" <> "dependency tokio".
Proof.
  split; [reflexivity|]. split; [vm_compute; reflexivity|].
  split; [vm_compute; reflexivity | discriminate].
Qed.

(** C10, amended.  For every title "Update <name> to <version>" whose
    <name> is not empty, has no line break, has no leading or trailing
    whitespace and does not contain " to" in any letter case, and in
    which neither the "Bump ... from" pattern nor the "from A to B"
    pattern matches, the classifier extracts <name> as the dependency
    name, leaves both versions empty and the bump category "unknown". *)
Theorem renovate_title_name_only (name version body : string) :
  let title := "Update " +:+ name +:+ " to " +:+ version in
  name <> "" ->
  occurs "010" name = false ->
  PyStr.strip name = name ->
  PyStr.contains " to" (Re.fold_case name) = false ->
  Re.search bump_re title = None ->
  version_pair title = None ->
  _parse_dependency_info title body = ("unknown", "", "", name).
Proof.
  intros title Hne Hnl Hstrip Hto Hbump Hver.
  destruct (renovate_match name version Hne Hnl Hto) as (m & Hm & Hg).
  fold title in Hm. unfold _parse_dependency_info.
  rewrite Hbump, Hm, Hg, Hstrip.
  unfold version_pair in Hver.
  destruct (Re.search version_re title); [discriminate | reflexivity].
Qed.

Lemma renovate_title_name_only_witness :
  "axios" <> ""
  /\ occurs "010" "axios" = false
  /\ PyStr.strip "axios" = "axios"
  /\ PyStr.contains " to" (Re.fold_case "axios") = false
  /\ Re.search bump_re "Update axios to 1.1.0" = None
  /\ version_pair "Update axios to 1.1.0" = None
  /\ _parse_dependency_info "Update axios to 1.1.0" ""
     = ("unknown", "", "", "axios").
Proof.
  assert (Re.search bump_re "Update axios to 1.1.0" = None) as Hb
      by (vm_compute; reflexivity).
  assert (version_pair "Update axios to 1.1.0" = None) as Hv
      by (vm_compute; reflexivity).
  split; [discriminate|]. split; [reflexivity|]. split; [reflexivity|].
  split; [reflexivity|]. split; [exact Hb|]. split; [exact Hv|].
  apply (renovate_title_name_only "axios" "1.1.0" "");
    [discriminate | reflexivity | reflexivity | reflexivity | exact Hb | exact Hv].
Defined.

(** ** The version pattern on titles "... from A to B ..." *)

Lemma run_Cat {R : Type} (r1 r2 : Re.regex) (s : string) (g : gmap nat string)
      (k : string -> gmap nat string -> option R) :
  Re.run (Re.Cat r1 r2) s g k
  = Re.run r1 s g (fun s' g' => Re.run r2 s' g' k).
Proof. reflexivity. Qed.

Lemma run_Grp {R : Type} (n : nat) (r : Re.regex) (s : string)
      (g : gmap nat string) (k : string -> gmap nat string -> option R) :
  Re.run (Re.Grp n r) s g k
  = Re.run r s g (fun s' g' => k s' (<[n := Re.consumed s s']> g')).
Proof. reflexivity. Qed.

Lemma run_Lit_self {R : Type} (word : string) (r : Re.regex) (s : string)
      (g : gmap nat string) (k : string -> gmap nat string -> option R) :
  Re.run (Re.Lit word r) (word +:+ s) g k = Re.run r s g k.
Proof.
  induction word as [|c word IH]; [reflexivity|].
  rewrite app_cons. cbn [Re.Lit Re.run]. unfold Re.lit at 1.
  rewrite Ascii.eqb_refl. exact IH.
Qed.

Lemma run_Lit_Some {R : Type} (word : string) (r : Re.regex) (s : string)
      (g : gmap nat string) (k : string -> gmap nat string -> option R) (x : R) :
  Re.run (Re.Lit word r) s g k = Some x ->
  exists rest, s = word +:+ rest.
Proof.
  revert s. induction word as [|c word IH]; intros s.
  - intros _. exists s. reflexivity.
  - cbn [Re.Lit Re.run]. destruct s as [|d s]; [discriminate|].
    unfold Re.lit at 1. destruct (Ascii.eqb_spec c d) as [<-|_]; [|discriminate].
    intros H. destruct (IH s H) as [rest ->]. exists rest. reflexivity.
Qed.

(** Decoding a character looks at the bytes of that character only. *)
Lemma next_char_app (s t : string) (cp : N) (rest : string) :
  PyStr.next_char s = Some (cp, rest) ->
  PyStr.next_char (s +:+ t) = Some (cp, rest +:+ t).
Proof.
  unfold PyStr.next_char.
  destruct s as [|b0 s]; [discriminate|]. rewrite app_cons. cbv zeta.
  destruct (N_of_ascii b0 <? 128)%N; [intros [= <- <-]; reflexivity|].
  destruct (N_of_ascii b0 <? 192)%N; [discriminate|].
  destruct (N_of_ascii b0 <? 224)%N.
  { destruct s as [|b1 s]; [discriminate|]. rewrite app_cons.
    destruct (PyStr.cont b1); [|discriminate].
    destruct (128 <=? _)%N; [|discriminate].
    intros [= <- <-]. reflexivity. }
  destruct (N_of_ascii b0 <? 240)%N.
  { destruct s as [|b1 [|b2 s]]; try discriminate. rewrite !app_cons.
    destruct (PyStr.cont b1); [|discriminate].
    destruct (PyStr.cont b2); [|discriminate].
    destruct (_ && _); [|discriminate].
    intros [= <- <-]. reflexivity. }
  destruct (N_of_ascii b0 <? 248)%N; [|discriminate].
  destruct s as [|b1 [|b2 [|b3 s]]]; try discriminate. rewrite !app_cons.
  destruct (PyStr.cont b1); [|discriminate].
  destruct (PyStr.cont b2); [|discriminate].
  destruct (PyStr.cont b3); [|discriminate].
  destruct (_ && _); [|discriminate].
  intros [= <- <-]. reflexivity.
Qed.

(** Decoding a character consumes at least one byte. *)
Lemma next_char_shorter (s : string) (cp : N) (rest : string) :
  PyStr.next_char s = Some (cp, rest) ->
  (String.length rest < String.length s)%nat.
Proof.
  unfold PyStr.next_char.
  destruct s as [|b0 s]; [discriminate|]. cbv zeta.
  destruct (N_of_ascii b0 <? 128)%N; [intros [= <- <-]; simpl; lia|].
  destruct (N_of_ascii b0 <? 192)%N; [discriminate|].
  destruct (N_of_ascii b0 <? 224)%N.
  { destruct s as [|b1 s]; [discriminate|].
    destruct (PyStr.cont b1); [|discriminate].
    destruct (128 <=? _)%N; [|discriminate].
    intros [= <- <-]. simpl. lia. }
  destruct (N_of_ascii b0 <? 240)%N.
  { destruct s as [|b1 [|b2 s]]; try discriminate.
    destruct (PyStr.cont b1); [|discriminate].
    destruct (PyStr.cont b2); [|discriminate].
    destruct (_ && _); [|discriminate].
    intros [= <- <-]. simpl. lia. }
  destruct (N_of_ascii b0 <? 248)%N; [|discriminate].
  destruct s as [|b1 [|b2 [|b3 s]]]; try discriminate.
  destruct (PyStr.cont b1); [|discriminate].
  destruct (PyStr.cont b2); [|discriminate].
  destruct (PyStr.cont b3); [|discriminate].
  destruct (_ && _); [|discriminate].
  intros [= <- <-]. simpl. lia.
Qed.

(** A repetition over characters stops at a character outside its
    class, at a place that is no character, and at the end. *)
Lemma cls_star_stop {R : Type} (p : N -> bool) (k : string -> option R)
      (fuel : nat) (tail : string) :
  match PyStr.next_char tail with
  | Some (cp, _) => p cp = false
  | None => True
  end ->
  Re.cls_star fuel p tail k = k tail.
Proof.
  intros Hstop. destruct fuel as [|fuel]; [reflexivity|]. cbn [Re.cls_star].
  destruct (PyStr.next_char tail) as [[cp rest]|]; [|reflexivity].
  rewrite Hstop. reflexivity.
Qed.

(** A greedy repetition runs to the end of the characters of its
    class, and stays there when the rest of the pattern matches. *)
Lemma cls_star_all {R : Type} (p : N -> bool) (k : string -> option R)
      (tail : string) (x : R) :
  match PyStr.next_char tail with
  | Some (cp, _) => p cp = false
  | None => True
  end ->
  k tail = Some x ->
  forall fuel1 fuel2 mid,
    PyStr.all_chars_upto fuel1 p mid = true ->
    (String.length mid <= fuel2)%nat ->
    Re.cls_star fuel2 p (mid +:+ tail) k = Some x.
Proof.
  intros Hstop Hk. induction fuel1 as [|fuel1 IH]; intros fuel2 mid Hall Hlen.
  - destruct mid as [|c mid]; [|discriminate].
    rewrite app_nil, cls_star_stop by exact Hstop. exact Hk.
  - destruct mid as [|c mid].
    { rewrite app_nil, cls_star_stop by exact Hstop. exact Hk. }
    cbn [PyStr.all_chars_upto] in Hall.
    destruct (PyStr.next_char (String c mid)) as [[cp rest]|] eqn:Hn;
      [|discriminate].
    apply andb_true_iff in Hall as [Hp Hall].
    pose proof (next_char_shorter _ _ _ Hn) as Hlt.
    destruct fuel2 as [|fuel2]; [simpl in Hlen; lia|].
    cbn [Re.cls_star]. rewrite (next_char_app _ tail _ _ Hn), Hp.
    rewrite (IH fuel2 rest Hall) by lia. reflexivity.
Qed.

(** [p+] over characters, on a text that starts with characters of
    the class. *)
Lemma run_ClsPlus_all {R : Type} (p : N -> bool) (core tail : string)
      (g : gmap nat string) (k : string -> gmap nat string -> option R) (x : R) :
  core <> "" ->
  PyStr.all_chars p core = true ->
  match PyStr.next_char tail with
  | Some (cp, _) => p cp = false
  | None => True
  end ->
  k tail g = Some x ->
  Re.run (Re.ClsPlus p) (core +:+ tail) g k = Some x.
Proof.
  intros Hne Hall Hstop Hk. unfold Re.ClsPlus. cbn [Re.run].
  destruct core as [|c core]; [congruence|].
  unfold PyStr.all_chars in Hall. cbn [String.length PyStr.all_chars_upto] in Hall.
  destruct (PyStr.next_char (String c core)) as [[cp rest]|] eqn:Hn;
    [|discriminate].
  apply andb_true_iff in Hall as [Hp Hall].
  pose proof (next_char_shorter _ _ _ Hn) as Hlt.
  rewrite (next_char_app _ tail _ _ Hn), Hp.
  apply (cls_star_all p (fun s' => k s' g) tail x Hstop Hk (String.length core));
    [exact Hall|].
  rewrite length_app_string. lia.
Qed.

Lemma version_end_plain (tail : string) :
  version_end "" tail = true ->
  match PyStr.next_char tail with
  | Some (cp, _) => Re.digit_dot cp = false
  | None => True
  end
  /\ match tail with
     | String c _ => Ascii.eqb "-" c = false
     | "" => True
     end.
Proof.
  unfold version_end. cbn [String.eqb]. split.
  - destruct (PyStr.next_char tail) as [[cp rest]|]; [|exact I].
    apply andb_true_iff in H as [H _]. apply negb_true_iff. exact H.
  - destruct tail as [|c tail]; [exact I|].
    destruct (Ascii.eqb_spec "-" c) as [<-|]; [|reflexivity].
    change (PyStr.next_char (String "-" tail)) with (Some (45%N, tail)) in H.
    cbv beta iota in H. rewrite andb_false_r in H. discriminate H.
Qed.

Lemma version_end_suffix (suffix tail : string) :
  suffix <> "" ->
  version_end suffix tail = true ->
  match PyStr.next_char tail with
  | Some (cp, _) => Re.word_dot cp = false
  | None => True
  end.
Proof.
  intros Hne. unfold version_end.
  destruct (String.eqb_spec suffix "") as [->|_]; [congruence|].
  destruct (PyStr.next_char tail) as [[cp rest]|]; [|intros _; exact I].
  apply negb_true_iff.
Qed.

Lemma version_end_space (suffix rest : string) :
  version_end suffix (String " " rest) = true.
Proof.
  unfold version_end.
  change (PyStr.next_char (String " " rest)) with (Some (32%N, rest)).
  cbv beta iota. destruct (String.eqb suffix ""); vm_compute; reflexivity.
Qed.

(** A group around the version pattern takes a whole version: digits
    and dots, then perhaps a hyphen with word characters and dots. *)
Lemma run_Grp_version_pat {R : Type} (n : nat) (core suffix tail : string)
      (g : gmap nat string) (k : string -> gmap nat string -> option R) (x : R) :
  core <> "" ->
  PyStr.all_chars Re.digit_dot core = true ->
  PyStr.all_chars Re.word_dot suffix = true ->
  version_end suffix tail = true ->
  k tail (<[n := with_suffix core suffix]> g) = Some x ->
  Re.run (Re.Grp n version_pat) (with_suffix core suffix +:+ tail) g k = Some x.
Proof.
  intros Hne Hcore Hsuffix Hend Hk. rewrite run_Grp. unfold version_pat.
  rewrite run_Cat. revert Hk. unfold with_suffix.
  destruct (String.eqb_spec suffix "") as [->|Hs]; intros Hk.
  - destruct (version_end_plain tail Hend) as [Hstop Hhyphen].
    apply run_ClsPlus_all; [exact Hne | exact Hcore | exact Hstop |].
    cbn [Re.run]. rewrite consumed_app.
    destruct tail as [|c tail]; [exact Hk|].
    unfold Re.lit. rewrite Hhyphen. exact Hk.
  - rewrite !app_assoc_string.
    apply run_ClsPlus_all; [exact Hne | exact Hcore | |].
    { change (PyStr.next_char ("-" +:+ suffix +:+ tail))
        with (Some (45%N, suffix +:+ tail)).
      vm_compute. reflexivity. }
    change ("-" +:+ suffix +:+ tail) with (String "-" (suffix +:+ tail)).
    cbn [Re.run]. unfold Re.lit at 1. rewrite Ascii.eqb_refl.
    rewrite (run_ClsPlus_all Re.word_dot suffix tail g _ x);
      [reflexivity | exact Hs | exact Hsuffix
       | exact (version_end_suffix suffix tail Hs Hend) |].
    replace (core +:+ String "-" (suffix +:+ tail))
      with ((core +:+ "-" +:+ suffix) +:+ tail)
      by (rewrite !app_assoc_string; reflexivity).
    rewrite consumed_app. exact Hk.
Qed.

Lemma match_at_version_re (coreA sufA coreB sufB post : string) :
  let A := with_suffix coreA sufA in
  let B := with_suffix coreB sufB in
  coreA <> "" -> coreB <> "" ->
  PyStr.all_chars Re.digit_dot coreA = true ->
  PyStr.all_chars Re.word_dot sufA = true ->
  PyStr.all_chars Re.digit_dot coreB = true ->
  PyStr.all_chars Re.word_dot sufB = true ->
  version_end sufB post = true ->
  exists m,
    Re.match_at version_re ("from " +:+ A +:+ " to " +:+ B +:+ post) = Some m
    /\ Re.group 1 m = A /\ Re.group 2 m = B.
Proof.
  intros A B HA HB HdA HwA HdB HwB Hend.
  set (title := "from " +:+ A +:+ " to " +:+ B +:+ post).
  exists (<[0%nat := Re.consumed title post]>
            (<[2%nat := B]> (<[1%nat := A]> ∅))).
  split; [|split].
  - unfold Re.match_at, version_re. rewrite run_Grp. unfold title.
    rewrite run_Lit_self, run_Cat. fold title.
    apply run_Grp_version_pat;
      [exact HA | exact HdA | exact HwA | apply version_end_space |].
    rewrite run_Lit_self.
    apply run_Grp_version_pat;
      [exact HB | exact HdB | exact HwB | exact Hend |].
    reflexivity.
  - unfold Re.group. rewrite lookup_insert_ne by discriminate.
    rewrite lookup_insert_ne by discriminate. rewrite lookup_insert_eq.
    reflexivity.
  - unfold Re.group. rewrite lookup_insert_ne by discriminate.
    rewrite lookup_insert_eq. reflexivity.
Qed.

Lemma match_at_version_re_None (pre rest : string) :
  pre <> "" ->
  PyStr.contains "from " pre = false ->
  Re.match_at version_re (pre +:+ "from " +:+ rest) = None.
Proof.
  intros Hne Hno.
  destruct (Re.match_at _ _) as [m|] eqn:Hm; [exfalso|reflexivity].
  unfold Re.match_at, version_re in Hm. rewrite run_Grp in Hm.
  apply run_Lit_Some in Hm as [rest' Heq].
  destruct pre as [|c1 [|c2 [|c3 [|c4 [|c5 pre]]]]]; [congruence| | | | |];
    rewrite ?app_cons, ?app_nil in Heq.
  - injection Heq as _ H _. discriminate H.
  - injection Heq as _ _ H _. discriminate H.
  - injection Heq as _ _ _ H _. discriminate H.
  - injection Heq as _ _ _ _ H _. discriminate H.
  - injection Heq as -> -> -> -> -> _.
    assert (PyStr.contains "from " ("from " +:+ pre) = true) as Hyes
        by (apply contains_Substring; exists "", pre; reflexivity).
    rewrite !app_cons, app_nil in Hyes. congruence.
Qed.

(** The version pattern finds the pair of a title "... from A to B ..."
    whose versions are made of digits and dots, each perhaps followed by
    a hyphen with word characters and dots, when no "from " comes earlier
    in the title. *)
Lemma version_pair_found (pre coreA sufA coreB sufB post : string) :
  PyStr.contains "from " pre = false ->
  coreA <> "" -> coreB <> "" ->
  PyStr.all_chars Re.digit_dot coreA = true ->
  PyStr.all_chars Re.word_dot sufA = true ->
  PyStr.all_chars Re.digit_dot coreB = true ->
  PyStr.all_chars Re.word_dot sufB = true ->
  version_end sufB post = true ->
  version_pair (pre +:+ "from " +:+ with_suffix coreA sufA +:+ " to "
                +:+ with_suffix coreB sufB +:+ post)
  = Some (with_suffix coreA sufA, with_suffix coreB sufB).
Proof.
  intros Hno HA HB HdA HwA HdB HwB Hend. unfold version_pair.
  destruct (match_at_version_re coreA sufA coreB sufB post
              HA HB HdA HwA HdB HwB Hend) as (m & Hm & H1 & H2).
  assert (Re.search version_re
            (pre +:+ "from " +:+ with_suffix coreA sufA +:+ " to "
             +:+ with_suffix coreB sufB +:+ post) = Some m) as ->.
  { induction pre as [|c pre IH].
    - rewrite app_nil, search_unfold, Hm. reflexivity.
    - rewrite search_unfold, match_at_version_re_None by (exact Hno || discriminate).
      rewrite app_cons. apply IH.
      cbn [PyStr.contains] in Hno. apply orb_false_iff in Hno as [_ Hno].
      exact Hno. }
  cbn. rewrite H1, H2. reflexivity.
Qed.



(** * Further properties *)

(** ** Tools *)

Lemma len_app (a b : string) :
  PyStr.len (a +:+ b) = (PyStr.len a + PyStr.len b)%nat.
Proof.
  induction a as [|c a IH]; [reflexivity|].
  rewrite app_cons. cbn [PyStr.len]. rewrite IH.
  destruct (PyStr.is_cont c); reflexivity.
Qed.

Lemma len_take (n : nat) (s : string) :
  PyStr.len (PyStr.take n s) = Nat.min n (PyStr.len s).
Proof.
  revert n. induction s as [|c s IH]; intros n; cbn [PyStr.take PyStr.len].
  - lia.
  - destruct (PyStr.is_cont c) eqn:Hc.
    + cbn [PyStr.len]. rewrite Hc. apply IH.
    + destruct n as [|n]; [reflexivity|].
      cbn [PyStr.len]. rewrite Hc, IH. reflexivity.
Qed.

Lemma take_all (n : nat) (s : string) :
  (PyStr.len s <= n)%nat -> PyStr.take n s = s.
Proof.
  revert n. induction s as [|c s IH]; intros n; cbn [PyStr.take PyStr.len];
    [reflexivity|].
  destruct (PyStr.is_cont c); intros H.
  - rewrite IH by exact H. reflexivity.
  - destruct n as [|n]; [lia|]. rewrite IH by lia. reflexivity.
Qed.

Lemma take_prefix (n : nat) (s : string) :
  exists rest, s = PyStr.take n s +:+ rest.
Proof.
  revert n. induction s as [|c s IH]; intros n; cbn [PyStr.take].
  - exists "". reflexivity.
  - destruct (PyStr.is_cont c).
    + destruct (IH n) as [rest Hr]. exists rest.
      rewrite app_cons, <- Hr. reflexivity.
    + destruct n as [|n]; [eexists; reflexivity|].
      destruct (IH n) as [rest Hr]. exists rest.
      rewrite app_cons, <- Hr. reflexivity.
Qed.

(** X1.  [_analyze_diff] never obtains a diff.  It hands a [headers]
    argument to [_make_request], which hands [headers] to
    [requests.request] once more: Python refuses that call before any
    request is made, the [TypeError] is caught, and the observation is
    always the same "Could not fetch diff: ..." text, whatever the
    network would have answered. *)
Theorem analyze_diff_never_fetches
        (repo : string) (requests_request : Request -> result string)
        (pr_number : pyval) :
  _make_request requests_request "GET"
    ("/repos/" +:+ repo +:+ "/pulls/" +:+ py_str pr_number)
    (Some "application/vnd.github.v3.diff")
  = Raise duplicate_headers
  /\ _analyze_diff repo requests_request pr_number
     = "Could not fetch diff: requests.api.request() got multiple values for keyword argument 'headers'"
  /\ (forall network : Request -> result string,
         _analyze_diff repo network pr_number
         = _analyze_diff repo requests_request pr_number)
  /\ _execute_tool repo requests_request "analyze_diff"
       {[ "pr_number" := pr_number ]}
     = Ok "Could not fetch diff: requests.api.request() got multiple values for keyword argument 'headers'".
Proof.
  split; [reflexivity|]. split; [reflexivity|]. split; [reflexivity|].
  unfold _execute_tool, getitem. cbn [String.eqb Ascii.eqb Bool.eqb].
  rewrite lookup_singleton_eq. reflexivity.
Qed.

(** X2.  [_execute_tool] returns an observation exactly when the
    argument set carries the fields the tool requires; otherwise the
    exception is the [KeyError] of a field that is missing, and it leaves
    [_execute_tool]. *)
Theorem execute_tool_raises_only_KeyError
        (repo : string) (requests_request : Request -> result string)
        (tool_name : string) (tool_input : gmap string pyval) :
  ((exists observation,
       _execute_tool repo requests_request tool_name tool_input = Ok observation)
   <-> has_required_arguments tool_name tool_input = true)
  /\ (forall e,
         _execute_tool repo requests_request tool_name tool_input = Raise e ->
         exists key, e = KeyError key /\ tool_input !! key = None).
Proof.
  rewrite has_required_arguments_spec. unfold _execute_tool, getitem.
  destruct (String.eqb_spec tool_name "fetch_release_notes") as [->|N1];
    [|destruct (String.eqb_spec tool_name "check_cve_database") as [->|N2];
      [|destruct (String.eqb_spec tool_name "analyze_diff") as [->|N3]]].
  - destruct (tool_input !! "dependency") as [v1|] eqn:E1; cbn [bind];
      [destruct (tool_input !! "version") as [v2|] eqn:E2; cbn [bind]|].
    + split; [|discriminate]. split; [|eauto]. intros _.
      repeat split; intros; try discriminate; eauto.
    + split; [|intros e [= <-]; eauto]. split; [intros [? [=]]|].
      intros (H & _). destruct (H eq_refl) as [_ [? [=]]].
    + split; [|intros e [= <-]; eauto]. split; [intros [? [=]]|].
      intros (H & _). destruct (H eq_refl) as [[? [=]] _].
  - destruct (tool_input !! "dependency") as [v1|] eqn:E1; cbn [bind];
      [destruct (tool_input !! "version") as [v2|] eqn:E2; cbn [bind]|].
    + split; [|discriminate]. split; [|eauto]. intros _.
      repeat split; intros; try discriminate; eauto.
    + split; [|intros e [= <-]; eauto]. split; [intros [? [=]]|].
      intros (_ & H & _). destruct (H eq_refl) as [_ [? [=]]].
    + split; [|intros e [= <-]; eauto]. split; [intros [? [=]]|].
      intros (_ & H & _). destruct (H eq_refl) as [[? [=]] _].
  - destruct (tool_input !! "pr_number") as [v1|] eqn:E1; cbn [bind].
    + split; [|discriminate]. split; [|eauto]. intros _.
      repeat split; intros; try discriminate; eauto.
    + split; [|intros e [= <-]; eauto]. split; [intros [? [=]]|].
      intros (_ & _ & H). destruct (H eq_refl) as [? [=]].
  - split; [|discriminate]. split; [|eauto]. intros _.
    repeat split; intros; congruence.
Qed.

(** X3.  When a tool round succeeds, its results answer the tool
    requests of the response one for one and in order: each result
    carries the id of its request and the observation of that tool. *)
Theorem run_tools_in_request_order
        (repo : string) (requests_request : Request -> result string)
        (content : list ContentBlock) (tool_results : list ToolResult) :
  run_tools repo requests_request content = Ok tool_results ->
  Forall2 (fun '(id, tool_name, tool_input) tool_result =>
             tool_use_id tool_result = id
             /\ _execute_tool repo requests_request tool_name tool_input
                = Ok (tool_result_content tool_result))
          (tool_uses content) tool_results.
Proof.
  revert tool_results. induction content as [|block rest IH]; intros results.
  - intros [= <-]. constructor.
  - destruct block as [text|id name input|]; cbn [run_tools tool_uses];
      [apply IH | | apply IH].
    destruct (_execute_tool repo requests_request name input) as [obs|e] eqn:Hobs;
      [|discriminate]. cbn [bind].
    destruct (run_tools repo requests_request rest) as [rs|e]; [|discriminate].
    cbn [bind]. intros [= <-]. constructor; [|apply IH; reflexivity].
    split; [reflexivity | exact Hobs].
Qed.

Lemma run_tools_in_request_order_witness :
  run_tools "octo/repo" github_down sample_tool_round = Ok sample_tool_results
  /\ Forall2 (fun '(id, tool_name, tool_input) tool_result =>
                tool_use_id tool_result = id
                /\ _execute_tool "octo/repo" github_down tool_name tool_input
                   = Ok (tool_result_content tool_result))
             (tool_uses sample_tool_round) sample_tool_results.
Proof.
  assert (run_tools "octo/repo" github_down sample_tool_round
          = Ok sample_tool_results) as H by (vm_compute; reflexivity).
  split; [exact H|].
  exact (run_tools_in_request_order "octo/repo" github_down sample_tool_round
           sample_tool_results H).
Defined.

(** ** The reasoning loop, continued *)

Section LoopTrace.

Variable repo : string.
Variable requests_request : Request -> result string.
Variable messages_create : list Message -> result Response.

Local Abbreviation loop := (agent_loop repo requests_request messages_create).
Local Abbreviation growing := (grows repo requests_request messages_create).

Lemma agent_loop_unfold (n : nat) (messages : list Message)
      (response : option Response) (w : World) :
  loop (S n) messages response w
  = let w1 := {| requests := (requests w ++ [messages])%list |} in
    match messages_create messages with
    | Raise e => (Raise e, w1)
    | Ok r =>
        if String.eqb (stop_reason r) "tool_use" then
          match run_tools repo requests_request (content r) with
          | Raise e => (Raise e, w1)
          | Ok tool_results =>
              loop n
                (messages ++ [ {| role := "assistant";
                                  message_content := Blocks (content r) |};
                               {| role := "user";
                                  message_content := Results tool_results |} ])%list
                (Some r) w1
          end
        else (Ok (Some r), w1)
    end.
Proof.
  cbn [agent_loop]. unfold mbind at 1. unfold create.
  destruct (messages_create messages) as [r|e]; [|reflexivity].
  destruct (String.eqb (stop_reason r) "tool_use"); [|reflexivity].
  unfold mbind, lift.
  destruct (run_tools repo requests_request (content r)); reflexivity.
Qed.

(** The requests of a loop form one growing conversation. *)
Lemma agent_loop_grows (n : nat) :
  forall messages response w,
  exists sent,
    requests (loop n messages response w).2 = (requests w ++ sent)%list
    /\ growing messages sent.
Proof.
  induction n as [|n IH]; intros messages response w.
  - exists []. cbn. rewrite app_nil_r. auto.
  - rewrite agent_loop_unfold. cbv zeta.
    destruct (messages_create messages) as [r|e] eqn:Hr;
      [|exists [messages]; cbn; auto].
    destruct (String.eqb_spec (stop_reason r) "tool_use") as [Hstop|_];
      [|exists [messages]; cbn; auto].
    destruct (run_tools repo requests_request (content r)) as [trs|e] eqn:Htools;
      [|exists [messages]; cbn; auto].
    edestruct IH as (sent & -> & Hgrow). cbn [requests].
    exists (messages :: sent). rewrite <- app_assoc. split; [reflexivity|].
    cbn [grows]. split; [reflexivity|]. destruct sent as [|m sent]; [exact I|].
    exists r, trs. auto.
Qed.

Lemma grows_lengths (sent : list (list Message)) :
  forall first i m,
    growing first sent -> sent !! i = Some m ->
    length m = (length first + 2 * i)%nat.
Proof.
  induction sent as [|m0 rest IH]; intros first i m Hg Hi; [discriminate|].
  destruct Hg as [-> Hrest]. destruct i as [|i].
  - injection Hi as <-. lia.
  - cbn in Hi. destruct rest as [|m1 rest]; [discriminate|].
    destruct Hrest as (r & trs & _ & _ & _ & Hg).
    rewrite (IH _ i m Hg Hi), length_app. simpl. lia.
Qed.

(** A loop that has a response in hand ends with a response. *)
Lemma agent_loop_Some (n : nat) :
  forall messages r w o w',
    loop n messages (Some r) w = (Ok o, w') -> exists r', o = Some r'.
Proof.
  induction n as [|n IH]; intros messages r w o w'.
  - cbn. intros [= <- _]. eauto.
  - rewrite agent_loop_unfold. cbv zeta.
    destruct (messages_create messages) as [r1|e]; [|discriminate].
    destruct (String.eqb (stop_reason r1) "tool_use"); [|intros [= <- _]; eauto].
    destruct (run_tools repo requests_request (content r1)); [|discriminate].
    apply IH.
Qed.

(** A loop raises only what the service raised on its last request, or
    what the tools of the last round raised. *)
Lemma agent_loop_Raise (n : nat) :
  forall messages response w e w',
    loop n messages response w = (Raise e, w') ->
    exists sent m,
      requests w' = (requests w ++ sent ++ [m])%list
      /\ (messages_create m = Raise e
          \/ exists r, messages_create m = Ok r
                       /\ stop_reason r = "tool_use"
                       /\ run_tools repo requests_request (content r) = Raise e).
Proof.
  induction n as [|n IH]; intros messages response w e w'.
  - cbn. discriminate.
  - rewrite agent_loop_unfold. cbv zeta.
    destruct (messages_create messages) as [r|e0] eqn:Hr.
    + destruct (String.eqb_spec (stop_reason r) "tool_use") as [Hstop|_];
        [|discriminate].
      destruct (run_tools repo requests_request (content r)) as [trs|e0] eqn:Ht.
      * intros H. apply IH in H as (sent & m & -> & Hm). cbn [requests].
        exists (messages :: sent), m. rewrite <- app_assoc. auto.
      * intros [= <- <-]. exists [], messages. cbn [requests]. eauto 10.
    + intros [= <- <-]. exists [], messages. cbn [requests]. eauto.
Qed.

End LoopTrace.

(** C4, as stated, fails: when the reasoning service raises, the
    decision layer produces no triple at all; the exception leaves
    [decide_with_llm]. *)
Lemma decide_with_llm_raises_without_verdict :
  decide_with_llm "octo/repo" github_down json_loads_stub service_down
    sample_pr_context empty_world
  = (Raise (OtherError "overloaded_error"),
     {| requests := [first_request sample_pr_context] |}).
Proof. reflexivity. Qed.

(** C4, amended.  Whenever verdict extraction fails, the verdict is
    that of [_fallback_decision]: the pair of the FallbackPolicy table for
    the context, with the fixed opening and the first 500 characters of
    the final text as reasoning.  That is so when no braces are found,
    when [json.loads] raises, when the "decision" or "risk_level" field is
    missing or is not the name of an enum member, and when the
    "reasoning" field is missing; no parsing exception is propagated.
    [parse_decision] returns either that verdict or the verdict of a
    well-formed object.  The reasoning loop ends with a response or
    with an exception.  Once it has ended with a response,
    [decide_with_llm] returns exactly that one triple; when it raises
    (the reasoning service failed, or a tool was asked for without a
    required argument), [decide_with_llm] raises the same exception and
    produces no triple. *)
Theorem parse_failure_routes_to_fallback
        (json_loads : string -> result json) (context : PRContext)
        (final_text : string) :
  let fallback : Verdict :=
    ((FallbackPolicy context).1, (FallbackPolicy context).2,
     JString (fallback_header +:+ PyStr.take 500 final_text)) in
  (let '(decision, risk, reasoning) := _fallback_decision context final_text in
   fallback = (decision, risk, JString reasoning))
  /\ (json_candidate final_text = None ->
      parse_decision json_loads context final_text = fallback)
  /\ (forall matched e,
         json_candidate final_text = Some matched ->
         json_loads matched = Raise e ->
         parse_decision json_loads context final_text = fallback)
  /\ (forall matched data,
         json_candidate final_text = Some matched ->
         json_loads matched = Ok data ->
         (forall decision, json_getitem data "decision"
                           <> Ok (JString (decision_token decision))) ->
         parse_decision json_loads context final_text = fallback)
  /\ (forall matched data,
         json_candidate final_text = Some matched ->
         json_loads matched = Ok data ->
         (forall risk, json_getitem data "risk_level"
                       <> Ok (JString (risk_token risk))) ->
         parse_decision json_loads context final_text = fallback)
  /\ (forall matched data e,
         json_candidate final_text = Some matched ->
         json_loads matched = Ok data ->
         json_getitem data "reasoning" = Raise e ->
         parse_decision json_loads context final_text = fallback)
  /\ (parse_decision json_loads context final_text = fallback
      \/ exists matched d decision risk reasoning,
          json_candidate final_text = Some matched
          /\ json_loads matched = Ok (JObject d)
          /\ d !! "decision" = Some (JString (decision_token decision))
          /\ d !! "risk_level" = Some (JString (risk_token risk))
          /\ d !! "reasoning" = Some reasoning
          /\ parse_decision json_loads context final_text
             = (decision, risk, reasoning))
  /\ (forall repo requests_request messages_create w w',
         agent_loop repo requests_request messages_create max_iterations
           (first_request context) None w
         <> (Ok None, w'))
  /\ (forall repo requests_request messages_create w response w',
         agent_loop repo requests_request messages_create max_iterations
           (first_request context) None w
         = (Ok (Some response), w') ->
         final_text = final_text_of (content response) ->
         decide_with_llm repo requests_request json_loads messages_create
           context w
         = (Ok (parse_decision json_loads context final_text), w'))
  /\ (forall repo requests_request messages_create w e w',
         agent_loop repo requests_request messages_create max_iterations
           (first_request context) None w
         = (Raise e, w') ->
         decide_with_llm repo requests_request json_loads messages_create
           context w
         = (Raise e, w')).
Proof.
  intros fallback.
  assert (fallback_verdict context final_text = fallback) as Hfb.
  { unfold fallback_verdict, fallback. rewrite fallback_decision_policy.
    reflexivity. }
  clearbody fallback. subst fallback.
  split.
  { unfold fallback_verdict.
    destruct (_fallback_decision context final_text) as [[d r] x]. reflexivity. }
  rewrite parse_decision_candidate.
  assert (forall matched,
             (forall decision risk reasoning,
                 load_verdict json_loads matched <> Ok (decision, risk, reasoning)) ->
             match load_verdict json_loads matched with
             | Ok verdict => verdict
             | Raise _ => fallback_verdict context final_text
             end = fallback_verdict context final_text) as Hfail.
  { intros matched Hno.
    destruct (load_verdict json_loads matched) as [[[decision risk] reasoning]|];
      [|reflexivity].
    exfalso. exact (Hno decision risk reasoning eq_refl). }
  split; [intros ->; reflexivity|].
  split.
  { intros matched e -> He. unfold load_verdict. rewrite He. reflexivity. }
  split.
  { intros matched data -> Hdata Hbad. apply Hfail.
    intros decision risk reasoning (d & Hd & Hdec & _)%load_verdict_Ok.
    apply (Hbad decision). rewrite Hd in Hdata. injection Hdata as <-.
    cbn [json_getitem]. unfold getitem. rewrite Hdec. reflexivity. }
  split.
  { intros matched data -> Hdata Hbad. apply Hfail.
    intros decision risk reasoning (d & Hd & _ & Hrisk & _)%load_verdict_Ok.
    apply (Hbad risk). rewrite Hd in Hdata. injection Hdata as <-.
    cbn [json_getitem]. unfold getitem. rewrite Hrisk. reflexivity. }
  split.
  { intros matched data e -> Hdata Hbad. apply Hfail.
    intros decision risk reasoning (d & Hd & _ & _ & Hx)%load_verdict_Ok.
    rewrite Hd in Hdata. injection Hdata as <-.
    cbn [json_getitem] in Hbad. unfold getitem in Hbad. rewrite Hx in Hbad.
    discriminate Hbad. }
  split.
  { destruct (json_candidate final_text) as [matched|]; [|left; reflexivity].
    destruct (load_verdict json_loads matched)
      as [[[decision risk] reasoning]|e] eqn:Hload; [|left; reflexivity].
    right. apply load_verdict_Ok in Hload as (d & ? & ? & ? & ?).
    exists matched, d, decision, risk, reasoning. auto 10. }
  split.
  { intros repo requests_request messages_create w w' Hloop.
    unfold max_iterations in Hloop.
    rewrite agent_loop_unfold in Hloop. cbv zeta in Hloop.
    destruct (messages_create _) as [r1|]; [|discriminate].
    destruct (String.eqb (stop_reason r1) "tool_use"); [|discriminate].
    destruct (run_tools repo requests_request (content r1)); [|discriminate].
    apply agent_loop_Some in Hloop as [r' Hr']. discriminate. }
  split.
  - intros repo requests_request messages_create w response w' Hloop ->.
    unfold decide_with_llm, mbind. fold (first_request context).
    rewrite Hloop. rewrite parse_decision_candidate. reflexivity.
  - intros repo requests_request messages_create w e w' Hloop.
    unfold decide_with_llm, mbind. fold (first_request context).
    rewrite Hloop. reflexivity.
Qed.

Lemma parse_failure_routes_to_fallback_witness :
  json_candidate lowercase_object_text = Some lowercase_object_text
  /\ json_loads_lowercase lowercase_object_text = Ok (JObject lowercase_object)
  /\ (forall decision,
         json_getitem (JObject lowercase_object) "decision"
         <> Ok (JString (decision_token decision)))
  /\ parse_decision json_loads_lowercase failing_ci_context lowercase_object_text
     = (DO_NOT_MERGE, CRITICAL,
        JString (fallback_header +:+ lowercase_object_text)).
Proof.
  assert (json_candidate lowercase_object_text = Some lowercase_object_text)
    as Hc by (vm_compute; reflexivity).
  assert (json_loads_lowercase lowercase_object_text
          = Ok (JObject lowercase_object)) as Hl by (vm_compute; reflexivity).
  assert (forall decision,
             json_getitem (JObject lowercase_object) "decision"
             <> Ok (JString (decision_token decision))) as Hno
      by (intros []; vm_compute; discriminate).
  split; [exact Hc|]. split; [exact Hl|]. split; [exact Hno|].
  pose proof (parse_failure_routes_to_fallback json_loads_lowercase
                failing_ci_context lowercase_object_text) as H.
  cbv zeta in H. destruct H as (_ & _ & _ & Hbad & _).
  rewrite (Hbad _ _ Hc Hl Hno). vm_compute. reflexivity.
Defined.

Lemma execute_tool_Raise_KeyError
      (repo : string) (requests_request : Request -> result string)
      (tool_name : string) (tool_input : gmap string pyval) (e : exn) :
  _execute_tool repo requests_request tool_name tool_input = Raise e ->
  exists key, e = KeyError key.
Proof.
  unfold _execute_tool, getitem.
  destruct (String.eqb tool_name "fetch_release_notes");
    [|destruct (String.eqb tool_name "check_cve_database");
      [|destruct (String.eqb tool_name "analyze_diff")]].
  - destruct (tool_input !! "dependency"); cbn [bind];
      [destruct (tool_input !! "version"); cbn [bind]|];
      intros [= <-] || discriminate; eauto.
  - destruct (tool_input !! "dependency"); cbn [bind];
      [destruct (tool_input !! "version"); cbn [bind]|];
      intros [= <-] || discriminate; eauto.
  - destruct (tool_input !! "pr_number"); cbn [bind];
      intros [= <-] || discriminate; eauto.
  - discriminate.
Qed.

Lemma run_tools_Raise_KeyError
      (repo : string) (requests_request : Request -> result string)
      (content : list ContentBlock) (e : exn) :
  run_tools repo requests_request content = Raise e ->
  exists key, e = KeyError key.
Proof.
  induction content as [|block rest IH]; [discriminate|].
  destruct block as [text|id name input|]; cbn [run_tools]; try exact IH.
  destruct (_execute_tool repo requests_request name input) as [obs|e0] eqn:Hobs.
  - cbn [bind]. destruct (run_tools repo requests_request rest) as [rs|e0] eqn:Hr;
      [discriminate|]. cbn [bind]. intros [= <-]. apply IH. reflexivity.
  - cbn [bind]. intros [= <-]. eapply execute_tool_Raise_KeyError. exact Hobs.
Qed.

Lemma decide_with_llm_requests
      (repo : string) (requests_request : Request -> result string)
      (json_loads : string -> result json)
      (messages_create : list Message -> result Response)
      (context : PRContext) (w : World) :
  (decide_with_llm repo requests_request json_loads messages_create context w).2
  = (agent_loop repo requests_request messages_create max_iterations
       (first_request context) None w).2.
Proof.
  unfold decide_with_llm, mbind, first_request.
  destruct (agent_loop _ _ _ _ _ _ _) as [[[r|]|e] w']; reflexivity.
Qed.

(** X4.  The requests that [decide_with_llm] sends form one growing
    conversation: the first is the prompt alone, and each later one is
    the request before it followed by the assistant message with the
    blocks of the response and the user message with the tool results of
    that round, so the request of round i (from 0) has 2i + 1 messages
    and nothing sent earlier is revised. *)
Theorem decide_with_llm_conversation_grows
        (repo : string) (requests_request : Request -> result string)
        (json_loads : string -> result json)
        (messages_create : list Message -> result Response)
        (context : PRContext) (w : World) :
  exists sent,
    requests (decide_with_llm repo requests_request json_loads messages_create
                context w).2
    = (requests w ++ sent)%list
    /\ grows repo requests_request messages_create (first_request context) sent
    /\ (forall i m, sent !! i = Some m -> length m = (2 * i + 1)%nat).
Proof.
  rewrite decide_with_llm_requests.
  destruct (agent_loop_grows repo requests_request messages_create max_iterations
              (first_request context) None w) as (sent & Hsent & Hgrow).
  exists sent. split; [exact Hsent|]. split; [exact Hgrow|].
  intros i m Hi.
  rewrite (grows_lengths repo requests_request messages_create sent
             (first_request context) i m Hgrow Hi).
  simpl. lia.
Qed.

(** The response a loop ends with is the response to its last request,
    and the loop went on only while it was asked for tools. *)
Lemma agent_loop_Ok
      (repo : string) (requests_request : Request -> result string)
      (messages_create : list Message -> result Response) (n : nat) :
  forall messages response w o w',
    agent_loop repo requests_request messages_create n messages response w
    = (Ok o, w') ->
    (n = 0%nat /\ o = response /\ w' = w)
    \/ exists sent m r,
        o = Some r
        /\ requests w' = (requests w ++ sent ++ [m])%list
        /\ messages_create m = Ok r
        /\ (stop_reason r <> "tool_use" \/ (length sent + 1)%nat = n).
Proof.
  induction n as [|n IH]; intros messages response w o w'.
  - cbn. intros [= <- <-]. left. auto.
  - rewrite agent_loop_unfold. cbv zeta.
    destruct (messages_create messages) as [r1|e] eqn:Hr; [|discriminate].
    destruct (String.eqb_spec (stop_reason r1) "tool_use") as [Hstop|Hstop].
    + destruct (run_tools repo requests_request (content r1)) as [trs|e];
        [|discriminate].
      intros H. right.
      apply IH in H as [(-> & -> & ->)|(sent & m & r & -> & Hreq & Hm & Hend)].
      * exists [], messages, r1. cbn [requests]. auto.
      * exists (messages :: sent), m, r. rewrite Hreq. cbn [requests].
        rewrite <- app_assoc. repeat split; try assumption.
        destruct Hend as [Hend|Hend]; [left; exact Hend|].
        right. simpl. lia.
    + intros [= <- <-]. right. exists [], messages, r1. cbn [requests]. auto.
Qed.

(** X5.  A verdict of [decide_with_llm] is always read from the
    response to the last request it sent, and the loop stopped there for
    one of two reasons only: that response did not ask for tools, or it
    was the response of the fifth round. *)
Theorem decide_with_llm_verdict_source
        (repo : string) (requests_request : Request -> result string)
        (json_loads : string -> result json)
        (messages_create : list Message -> result Response)
        (context : PRContext) (w w' : World) (verdict : Verdict) :
  decide_with_llm repo requests_request json_loads messages_create context w
  = (Ok verdict, w') ->
  exists sent m response,
    requests w' = (requests w ++ sent ++ [m])%list
    /\ messages_create m = Ok response
    /\ verdict = parse_decision json_loads context
                   (final_text_of (content response))
    /\ (stop_reason response <> "tool_use" \/ length sent = 4%nat).
Proof.
  unfold decide_with_llm, mbind, max_iterations.
  destruct (agent_loop _ _ _ _ _ _ _) as [[o|e] w0] eqn:Hloop; [|discriminate].
  apply agent_loop_Ok in Hloop
    as [(Hn & _)|(sent & m & r & -> & Hreq & Hm & Hend)]; [discriminate Hn|].
  intros [= <- <-]. exists sent, m, r. repeat split; try assumption.
  destruct Hend as [Hend|Hend]; [left; exact Hend | right; lia].
Qed.

Lemma decide_with_llm_verdict_source_witness :
  decide_with_llm "octo/repo" github_down json_loads_stub answers_at_once
    sample_pr_context empty_world
  = (Ok (AUTO_MERGE, LOW, JString "ok"),
     {| requests := [first_request sample_pr_context] |})
  /\ exists sent m response,
      [first_request sample_pr_context]
      = (requests empty_world ++ sent ++ [m])%list
      /\ answers_at_once m = Ok response
      /\ (AUTO_MERGE, LOW, JString "ok")
         = parse_decision json_loads_stub sample_pr_context
             (final_text_of (content response))
      /\ (stop_reason response <> "tool_use" \/ length sent = 4%nat).
Proof.
  assert (decide_with_llm "octo/repo" github_down json_loads_stub
            answers_at_once sample_pr_context empty_world
          = (Ok (AUTO_MERGE, LOW, JString "ok"),
             {| requests := [first_request sample_pr_context] |})) as H
      by (vm_compute; reflexivity).
  split; [exact H|].
  exact (decide_with_llm_verdict_source "octo/repo" github_down json_loads_stub
           answers_at_once sample_pr_context empty_world
           {| requests := [first_request sample_pr_context] |}
           (AUTO_MERGE, LOW, JString "ok") H).
Defined.

(** X6.  [decide_with_llm] raises only what the reasoning service
    raised on the last request it sent, or what the tools of that last
    round raised, and the tools raise nothing but the [KeyError] of a
    missing argument: no other failure leaves the decision layer. *)
Theorem decide_with_llm_raises_only
        (repo : string) (requests_request : Request -> result string)
        (json_loads : string -> result json)
        (messages_create : list Message -> result Response)
        (context : PRContext) (w w' : World) (e : exn) :
  decide_with_llm repo requests_request json_loads messages_create context w
  = (Raise e, w') ->
  exists sent m,
    requests w' = (requests w ++ sent ++ [m])%list
    /\ (messages_create m = Raise e
        \/ exists r key,
            messages_create m = Ok r
            /\ stop_reason r = "tool_use"
            /\ run_tools repo requests_request (content r) = Raise e
            /\ e = KeyError key).
Proof.
  unfold decide_with_llm, mbind, max_iterations.
  destruct (agent_loop _ _ _ _ _ _ _) as [[[r|]|e0] w0] eqn:Hloop.
  - discriminate.
  - exfalso. rewrite agent_loop_unfold in Hloop. cbv zeta in Hloop.
    destruct (messages_create _) as [r1|]; [|discriminate].
    destruct (String.eqb (stop_reason r1) "tool_use"); [|discriminate].
    destruct (run_tools repo requests_request (content r1)); [|discriminate].
    apply agent_loop_Some in Hloop as [r' Hr']. discriminate.
  - intros [= <- <-].
    apply agent_loop_Raise in Hloop as (sent & m & Hreq & Hm).
    exists sent, m. split; [exact Hreq|].
    destruct Hm as [Hm|(r & Hr & Hstop & Htools)]; [left; exact Hm|].
    right. destruct (run_tools_Raise_KeyError _ _ _ _ Htools) as [key ->].
    exists r, key. auto.
Qed.

Lemma decide_with_llm_raises_only_witness :
  decide_with_llm "octo/repo" github_down json_loads_stub service_down
    sample_pr_context empty_world
  = (Raise (OtherError "overloaded_error"),
     {| requests := [first_request sample_pr_context] |})
  /\ exists sent m,
      [first_request sample_pr_context] = (requests empty_world ++ sent ++ [m])%list
      /\ (service_down m = Raise (OtherError "overloaded_error")
          \/ exists r key,
              service_down m = Ok r
              /\ stop_reason r = "tool_use"
              /\ run_tools "octo/repo" github_down (content r)
                 = Raise (OtherError "overloaded_error")
              /\ OtherError "overloaded_error" = KeyError key).
Proof.
  assert (decide_with_llm "octo/repo" github_down json_loads_stub service_down
            sample_pr_context empty_world
          = (Raise (OtherError "overloaded_error"),
             {| requests := [first_request sample_pr_context] |})) as H
      by reflexivity.
  split; [exact H|].
  exact (decide_with_llm_raises_only "octo/repo" github_down json_loads_stub
           service_down sample_pr_context empty_world
           {| requests := [first_request sample_pr_context] |}
           (OtherError "overloaded_error") H).
Defined.

Lemma agent_loop_service_failure
      (repo : string) (requests_request : Request -> result string)
      (messages_create : list Message -> result Response) (n : nat) :
  forall messages response w sent m e,
    requests (agent_loop repo requests_request messages_create n messages
                response w).2
    = (requests w ++ sent)%list ->
    m ∈ sent ->
    messages_create m = Raise e ->
    (agent_loop repo requests_request messages_create n messages response w).1
    = Raise e.
Proof.
  induction n as [|n IH]; intros messages response w sent m e.
  - cbn. intros Hreq Hin. exfalso.
    rewrite <- (app_nil_r (requests w)) in Hreq at 1.
    apply app_inv_head in Hreq as <-. inversion Hin.
  - rewrite agent_loop_unfold. cbv zeta.
    assert ((requests w ++ [messages])%list = (requests w ++ sent)%list ->
            m ∈ sent -> m = messages) as Hone.
    { intros Hreq Hin. apply app_inv_head in Hreq as <-.
      apply list_elem_of_singleton in Hin. exact Hin. }
    destruct (messages_create messages) as [r|e0] eqn:Hr.
    + destruct (String.eqb (stop_reason r) "tool_use").
      * destruct (run_tools repo requests_request (content r)) as [trs|e0].
        -- intros Hreq Hin Hm.
           destruct (agent_loop_requests repo requests_request messages_create n
                       (messages ++ [ {| role := "assistant";
                                         message_content := Blocks (content r) |};
                                      {| role := "user";
                                         message_content := Results trs |} ])%list
                       (Some r)
                       {| requests := (requests w ++ [messages])%list |})
             as (sent' & Hsent' & _).
           pose proof Hsent' as Hcopy. rewrite Hreq in Hcopy.
           cbn [requests] in Hcopy. rewrite <- app_assoc in Hcopy.
           apply app_inv_head in Hcopy as ->.
           apply elem_of_cons in Hin as [->|Hin]; [congruence|].
           exact (IH _ _ _ sent' m e Hsent' Hin Hm).
        -- intros Hreq Hin Hm. rewrite (Hone Hreq Hin) in Hm. congruence.
      * intros Hreq Hin Hm. rewrite (Hone Hreq Hin) in Hm. congruence.
    + intros Hreq Hin Hm. rewrite (Hone Hreq Hin) in Hm.
      cbn. congruence.
Qed.

(** X7.  A failure of the reasoning service is never turned into a
    fallback verdict: if the service raises on any request that
    [decide_with_llm] sends, [decide_with_llm] raises that exception. *)
Theorem decide_with_llm_service_failure
        (repo : string) (requests_request : Request -> result string)
        (json_loads : string -> result json)
        (messages_create : list Message -> result Response)
        (context : PRContext) (w : World)
        (sent : list (list Message)) (m : list Message) (e : exn) :
  requests (decide_with_llm repo requests_request json_loads messages_create
              context w).2
  = (requests w ++ sent)%list ->
  m ∈ sent ->
  messages_create m = Raise e ->
  (decide_with_llm repo requests_request json_loads messages_create context w).1
  = Raise e.
Proof.
  rewrite decide_with_llm_requests. intros Hreq Hin Hm.
  pose proof (agent_loop_service_failure repo requests_request messages_create
                max_iterations (first_request context) None w sent m e
                Hreq Hin Hm) as Hloop.
  unfold decide_with_llm, mbind. fold (first_request context).
  destruct (agent_loop _ _ _ _ _ _ _) as [[o|e0] w0]; [discriminate Hloop|].
  cbn in Hloop |- *. congruence.
Qed.

Lemma decide_with_llm_service_failure_witness :
  requests (decide_with_llm "octo/repo" github_down json_loads_stub service_down
              sample_pr_context empty_world).2
  = (requests empty_world ++ [first_request sample_pr_context])%list
  /\ first_request sample_pr_context ∈ [first_request sample_pr_context]
  /\ service_down (first_request sample_pr_context)
     = Raise (OtherError "overloaded_error")
  /\ (decide_with_llm "octo/repo" github_down json_loads_stub service_down
        sample_pr_context empty_world).1
     = Raise (OtherError "overloaded_error").
Proof.
  assert (first_request sample_pr_context ∈ [first_request sample_pr_context])
    as Hin by (left).
  split; [reflexivity|]. split; [exact Hin|]. split; [reflexivity|].
  exact (decide_with_llm_service_failure "octo/repo" github_down
           json_loads_stub service_down sample_pr_context empty_world
           [first_request sample_pr_context] (first_request sample_pr_context)
           (OtherError "overloaded_error") eq_refl Hin eq_refl).
Defined.

(** ** Verdict extraction and the fallback, continued *)

Lemma decision_token_not_value (d dv : MergeDecision) :
  decision_token d <> MergeDecision_value dv.
Proof. destruct d, dv; discriminate. Qed.

Lemma risk_token_not_value (r rv : RiskLevel) :
  risk_token r <> RiskLevel_value rv.
Proof. destruct r, rv; discriminate. Qed.

(** X8.  The tokens of a verdict are the member names, in upper case:
    an object whose "decision" field holds an enum value such as
    "auto_merge", or whose "risk_level" field holds one such as "low", is
    not accepted, and the fallback answers. *)
Theorem verdict_with_enum_values_falls_back
        (json_loads : string -> result json) (context : PRContext)
        (final_text matched : string) (d : gmap string json)
        (decision : MergeDecision) (risk : RiskLevel) :
  json_candidate final_text = Some matched ->
  json_loads matched = Ok (JObject d) ->
  d !! "decision" = Some (JString (MergeDecision_value decision))
  \/ d !! "risk_level" = Some (JString (RiskLevel_value risk)) ->
  parse_decision json_loads context final_text
  = fallback_verdict context final_text.
Proof.
  intros Hc Hl Hv. rewrite parse_decision_candidate, Hc.
  destruct (load_verdict json_loads matched) as [[[dec rk] reasoning]|e] eqn:Hload;
    [exfalso|reflexivity].
  apply load_verdict_Ok in Hload as (d' & Hd' & Hdec & Hrisk & _).
  rewrite Hl in Hd'. injection Hd' as <-.
  destruct Hv as [Hv|Hv].
  - rewrite Hv in Hdec. injection Hdec as Hdec.
    exact (decision_token_not_value _ _ (eq_sym Hdec)).
  - rewrite Hv in Hrisk. injection Hrisk as Hrisk.
    exact (risk_token_not_value _ _ (eq_sym Hrisk)).
Qed.

Lemma verdict_with_enum_values_falls_back_witness :
  json_candidate lowercase_object_text = Some lowercase_object_text
  /\ json_loads_lowercase lowercase_object_text = Ok (JObject lowercase_object)
  /\ (lowercase_object !! "decision"
      = Some (JString (MergeDecision_value AUTO_MERGE))
      \/ lowercase_object !! "risk_level"
         = Some (JString (RiskLevel_value LOW)))
  /\ parse_decision json_loads_lowercase sample_pr_context lowercase_object_text
     = fallback_verdict sample_pr_context lowercase_object_text.
Proof.
  assert (json_candidate lowercase_object_text = Some lowercase_object_text)
    as Hc by (vm_compute; reflexivity).
  assert (json_loads_lowercase lowercase_object_text
          = Ok (JObject lowercase_object)) as Hl by (vm_compute; reflexivity).
  assert (lowercase_object !! "decision"
          = Some (JString (MergeDecision_value AUTO_MERGE))
          \/ lowercase_object !! "risk_level"
             = Some (JString (RiskLevel_value LOW))) as Hv
      by (left; vm_compute; reflexivity).
  split; [exact Hc|]. split; [exact Hl|]. split; [exact Hv|].
  exact (verdict_with_enum_values_falls_back json_loads_lowercase
           sample_pr_context lowercase_object_text lowercase_object_text
           lowercase_object AUTO_MERGE LOW Hc Hl Hv).
Defined.

(** X9.  The reasoning of a fallback verdict is the fixed opening
    followed by the first 500 characters of the response: it carries the
    whole response when that has at most 500 characters, and never has
    more than 546 characters. *)
Theorem fallback_reasoning_bounded (context : PRContext) (llm_response : string) :
  let reasoning := (_fallback_decision context llm_response).2 in
  (exists rest,
      reasoning +:+ rest = fallback_header +:+ llm_response)
  /\ PyStr.len reasoning = (46 + Nat.min 500 (PyStr.len llm_response))%nat
  /\ ((PyStr.len llm_response <= 500)%nat ->
      reasoning = fallback_header +:+ llm_response)
  /\ (PyStr.len reasoning <= 546)%nat.
Proof.
  rewrite fallback_decision_policy. cbn [snd].
  split; [|split; [|split]].
  - destruct (take_prefix 500 llm_response) as [rest Hrest]. exists rest.
    rewrite app_assoc_string, <- Hrest. reflexivity.
  - rewrite len_app, len_take. reflexivity.
  - intros Hlen. rewrite take_all by exact Hlen. reflexivity.
  - rewrite len_app, len_take.
    change (PyStr.len fallback_header) with 46%nat. lia.
Qed.

(** X10.  The fallback decision depends on nothing but the CI status,
    the mergeable flag, the bump category and the security flag: two
    contexts that agree on these four get the same verdict, so the draft
    flag, the title and the labels play no part in it. *)
Theorem fallback_decision_four_fields (c1 c2 : PRContext) (llm_response : string) :
  ci_status c1 = ci_status c2 ->
  mergeable c1 = mergeable c2 ->
  update_type c1 = update_type c2 ->
  is_security_update c1 = is_security_update c2 ->
  _fallback_decision c1 llm_response = _fallback_decision c2 llm_response.
Proof.
  intros H1 H2 H3 H4. unfold _fallback_decision.
  rewrite H1, H2, H3, H4. reflexivity.
Qed.

Lemma fallback_decision_four_fields_witness :
  is_draft draft_pr_context = true
  /\ is_draft sample_pr_context = false
  /\ _fallback_decision draft_pr_context "no verdict"
     = _fallback_decision sample_pr_context "no verdict"
  /\ (_fallback_decision draft_pr_context "no verdict").1.1 = AUTO_MERGE.
Proof.
  split; [reflexivity|]. split; [reflexivity|].
  split; [|reflexivity].
  exact (fallback_decision_four_fields draft_pr_context sample_pr_context
           "no verdict" eq_refl eq_refl eq_refl eq_refl).
Defined.

(** ** Perception layer, continued *)

Lemma filenames_of_named (names : list string) :
  filenames_of (map (fun name => {| filename := Some name |}) names) = Ok names.
Proof.
  induction names as [|name names IH]; [reflexivity|].
  cbn [map filenames_of filename]. rewrite IH. reflexivity.
Qed.

Lemma filenames_of_length (files : list FileEntry) (names : list string) :
  filenames_of files = Ok names -> length names = length files.
Proof.
  revert names. induction files as [|f files IH]; intros names.
  - intros [= <-]. reflexivity.
  - cbn [filenames_of]. destruct (filename f); [|discriminate].
    destruct (filenames_of files) as [l|]; [|discriminate]. cbn [bind].
    intros [= <-]. simpl. rewrite (IH l eq_refl). reflexivity.
Qed.

Lemma filenames_of_missing (files : list FileEntry) :
  Exists (fun f => filename f = None) files ->
  filenames_of files = Raise (KeyError "filename").
Proof.
  induction 1 as [f files Hf|f files _ IH]; cbn [filenames_of].
  - rewrite Hf. reflexivity.
  - destruct (filename f); [|reflexivity]. rewrite IH. reflexivity.
Qed.

(** X11.  [_get_files_changed] never returns more than 10 paths: it
    returns the names of the first ten entries of the listing, in order,
    and does not look at later entries; when the request fails, or one of
    the first ten entries has no "filename", it returns the empty list. *)
Theorem get_files_changed_first_ten :
  (forall fetch, (length (_get_files_changed fetch) <= 10)%nat)
  /\ (forall names,
         _get_files_changed
           (Ok (map (fun name => {| filename := Some name |}) names))
         = take 10 names)
  /\ (forall files,
         _get_files_changed (Ok files) = _get_files_changed (Ok (take 10 files)))
  /\ (forall files,
         Exists (fun f => filename f = None) (take 10 files) ->
         _get_files_changed (Ok files) = [])
  /\ (forall e, _get_files_changed (Raise e) = []).
Proof.
  split; [|split; [|split; [|split]]].
  - intros [files|e]; unfold _get_files_changed; cbn [bind]; [|simpl; lia].
    destruct (filenames_of (take 10 files)) as [names|] eqn:Hn; [|simpl; lia].
    rewrite (filenames_of_length _ _ Hn), length_take. lia.
  - intros names. unfold _get_files_changed. cbn [bind].
    rewrite firstn_map, filenames_of_named. reflexivity.
  - intros files. unfold _get_files_changed. cbn [bind].
    rewrite take_take. reflexivity.
  - intros files Hex. unfold _get_files_changed. cbn [bind].
    rewrite (filenames_of_missing _ Hex). reflexivity.
  - reflexivity.
Qed.

(** *** Lowering and ASCII words *)

Lemma lower_unfold (c : ascii) (s' : string) :
  PyStr.lower (String c s')
  = match s' with
    | "" => String (PyStr.lower_char c) ""
    | String c2 s2 =>
        if Ascii.eqb c "196" && Ascii.eqb c2 "176" then
          String "i" (String "204" (String "135" (PyStr.lower s2)))
        else
          match s2 with
          | "" => String (PyStr.lower_char c) (PyStr.lower s')
          | String c3 s3 =>
              if Ascii.eqb c "226" && Ascii.eqb c2 "132" && Ascii.eqb c3 "170"
              then String "k" (PyStr.lower s3)
              else String (PyStr.lower_char c) (PyStr.lower s')
          end
    end.
Proof. destruct s' as [|c2 [|c3 s3]]; reflexivity. Qed.

Lemma ascii_byte_eqb (c d : ascii) :
  (nat_of_ascii c <? 128)%nat = true ->
  (nat_of_ascii d <? 128)%nat = false ->
  Ascii.eqb c d = false /\ Ascii.eqb d c = false.
Proof.
  intros Hc Hd. split; apply Ascii.eqb_neq; intros ->; congruence.
Qed.

(** An ASCII byte is lowered on its own, whatever follows it. *)
Lemma lower_cons_ascii (c : ascii) (s : string) :
  (nat_of_ascii c <? 128)%nat = true ->
  PyStr.lower (String c s) = String (PyStr.lower_char c) (PyStr.lower s).
Proof.
  intros Hc. rewrite lower_unfold.
  destruct (ascii_byte_eqb c "196" Hc eq_refl) as [E1 _].
  destruct (ascii_byte_eqb c "226" Hc eq_refl) as [E2 _].
  rewrite E1, E2. cbn [andb].
  destruct s as [|c2 [|c3 s3]]; reflexivity.
Qed.

Lemma lower_ascii_app (w t : string) :
  ascii_only w = true ->
  PyStr.lower (w +:+ t) = Re.fold_case w +:+ PyStr.lower t.
Proof.
  induction w as [|c w IH]; [reflexivity|]. cbn [ascii_only].
  intros [Hc Hw]%andb_true_iff.
  rewrite app_cons, lower_cons_ascii by exact Hc.
  rewrite (IH Hw). reflexivity.
Qed.

Lemma lower_char_ascii (c : ascii) :
  (nat_of_ascii (PyStr.lower_char c) <? 128)%nat = true ->
  (nat_of_ascii c <? 128)%nat = true.
Proof.
  unfold PyStr.lower_char, PyStr.is_upper. cbv zeta.
  destruct (_ && _) eqn:Hu; [|tauto].
  intros _. apply andb_true_iff in Hu as [_ Hu].
  apply Nat.leb_le in Hu. apply Nat.ltb_lt. lia.
Qed.

(** A text whose lowered form is ASCII and has no [k] was ASCII
    already. *)
Lemma lower_ascii_inv (w : string) :
  forall kw,
    PyStr.lower w = kw -> ascii_only kw = true -> occurs "k" kw = false ->
    ascii_only w = true.
Proof.
  induction w as [|c w IH]; intros kw; [reflexivity|].
  rewrite lower_unfold. destruct w as [|c2 w2].
  - intros <-. cbn [ascii_only]. rewrite !andb_true_r.
    intros H _. apply lower_char_ascii. exact H.
  - destruct (Ascii.eqb c "196" && Ascii.eqb c2 "176").
    { intros <-. cbn [ascii_only]. intros H. exfalso.
      apply andb_true_iff in H as [_ H]. apply andb_true_iff in H as [H _].
      discriminate H. }
    assert (forall kw',
               String (PyStr.lower_char c) (PyStr.lower (String c2 w2)) = kw' ->
               ascii_only kw' = true -> occurs "k" kw' = false ->
               ascii_only (String c (String c2 w2)) = true) as Hplain.
    { intros kw' <-. cbn [ascii_only occurs].
      intros [Hc Hrest]%andb_true_iff [_ Hk]%orb_false_iff.
      change ((nat_of_ascii c <? 128)%nat && ascii_only (String c2 w2) = true).
      rewrite (lower_char_ascii c Hc).
      exact (IH _ eq_refl Hrest Hk). }
    destruct w2 as [|c3 w3]; [exact (Hplain kw)|].
    destruct (Ascii.eqb c "226" && Ascii.eqb c2 "132" && Ascii.eqb c3 "170");
      [|exact (Hplain kw)].
    intros <-. intros _ Hk. cbn [occurs] in Hk. discriminate Hk.
Qed.

(** Lowering goes through a place where an ASCII byte starts. *)
Lemma lower_app_ascii (a : ascii) (t : string) :
  (nat_of_ascii a <? 128)%nat = true ->
  forall n pre,
    (String.length pre <= n)%nat ->
    PyStr.lower (pre +:+ String a t)
    = PyStr.lower pre +:+ PyStr.lower (String a t).
Proof.
  intros Ha.
  destruct (ascii_byte_eqb a "176" Ha eq_refl) as [E176 _].
  destruct (ascii_byte_eqb a "132" Ha eq_refl) as [E132 _].
  destruct (ascii_byte_eqb a "170" Ha eq_refl) as [E170 _].
  induction n as [|n IH]; intros pre Hlen.
  { destruct pre; [reflexivity | simpl in Hlen; lia]. }
  destruct pre as [|c [|c2 [|c3 p3]]]; [reflexivity| | |].
  - rewrite app_cons, app_nil, (lower_unfold c (String a t)), E176.
    rewrite andb_false_r.
    change (PyStr.lower (String c "")) with (String (PyStr.lower_char c) "").
    destruct t as [|c3 t3]; [reflexivity|].
    rewrite E132, andb_false_r. reflexivity.
  - rewrite !app_cons, app_nil.
    rewrite (lower_unfold c (String c2 (String a t))).
    rewrite (lower_unfold c (String c2 "")).
    destruct (Ascii.eqb c "196" && Ascii.eqb c2 "176"); [reflexivity|].
    rewrite E170, andb_false_r.
    rewrite app_cons.
    rewrite <- (IH (String c2 "")) by (simpl in *; lia). reflexivity.
  - rewrite !app_cons.
    rewrite (lower_unfold c (String c2 (String c3 (p3 +:+ String a t)))).
    rewrite (lower_unfold c (String c2 (String c3 p3))).
    destruct (Ascii.eqb c "196" && Ascii.eqb c2 "176").
    { rewrite !app_cons.
      rewrite <- (IH (String c3 p3)) by (simpl in *; lia). reflexivity. }
    destruct (Ascii.eqb c "226" && Ascii.eqb c2 "132" && Ascii.eqb c3 "170").
    { rewrite app_cons. rewrite <- (IH p3) by (simpl in *; lia). reflexivity. }
    rewrite app_cons.
    rewrite <- (IH (String c2 (String c3 p3))) by (simpl in *; lia).
    reflexivity.
Qed.

(** A word whose lowered form is an ASCII word without [k] shows up,
    lowered, in the lowered form of every text that holds it. *)
Lemma lower_keeps_word (pre word post kw : string) :
  PyStr.lower word = kw -> ascii_only kw = true -> occurs "k" kw = false ->
  Substring kw (PyStr.lower (pre +:+ word +:+ post)).
Proof.
  intros Hw Hascii Hk.
  pose proof (lower_ascii_inv word kw Hw Hascii Hk) as Hword.
  assert (kw = Re.fold_case word) as ->.
  { rewrite <- Hw, <- (app_nil_r_string word) at 1.
    rewrite lower_ascii_app by exact Hword. apply app_nil_r_string. }
  destruct word as [|a word].
  { exists (PyStr.lower (pre +:+ post)), "". rewrite app_nil.
    cbn [Re.fold_case]. rewrite app_nil, app_nil_r_string. reflexivity. }
  exists (PyStr.lower pre), (PyStr.lower post).
  cbn [ascii_only] in Hword. pose proof Hword as Hword'.
  apply andb_true_iff in Hword as [Ha _].
  rewrite app_cons, (lower_app_ascii a (word +:+ post) Ha _ pre (le_n _)).
  rewrite <- app_cons, lower_ascii_app by exact Hword'. reflexivity.
Qed.

(** X12.  The security detector finds its keywords in any letter
    case and anywhere: a body that contains a spelling of "security",
    "cve" or "vulnerability", or a label that contains a spelling of
    "security", makes it return true whatever else the labels and the
    body hold. *)
Theorem security_keyword_any_case
        (labels : list string) (body pre word post : string) :
  (body = pre +:+ word +:+ post /\
   (PyStr.lower word = "security" \/ PyStr.lower word = "cve"
    \/ PyStr.lower word = "vulnerability"))
  \/ (pre +:+ word +:+ post ∈ labels /\ PyStr.lower word = "security") ->
  _is_security_update labels body = true.
Proof.
  intros H. unfold _is_security_update. rewrite !orb_true_iff.
  assert (forall kw, PyStr.lower word = kw ->
                     ascii_only kw = true -> occurs "k" kw = false ->
                     PyStr.contains kw (PyStr.lower (pre +:+ word +:+ post))
                     = true) as Hkw.
  { intros kw Hw Ha Hk. apply contains_Substring.
    exact (lower_keeps_word pre word post kw Hw Ha Hk). }
  destruct H as [[-> [Hw|[Hw|Hw]]]|[Hin Hw]].
  - left. left. right. apply Hkw; [exact Hw | reflexivity | reflexivity].
  - left. right. apply Hkw; [exact Hw | reflexivity | reflexivity].
  - right. apply Hkw; [exact Hw | reflexivity | reflexivity].
  - left. left. left. apply existsb_exists.
    exists (PyStr.lower (pre +:+ word +:+ post)). split.
    + apply in_map. apply list_elem_of_In. exact Hin.
    + apply Hkw; [exact Hw | reflexivity | reflexivity].
Qed.

Lemma security_keyword_any_case_witness :
  ("Fixes Cve-2024-1 now" = "Fixes " +:+ "Cve" +:+ "-2024-1 now"
   /\ (PyStr.lower "Cve" = "security" \/ PyStr.lower "Cve" = "cve"
       \/ PyStr.lower "Cve" = "vulnerability")
   \/ "Fixes " +:+ "Cve" +:+ "-2024-1 now" ∈ ["deps"]
      /\ PyStr.lower "Cve" = "security")
  /\ _is_security_update ["deps"] "Fixes Cve-2024-1 now" = true.
Proof.
  assert ("Fixes Cve-2024-1 now" = "Fixes " +:+ "Cve" +:+ "-2024-1 now"
          /\ (PyStr.lower "Cve" = "security" \/ PyStr.lower "Cve" = "cve"
              \/ PyStr.lower "Cve" = "vulnerability")
          \/ "Fixes " +:+ "Cve" +:+ "-2024-1 now" ∈ ["deps"]
             /\ PyStr.lower "Cve" = "security") as H.
  { left. split; [reflexivity|]. right. left. reflexivity. }
  split; [exact H|].
  exact (security_keyword_any_case ["deps"] "Fixes Cve-2024-1 now"
           "Fixes " "Cve" "-2024-1 now" H).
Defined.

(** X13.  The bump category that [_parse_dependency_info] returns is
    one of "unknown", "patch", "minor" and "major"; it is "unknown"
    exactly when the version pattern finds no pair in the title, and then
    both versions are empty.  The body plays no part. *)
Theorem parse_dependency_info_unknown_iff (title body : string) :
  let '(category, old_version, new_version, _) :=
    _parse_dependency_info title body in
  category ∈ ["unknown"; "patch"; "minor"; "major"]
  /\ (category = "unknown" <-> version_pair title = None)
  /\ (version_pair title = None -> old_version = "" /\ new_version = "")
  /\ _parse_dependency_info title body = _parse_dependency_info title "".
Proof.
  unfold _parse_dependency_info, version_pair.
  destruct (Re.search version_re title) as [m|]; cbn [fmap option_fmap option_map].
  - unfold semver_update_type.
    rewrite (proj2 (Nat.leb_le 1 _) (split_nonempty "." (Re.group 1 m))).
    rewrite (proj2 (Nat.leb_le 1 _) (split_nonempty "." (Re.group 2 m))).
    cbn [andb].
    destruct (negb (bool_decide _)); cbn [default];
      [|destruct (_ && _); cbn [default]];
      (split; [set_solver|]); (split; [split; discriminate|]);
      (split; [discriminate | reflexivity]).
  - split; [set_solver|]. split; [tauto|]. split; [auto | reflexivity].
Qed.

(** X14.  Whatever the fetch returns, the aggregate is one of four
    pairs: (success, success), (failure, failure), (pending, null) or
    (unknown, null); the conclusion is never set without the matching
    status. *)
Theorem ci_status_four_outcomes (fetch : result (list CheckRun)) :
  _get_ci_status fetch
  ∈ [ ("success", Some "success"); ("failure", Some "failure");
      ("pending", None); ("unknown", None) ].
Proof.
  unfold _get_ci_status. destruct fetch as [check_runs|e]; cbn [bind];
    [|set_solver].
  unfold ci_status_of. case_bool_decide; [set_solver|].
  destruct (statuses_of check_runs) as [statuses|e]; cbn [bind]; [|set_solver].
  destruct (existsb _ statuses); [set_solver|].
  destruct (forallb _ (conclusions_of check_runs)); [set_solver|].
  destruct (existsb _ (conclusions_of check_runs)); set_solver.
Qed.

(** X15.  A check run without a "status" field makes the aggregate
    (unknown, null), whatever the other runs say: the [KeyError] is
    caught like a failed fetch. *)
Theorem ci_status_missing_status (check_runs : list CheckRun) :
  Exists (fun run => status run = None) check_runs ->
  _get_ci_status (Ok check_runs) = ("unknown", None).
Proof.
  apply ci_status_no_status.
Qed.

Lemma ci_status_missing_status_witness :
  Exists (fun run => status run = None)
         [ {| status := Some "completed"; conclusion := Some "failure" |};
           {| status := None; conclusion := None |} ]
  /\ _get_ci_status
       (Ok [ {| status := Some "completed"; conclusion := Some "failure" |};
             {| status := None; conclusion := None |} ])
     = ("unknown", None).
Proof.
  assert (Exists (fun run => status run = None)
            [ {| status := Some "completed"; conclusion := Some "failure" |};
              {| status := None; conclusion := None |} ]) as H
      by (right; left; reflexivity).
  split; [exact H|].
  exact (ci_status_missing_status _ H).
Defined.

(** X16.  When every check run has completed and none of them reports
    a conclusion, the aggregate is (success, success): the success test
    runs over the conclusions that are present, and passes when there are
    none. *)
Theorem ci_status_no_conclusion_reported (check_runs : list CheckRun) :
  check_runs <> [] ->
  Forall completed check_runs ->
  Forall (fun run => ~ reported (conclusion run)) check_runs ->
  _get_ci_status (Ok check_runs) = ("success", Some "success").
Proof.
  intros Hne Hall Hnone. rewrite (ci_status_all_completed _ Hne Hall).
  rewrite (proj2 (conclusions_all_success check_runs)); [reflexivity|].
  eapply Forall_impl; [exact Hnone|]. intros run Hn Hr. contradiction.
Qed.

Lemma ci_status_no_conclusion_reported_witness :
  [ {| status := Some "completed"; conclusion := None |} ] <> []
  /\ Forall completed [ {| status := Some "completed"; conclusion := None |} ]
  /\ Forall (fun run => ~ reported (conclusion run))
            [ {| status := Some "completed"; conclusion := None |} ]
  /\ _get_ci_status (Ok [ {| status := Some "completed"; conclusion := None |} ])
     = ("success", Some "success").
Proof.
  assert (Forall completed
            [ {| status := Some "completed"; conclusion := None |} ]) as Hc
      by (repeat constructor).
  assert (Forall (fun run => ~ reported (conclusion run))
            [ {| status := Some "completed"; conclusion := None |} ]) as Hn.
  { repeat constructor. intros [s [[=] _]]. }
  split; [discriminate|]. split; [exact Hc|]. split; [exact Hn|].
  apply ci_status_no_conclusion_reported; [discriminate | exact Hc | exact Hn].
Defined.

(** X17.  [is_dependency_pr] lets no pull request of an author outside
    the four known bot logins through, whatever its title and labels,
    unless the author check is skipped; past that check it answers true
    exactly when a label contains "dep" or the title contains "bump" or
    "update", in any letter case; a failed request is raised, not
    answered. *)
Theorem is_dependency_pr_author_gate
        (skip_author_check : bool) (pr_data : PullRequest) :
  (skip_author_check = false -> pr_author pr_data ∉ known_bots ->
   is_dependency_pr skip_author_check (Ok pr_data) = Ok false)
  /\ (skip_author_check = true \/ pr_author pr_data ∈ known_bots ->
      exists answer,
        is_dependency_pr skip_author_check (Ok pr_data) = Ok answer
        /\ (answer = true
            <-> (exists label, label ∈ pr_labels pr_data
                               /\ Substring "dep" (PyStr.lower label))
                \/ Substring "bump" (PyStr.lower (pr_title pr_data))
                \/ Substring "update" (PyStr.lower (pr_title pr_data))))
  /\ (forall e, is_dependency_pr skip_author_check (Raise e) = Raise e).
Proof.
  assert (existsb (String.eqb (pr_author pr_data)) known_bots = true
          <-> pr_author pr_data ∈ known_bots) as Hbots.
  { rewrite existsb_exists. split.
    - intros (x & Hin & Hx). apply String.eqb_eq in Hx as ->.
      apply list_elem_of_In. exact Hin.
    - intros Hin. exists (pr_author pr_data).
      split; [apply list_elem_of_In; exact Hin | apply String.eqb_refl]. }
  split; [|split; [|reflexivity]].
  - intros -> Hnot. unfold is_dependency_pr. cbn [bind negb andb].
    destruct (existsb _ known_bots) eqn:He; [|reflexivity].
    exfalso. apply Hnot, Hbots. reflexivity.
  - intros Hpass. unfold is_dependency_pr. cbn [bind].
    assert (negb skip_author_check
            && negb (existsb (String.eqb (pr_author pr_data)) known_bots)
            = false) as ->.
    { destruct Hpass as [->|Hin]; [reflexivity|].
      apply Hbots in Hin. rewrite Hin. apply andb_false_r. }
    eexists. split; [reflexivity|].
    rewrite !orb_true_iff, !contains_Substring, existsb_exists.
    assert ((exists x, In x (map PyStr.lower (pr_labels pr_data))
                       /\ PyStr.contains "dep" x = true)
            <-> (exists label, label ∈ pr_labels pr_data
                               /\ Substring "dep" (PyStr.lower label)))
      as Hlabels; [|tauto].
    split.
    + intros (x & Hin & Hx). apply in_map_iff in Hin as (label & <- & Hin).
      exists label. split; [apply list_elem_of_In; exact Hin|].
      apply contains_Substring. exact Hx.
    + intros (label & Hin & Hx). exists (PyStr.lower label). split.
      * apply in_map. apply list_elem_of_In. exact Hin.
      * apply contains_Substring. exact Hx.
Qed.

Lemma is_dependency_pr_author_gate_witness :
  (pr_author human_pr ∉ known_bots)
  /\ is_dependency_pr false (Ok human_pr) = Ok false.
Proof.
  assert (pr_author human_pr ∉ known_bots) as H.
  { unfold known_bots. rewrite !not_elem_of_cons.
    repeat split; try discriminate. apply not_elem_of_nil. }
  split; [exact H|].
  exact (proj1 (is_dependency_pr_author_gate false human_pr) eq_refl H).
Defined.

(** ** Action layer *)

Section ActionTrace.

Variable repo : string.
Variable github : ApiCall -> result unit.

(** What [execute_action] requests and returns, by cases on the
    decision and on the fate of the comment. *)
Lemma execute_action_trace (context : PRContext) (decision : MergeDecision)
      (risk : RiskLevel) (reasoning : string) (log : list ApiCall) :
  let comment := comment_call repo context decision risk reasoning in
  execute_action repo github context decision risk reasoning log
  = match github comment with
    | Raise e => (Raise e, (log ++ [comment])%list)
    | Ok _ =>
        match decision with
        | AUTO_MERGE =>
            (github (merge_call repo context risk reasoning),
             (log ++ [comment; merge_call repo context risk reasoning])%list)
        | REQUIRE_APPROVAL =>
            (Ok tt, (log ++ [comment; labels_call repo context])%list)
        | DO_NOT_MERGE => (Ok tt, (log ++ [comment])%list)
        end
    end.
Proof.
  cbv zeta.
  destruct decision; cbn [execute_action];
    unfold _auto_merge, _request_review, _add_blocking_comment, gbind, gtry,
      _add_comment, _add_labels, write_request, gret;
    fold (comment_call repo context AUTO_MERGE risk reasoning);
    fold (comment_call repo context REQUIRE_APPROVAL risk reasoning);
    fold (comment_call repo context DO_NOT_MERGE risk reasoning);
    fold (labels_call repo context).
  - change {| call_method := "POST";
              call_endpoint := _;
              call_json := CommentBody (auto_merge_comment context risk reasoning) |}
      with (comment_call repo context AUTO_MERGE risk reasoning).
    destruct (github (comment_call repo context AUTO_MERGE risk reasoning))
      as [[]|e]; [|reflexivity].
    rewrite <- app_assoc.
    destruct (github (merge_call repo context risk reasoning)) as [[]|e];
      reflexivity.
  - change {| call_method := "POST";
              call_endpoint := _;
              call_json := CommentBody (review_comment context risk reasoning) |}
      with (comment_call repo context REQUIRE_APPROVAL risk reasoning).
    destruct (github (comment_call repo context REQUIRE_APPROVAL risk reasoning))
      as [[]|e]; [|reflexivity].
    change {| call_method := "POST";
              call_endpoint := _;
              call_json := LabelList ["needs-review"; "llm-flagged"] |}
      with (labels_call repo context).
    rewrite <- app_assoc.
    destruct (github (labels_call repo context)) as [[]|e]; reflexivity.
  - change {| call_method := "POST";
              call_endpoint := _;
              call_json := CommentBody (blocking_comment context risk reasoning) |}
      with (comment_call repo context DO_NOT_MERGE risk reasoning).
    destruct (github (comment_call repo context DO_NOT_MERGE risk reasoning))
      as [[]|e]; reflexivity.
Qed.

End ActionTrace.

(** X18.  Every action starts with the comment of its decision, posted
    to the pull request, and sends at most one more request after it; when
    the comment is refused the action raises that exception and sends
    nothing else. *)
Theorem execute_action_comments_first
        (repo : string) (github : ApiCall -> result unit)
        (context : PRContext) (decision : MergeDecision) (risk : RiskLevel)
        (reasoning : string) (log : list ApiCall) :
  let comment := comment_call repo context decision risk reasoning in
  (exists rest,
      (execute_action repo github context decision risk reasoning log).2
      = (log ++ comment :: rest)%list
      /\ (length rest <= 1)%nat)
  /\ (forall e,
         github comment = Raise e ->
         execute_action repo github context decision risk reasoning log
         = (Raise e, (log ++ [comment])%list)).
Proof.
  cbv zeta. rewrite execute_action_trace. cbv zeta. split.
  - destruct (github (comment_call repo context decision risk reasoning)) as [u|e];
      [destruct decision|]; cbn [snd]; eexists; (split; [reflexivity|]);
      simpl; lia.
  - intros e ->. reflexivity.
Qed.


(** X20.  On the approval path the labels are best effort: once the
    comment is accepted the action returns normally and has sent the
    comment and the labels request, whether or not the labels request
    succeeded. *)
Theorem request_review_labels_not_fatal
        (repo : string) (github : ApiCall -> result unit)
        (context : PRContext) (risk : RiskLevel) (reasoning : string)
        (log : list ApiCall) (u : unit) :
  github (comment_call repo context REQUIRE_APPROVAL risk reasoning) = Ok u ->
  execute_action repo github context REQUIRE_APPROVAL risk reasoning log
  = (Ok tt,
     (log ++ [ comment_call repo context REQUIRE_APPROVAL risk reasoning;
               labels_call repo context ])%list).
Proof.
  intros Hc. rewrite execute_action_trace. cbv zeta. rewrite Hc. reflexivity.
Qed.

Lemma request_review_labels_not_fatal_witness :
  github_comments_only
    (comment_call "octo/repo" sample_pr_context REQUIRE_APPROVAL HIGH "major bump")
  = Ok tt
  /\ github_comments_only (labels_call "octo/repo" sample_pr_context)
     = Raise (HTTPError "405 Client Error")
  /\ execute_action "octo/repo" github_comments_only sample_pr_context
       REQUIRE_APPROVAL HIGH "major bump" []
     = (Ok tt,
        ([] ++ [ comment_call "octo/repo" sample_pr_context REQUIRE_APPROVAL
                   HIGH "major bump";
                 labels_call "octo/repo" sample_pr_context ])%list).
Proof.
  split; [reflexivity|]. split; [reflexivity|].
  exact (request_review_labels_not_fatal "octo/repo" github_comments_only
           sample_pr_context HIGH "major bump" [] tt eq_refl).
Defined.

(** X21.  On the auto-merge path a refused merge is fatal: the action
    raises the exception of the merge request, and by then the comment
    that announces the merge is already posted. *)
Theorem auto_merge_failure_is_raised
        (repo : string) (github : ApiCall -> result unit)
        (context : PRContext) (risk : RiskLevel) (reasoning : string)
        (log : list ApiCall) (u : unit) (e : exn) :
  github (comment_call repo context AUTO_MERGE risk reasoning) = Ok u ->
  github (merge_call repo context risk reasoning) = Raise e ->
  execute_action repo github context AUTO_MERGE risk reasoning log
  = (Raise e,
     (log ++ [ comment_call repo context AUTO_MERGE risk reasoning;
               merge_call repo context risk reasoning ])%list).
Proof.
  intros Hc Hm. rewrite execute_action_trace. cbv zeta. rewrite Hc, Hm.
  reflexivity.
Qed.

Lemma auto_merge_failure_is_raised_witness :
  github_comments_only
    (comment_call "octo/repo" sample_pr_context AUTO_MERGE LOW "patch bump")
  = Ok tt
  /\ github_comments_only (merge_call "octo/repo" sample_pr_context LOW "patch bump")
     = Raise (HTTPError "405 Client Error")
  /\ execute_action "octo/repo" github_comments_only sample_pr_context
       AUTO_MERGE LOW "patch bump" []
     = (Raise (HTTPError "405 Client Error"),
        ([] ++ [ comment_call "octo/repo" sample_pr_context AUTO_MERGE LOW
                   "patch bump";
                 merge_call "octo/repo" sample_pr_context LOW "patch bump" ])%list).
Proof.
  split; [reflexivity|]. split; [reflexivity|].
  exact (auto_merge_failure_is_raised "octo/repo" github_comments_only
           sample_pr_context LOW "patch bump" [] tt
           (HTTPError "405 Client Error") eq_refl eq_refl).
Defined.

(** ** Dependabot titles *)

(** A pattern [word1 (.+?) word2] under [re.IGNORECASE], on a title
    that starts with [word1]: the group takes [name] when [word2] does not
    match anywhere inside it. *)
Lemma lazy_group_match (word1 word2 name rest : string) :
  name <> "" ->
  occurs "010" name = false ->
  (forall a b g (k : string -> gmap nat string -> option (gmap nat string)),
      name = a +:+ b -> a <> "" -> b <> "" ->
      Re.run (Re.LitI word2 Re.Eps) (b +:+ word2 +:+ rest) g k = None) ->
  exists m,
    Re.search (Re.LitI word1 (Re.Cat (Re.Grp 1 (Re.Plus false Re.dot))
                                     (Re.LitI word2 Re.Eps)))
              (word1 +:+ name +:+ word2 +:+ rest) = Some m
    /\ Re.group 1 m = name.
Proof.
  intros Hne Hnl Hnot.
  set (tail := word2 +:+ rest).
  set (title := word1 +:+ name +:+ tail).
  exists (<[0%nat := Re.consumed title rest]>
            (<[1%nat := Re.consumed (name +:+ tail) tail]> ∅)).
  split.
  - rewrite search_unfold.
    assert (Re.match_at (Re.LitI word1 (Re.Cat (Re.Grp 1 (Re.Plus false Re.dot))
                                               (Re.LitI word2 Re.Eps))) title
            = Some (<[0%nat := Re.consumed title rest]>
                      (<[1%nat := Re.consumed (name +:+ tail) tail]> ∅)))
      as ->; [|reflexivity].
    unfold Re.match_at. rewrite run_Grp. unfold title.
    rewrite run_LitI_self. fold title.
    destruct name as [|c name]; [congruence|]. rewrite app_cons.
    rewrite run_lazy_plus_group.
    assert (Re.dot c = true) as ->.
    { unfold Re.dot. apply negb_true_iff, Ascii.eqb_neq.
      intros ->. apply (occurs_false_split _ _ "" name "010" Hnl); reflexivity. }
    rewrite <- app_cons.
    apply star_lazy_first.
    + intros a b -> Hb.
      apply (Hnot (String c a) b); [reflexivity | discriminate | exact Hb].
    + intros a d b ->. unfold Re.dot. apply negb_true_iff, Ascii.eqb_neq.
      intros ->.
      apply (occurs_false_split _ _ (String c a) b "010" Hnl); reflexivity.
    + unfold tail. rewrite run_LitI_self.
      unfold Re.Eps. cbn [Re.run]. rewrite star_lazy_unfold. reflexivity.
  - unfold Re.group. rewrite lookup_insert_ne by discriminate.
    rewrite lookup_insert_eq. cbn [default]. apply consumed_app.
Qed.

Lemma Substring_fold_case (needle hay : string) :
  Substring needle hay -> Substring (Re.fold_case needle) (Re.fold_case hay).
Proof.
  intros (pre & post & ->). exists (Re.fold_case pre), (Re.fold_case post).
  rewrite !fold_case_app. reflexivity.
Qed.

Lemma contains_false_not_Substring (needle hay : string) :
  PyStr.contains needle hay = false -> ~ Substring needle hay.
Proof.
  intros Hf Hs. apply contains_Substring in Hs. congruence.
Qed.

(** Inside a name without "from" in any letter case, the word " from"
    of the Dependabot pattern does not match before the name ends. *)
Lemma from_not_before_end {R : Type} (a b rest : string)
      (g : gmap nat string) (k : string -> gmap nat string -> option R) :
  PyStr.contains "from" (Re.fold_case (a +:+ b)) = false ->
  b <> "" ->
  Re.run (Re.LitI " from" Re.Eps) (b +:+ " from" +:+ rest) g k = None.
Proof.
  intros Hno Hb.
  destruct (Re.run _ _ g k) as [res|] eqn:Hrun; [exfalso|reflexivity].
  apply run_LitI_Some in Hrun as [rest' Hrest].
  rewrite fold_case_app in Hrest.
  change (Re.fold_case (" from" +:+ rest))
    with (" from" +:+ Re.fold_case rest) in Hrest.
  change (Re.fold_case " from") with " from" in Hrest.
  destruct b as [|x1 [|x2 [|x3 [|x4 [|x5 b]]]]]; [congruence| | | | |];
    cbn [Re.fold_case] in Hrest; rewrite !app_cons, ?app_nil in Hrest.
  - injection Hrest as _ H _. discriminate H.
  - injection Hrest as _ _ H _. discriminate H.
  - injection Hrest as _ _ _ H _. discriminate H.
  - injection Hrest as _ _ _ _ H _. discriminate H.
  - injection Hrest as _ H2 H3 H4 H5 _.
    apply (contains_false_not_Substring _ _ Hno).
    exists (Re.fold_case a +:+ String (PyStr.lower_char x1) ""), (Re.fold_case b).
    rewrite fold_case_app. cbn [Re.fold_case]. rewrite H2, H3, H4, H5.
    rewrite app_assoc_string. reflexivity.
Qed.

Lemma contains_cons_ne (d c : ascii) (needle hay : string) :
  d <> c ->
  PyStr.contains (String d needle) (String c hay)
  = PyStr.contains (String d needle) hay.
Proof.
  intros Hne. cbn [PyStr.contains]. simpl String.prefix.
  destruct (ascii_dec d c); [congruence | reflexivity].
Qed.

(** A name that does not contain "from" leaves no "from " before the
    version pair of a Dependabot title. *)
Lemma no_from_before_versions (name : string) :
  PyStr.contains "from" name = false ->
  PyStr.contains "from " ("Bump " +:+ name +:+ " ") = false.
Proof.
  intros Hno. rewrite !app_cons, app_nil.
  rewrite !contains_cons_ne by discriminate.
  induction name as [|c name IH]; [reflexivity|].
  rewrite app_cons. cbn [PyStr.contains] in Hno |- *.
  apply orb_false_iff in Hno as [Hpre Hno].
  rewrite (IH Hno), orb_false_r.
  destruct (String.prefix "from " (String c (name +:+ " "))) eqn:Hp;
    [exfalso|reflexivity].
  apply prefix_app in Hp as [post Hp].
  assert (String.prefix "from" (String c name) = true) as Hyes; [|congruence].
  apply prefix_app.
  destruct name as [|c2 [|c3 [|c4 name]]];
    rewrite ?app_cons, ?app_nil in Hp.
  - injection Hp as _ H. discriminate H.
  - injection Hp as _ _ H. discriminate H.
  - injection Hp as _ _ _ H. discriminate H.
  - injection Hp as -> -> -> -> _. exists name. reflexivity.
Qed.

(** X22.  On a Dependabot title "Bump <name> from A to B", possibly
    followed by more text, where <name> is not empty, has no line break,
    no leading or trailing whitespace and no "from" in any letter case,
    and A and B are made of decimal digits (of any script) and dots, the
    classifier returns the name, both versions, and a category that is
    "major", "minor" or "patch" by the first two components of A and
    B. *)
Theorem dependabot_title_parsed (name A B post body : string) :
  let title := "Bump " +:+ name +:+ " from " +:+ A +:+ " to " +:+ B +:+ post in
  name <> "" ->
  occurs "010" name = false ->
  PyStr.strip name = name ->
  PyStr.contains "from" (Re.fold_case name) = false ->
  A <> "" -> B <> "" ->
  PyStr.all_chars Re.digit_dot A = true ->
  PyStr.all_chars Re.digit_dot B = true ->
  version_end "" post = true ->
  exists category,
    _parse_dependency_info title body = (category, A, B, name)
    /\ semver_update_type (PyStr.split "." A) (PyStr.split "." B) = Some category
    /\ category ∈ ["major"; "minor"; "patch"].
Proof.
  intros title Hne Hnl Hstrip Hfrom HA HB HdA HdB Hend.
  destruct (lazy_group_match "Bump " " from" name
              (" " +:+ A +:+ " to " +:+ B +:+ post) Hne Hnl)
    as (m & Hm & Hg).
  { intros a b g k -> _ Hb. apply (from_not_before_end a b); assumption. }
  fold bump_re in Hm.
  change ("Bump " +:+ name +:+ " from" +:+ " " +:+ A +:+ " to " +:+ B +:+ post)
    with title in Hm.
  assert (version_pair title = Some (A, B)) as Hpair.
  { unfold title.
    replace ("Bump " +:+ name +:+ " from " +:+ A +:+ " to " +:+ B +:+ post)
      with (("Bump " +:+ name +:+ " ") +:+ "from " +:+ A +:+ " to " +:+ B +:+ post)
      by (rewrite !app_assoc_string; reflexivity).
    apply (version_pair_found ("Bump " +:+ name +:+ " ") A "" B "" post);
      try assumption; try reflexivity.
    apply no_from_before_versions.
    destruct (PyStr.contains "from" name) eqn:Hc; [exfalso|reflexivity].
    apply (contains_false_not_Substring _ _ Hfrom).
    apply contains_Substring, Substring_fold_case in Hc. exact Hc. }
  unfold version_pair in Hpair. unfold _parse_dependency_info.
  rewrite Hm, Hg, Hstrip.
  destruct (Re.search version_re title) as [mv|]; [|discriminate].
  injection Hpair as -> ->.
  unfold semver_update_type.
  rewrite (proj2 (Nat.leb_le 1 _) (split_nonempty "." A)).
  rewrite (proj2 (Nat.leb_le 1 _) (split_nonempty "." B)). cbn [andb].
  destruct (negb (bool_decide _)); cbn [default];
    [|destruct (_ && _); cbn [default]];
    eexists; (split; [reflexivity|]); (split; [reflexivity|]); set_solver.
Qed.

Lemma dependabot_title_parsed_witness :
  "café-lib" <> ""
  /\ occurs "010" "café-lib" = false
  /\ PyStr.strip "café-lib" = "café-lib"
  /\ PyStr.contains "from" (Re.fold_case "café-lib") = false
  /\ PyStr.all_chars Re.digit_dot "٤.١٨" = true
  /\ PyStr.all_chars Re.digit_dot "٤.١٩" = true
  /\ version_end "" " in /api" = true
  /\ exists category,
      _parse_dependency_info
        ("Bump " +:+ "café-lib" +:+ " from " +:+ "٤.١٨" +:+ " to " +:+ "٤.١٩"
         +:+ " in /api") "" = (category, "٤.١٨", "٤.١٩", "café-lib")
      /\ semver_update_type (PyStr.split "." "٤.١٨") (PyStr.split "." "٤.١٩")
         = Some category
      /\ category ∈ ["major"; "minor"; "patch"].
Proof.
  repeat (split; [vm_compute; reflexivity || discriminate|]).
  apply (dependabot_title_parsed "café-lib" "٤.١٨" "٤.١٩" " in /api" "");
    vm_compute; reflexivity || discriminate.
Defined.

(** ** Entry point *)

(** X23.  [main] exits with status 1 and has not started the bot when
    one of the four required variables is missing or empty, and when the
    pull request number is not an integer.  It starts the bot at most
    once, and its status is 0 exactly when that run ended without an
    exception.  The bot it starts is built from the three credentials,
    with the author check skipped exactly when SKIP_AUTHOR_CHECK spells
    "true" in some letter case. *)
Theorem main_exit_status
        (py_int : string -> option Z)
        (bot_run : BotConfig -> Z -> result unit)
        (environ : gmap string string) :
  let exit_status := (main py_int bot_run environ).1 in
  let runs := (main py_int bot_run environ).2 in
  ((exists variable,
       variable ∈ required_variables
       /\ (environ !! variable = None \/ environ !! variable = Some "")) ->
   exit_status = 1%Z /\ runs = [])
  /\ (forall number,
         environ !! "PR_NUMBER" = Some number -> py_int number = None ->
         exit_status = 1%Z /\ runs = [])
  /\ (exit_status = 0%Z \/ exit_status = 1%Z)
  /\ (length runs <= 1)%nat
  /\ (exit_status = 0%Z <->
      exists bot pr_number,
        runs = [(bot, pr_number)] /\ bot_run bot pr_number = Ok tt)
  /\ (forall bot pr_number,
         (bot, pr_number) ∈ runs ->
         exists token repository number key,
           environ !! "GITHUB_TOKEN" = Some token /\ token <> ""
           /\ environ !! "GITHUB_REPOSITORY" = Some repository
           /\ repository <> ""
           /\ environ !! "PR_NUMBER" = Some number /\ number <> ""
           /\ environ !! "ANTHROPIC_API_KEY" = Some key /\ key <> ""
           /\ py_int number = Some pr_number
           /\ bot = {| cfg_github_token := token;
                       cfg_repo := repository;
                       cfg_anthropic_key := key;
                       cfg_skip_author_check :=
                         bool_decide
                           (PyStr.lower (default "false"
                                           (environ !! "SKIP_AUTHOR_CHECK"))
                            = "true") |}).
Proof.
  cbv zeta. unfold main. cbn [forallb].
  assert (forall v, truthy v = true <-> exists s, v = Some s /\ s <> "")
    as Htruthy.
  { intros [s|]; cbn [truthy].
    - rewrite negb_true_iff, String.eqb_neq. split; [eauto|].
      intros (s' & [= <-] & Hs). exact Hs.
    - split; [discriminate | intros (s & [=] & _)]. }
  assert (bool_decide (PyStr.lower (default "false"
                                      (environ !! "SKIP_AUTHOR_CHECK"))
                       = "true")
          = String.eqb (PyStr.lower (default "false"
                                       (environ !! "SKIP_AUTHOR_CHECK")))
                       "true") as Hskip.
  { destruct (String.eqb_spec (PyStr.lower (default "false"
                                             (environ !! "SKIP_AUTHOR_CHECK")))
                              "true") as [He|He].
    - apply bool_decide_eq_true_2. exact He.
    - apply bool_decide_eq_false_2. exact He. }
  rewrite Hskip. clear Hskip.
  destruct (truthy (environ !! "GITHUB_TOKEN")) eqn:H1;
    [destruct (truthy (environ !! "GITHUB_REPOSITORY")) eqn:H2;
     [destruct (truthy (environ !! "PR_NUMBER")) eqn:H3;
      [destruct (truthy (environ !! "ANTHROPIC_API_KEY")) eqn:H4|]|]|];
    cbn [andb negb fst snd];
    try (split; [intros _; split; reflexivity|];
         split; [intros number _ _; split; reflexivity|];
         split; [right; reflexivity|];
         split; [simpl; lia|];
         split; [split; [discriminate | intros (bot & n & [=] & _)]|];
         intros bot n Hin; inversion Hin).
  apply Htruthy in H1 as (token & E1 & N1).
  apply Htruthy in H2 as (repository & E2 & N2).
  apply Htruthy in H3 as (number & E3 & N3).
  apply Htruthy in H4 as (key & E4 & N4).
  rewrite E1, E2, E3, E4.
  destruct (py_int number) as [pr_number|] eqn:Hint; cbv zeta;
    [destruct (bot_run _ pr_number) as [[]|e] eqn:Hrun|]; cbn [fst snd].
  - split.
    { intros (variable & Hin & Hbad). exfalso. unfold required_variables in Hin.
      rewrite !elem_of_cons in Hin.
      destruct Hin as [->|[->|[->|[->|Hin]]]]; [| | | |inversion Hin];
        destruct Hbad; congruence. }
    split; [intros number' [= <-] Hn; congruence|].
    split; [left; reflexivity|]. split; [simpl; lia|].
    split; [split; [intros _; eexists _, _; split; [reflexivity | exact Hrun]
                   | reflexivity]|].
    intros bot n Hin. apply list_elem_of_singleton in Hin. injection Hin as -> ->.
    exists token, repository, number, key. auto 12.
  - split.
    { intros (variable & Hin & Hbad). exfalso. unfold required_variables in Hin.
      rewrite !elem_of_cons in Hin.
      destruct Hin as [->|[->|[->|[->|Hin]]]]; [| | | |inversion Hin];
        destruct Hbad; congruence. }
    split; [intros number' [= <-] Hn; congruence|].
    split; [right; reflexivity|]. split; [simpl; lia|].
    split; [split; [discriminate|]|].
    { intros (bot & n & [= <- <-] & Hok). congruence. }
    intros bot n Hin. apply list_elem_of_singleton in Hin. injection Hin as -> ->.
    exists token, repository, number, key. auto 12.
  - split; [intros _; split; reflexivity|].
    split; [intros number' _ _; split; reflexivity|].
    split; [right; reflexivity|]. split; [simpl; lia|].
    split; [split; [discriminate | intros (bot & n & [=] & _)]|].
    intros bot n Hin. inversion Hin.
Qed.

Lemma main_exit_status_witness :
  (exists variable,
      variable ∈ required_variables
      /\ (environ_empty_token !! variable = None
          \/ environ_empty_token !! variable = Some ""))
  /\ main int_stub bot_completes environ_empty_token = (1%Z, []).
Proof.
  assert (exists variable,
             variable ∈ required_variables
             /\ (environ_empty_token !! variable = None
                 \/ environ_empty_token !! variable = Some "")) as H.
  { exists "GITHUB_TOKEN". split; [left|right; vm_compute; reflexivity]. }
  split; [exact H|].
  pose proof (main_exit_status int_stub bot_completes environ_empty_token) as Hm.
  cbv zeta in Hm. destruct Hm as (Hmissing & _).
  destruct (Hmissing H) as [Hs Hr].
  destruct (main int_stub bot_completes environ_empty_token) as [st rs].
  cbn [fst snd] in Hs, Hr. rewrite Hs, Hr. reflexivity.
Defined.
